(** * Terraform provider for the WALLIX Bastion appliance: CRUD reconcilers

    A shallow embedding of four files of the provider
    (resource_application.go, resource_device_localdomain_account_credential.go,
    resource_externalauth_ldap.go and the localpasswordpolicy data source)
    together with the properties of their Codec, Locator, Reconciler and
    Version Gate.

    Go values that cross the plugin SDK boundary are dynamically typed
    ([interface{}]); they are modelled by the inductive [value] and every type
    assertion [x.(T)] is a partial function that panics on the wrong shape.
    The appliance is an arbitrary function from the history of requests to a
    response, and every operation threads the request log. *)

From Stdlib Require Import ZArith String Ascii List Floats.
From stdpp Require Import base strings gmap list pretty.

(** ** Go runtime: panics, errors, slices *)

(** The result of running Go code that may panic. *)
Inductive outcome (A : Type) : Type :=
| Ok (a : A)
| Panic (msg : string).
Arguments Ok {A} a.
Arguments Panic {A} msg.

#[global] Instance outcome_ret : MRet outcome := fun A a => Ok a.
#[global] Instance outcome_bind : MBind outcome :=
  fun A B f m => match m with Ok a => f a | Panic msg => Panic msg end.

Definition isPanic {A} (o : outcome A) : bool :=
  match o with Ok _ => false | Panic _ => true end.

(** A Go [error] is identified with the text of [err.Error()]; the nil error
    is [None]. *)
Definition error : Type := string.

(** A Go slice is either nil or a (possibly empty) sequence: the two are told
    apart by [encoding/json] ([null] against [[]]). *)
Definition slice (A : Type) : Type := option (list A).

Definition elems {A} (s : slice A) : list A := default [] s.

(** [append(s, x)] *)
Definition append {A} (s : slice A) (x : A) : slice A := Some (elems s ++ [x]).

(** [make([]T, 0)] *)
Definition make {A} : slice A := Some [].

(** [*p] for a pointer [p]; dereferencing nil panics. *)
Definition deref {A} (p : option A) : outcome A :=
  match p with
  | Some a => Ok a
  | None => Panic "invalid memory address or nil pointer dereference"
  end.

Definition LF : string := String (ascii_of_nat 10) EmptyString.

(** [strings.Split(s, sep)] for a separator of one byte, the only way the
    provider calls it: [cur] is the segment being read, reversed. *)
Fixpoint splitFrom (sep : ascii) (cur : string) (s : string) : list string :=
  match s with
  | EmptyString => [String.rev cur]
  | String a s' =>
      if decide (a = sep) then String.rev cur :: splitFrom sep EmptyString s'
      else splitFrom sep (String a cur) s'
  end.

Definition strings_Split (s : string) (sep : ascii) : list string :=
  splitFrom sep EmptyString s.

(** [strings.HasPrefix(s, prefix)] *)
Definition strings_HasPrefix (s prefix : string) : bool := String.prefix prefix s.

(** ** Dynamically typed values of the plugin SDK *)

Set Warnings "-register-all".

Inductive value : Type :=
| VNil
| VString (s : string)
| VBool (b : bool)
| VInt (n : Z)
| VFloat (f : float)
| VSlice (l : list value)            (* []interface{}, []string, []map[...]... *)
| VSet (l : list value)              (* *schema.Set *)
| VMap (m : list (string * value)).  (* map[string]interface{} *)

Definition assertString (v : value) : outcome string :=
  match v with VString s => Ok s | _ => Panic "interface conversion: interface {} is not string" end.

Definition assertBool (v : value) : outcome bool :=
  match v with VBool b => Ok b | _ => Panic "interface conversion: interface {} is not bool" end.

Definition assertInt (v : value) : outcome Z :=
  match v with VInt n => Ok n | _ => Panic "interface conversion: interface {} is not int" end.

Definition assertFloat64 (v : value) : outcome float :=
  match v with VFloat f => Ok f | _ => Panic "interface conversion: interface {} is not float64" end.

(** [v.( *schema.Set )] followed by [.List()]: the elements of the set. *)
Definition assertSetList (v : value) : outcome (list value) :=
  match v with VSet l => Ok l | _ => Panic "interface conversion: interface {} is not *schema.Set" end.

(** [v.([]interface{})] *)
Definition assertSlice (v : value) : outcome (list value) :=
  match v with VSlice l => Ok l | _ => Panic "interface conversion: interface {} is not []interface {}" end.

(** [v.(map[string]interface{})] *)
Definition assertMap (v : value) : outcome (list (string * value)) :=
  match v with VMap m => Ok m | _ => Panic "interface conversion: interface {} is not map[string]interface {}" end.

Fixpoint assoc (k : string) (m : list (string * value)) : option value :=
  match m with
  | [] => None
  | (k', v) :: m' => if decide (k' = k) then Some v else assoc k m'
  end.

(** [l[i]] on a Go slice; an index out of range panics. *)
Definition at_ {A} (l : list A) (i : nat) : outcome A :=
  match l !! i with
  | Some a => Ok a
  | None => Panic "index out of range"
  end.

(** [m[k]] on a Go map: the nil interface when the key is missing. *)
Definition index (m : list (string * value)) (k : string) : value :=
  default VNil (assoc k m).

(** ** Schemas and resource data of the plugin SDK *)

Inductive ValueType : Type :=
| TypeString
| TypeStringDefault (dflt : string)    (* Type: schema.TypeString, Default: dflt *)
| TypeBool
| TypeInt
| TypeFloat
| TypeList (elem : ValueType)
| TypeSet (elem : ValueType)
| TypeResource (fields : list (string * ValueType)).  (* Elem: &schema.Resource{...} *)

Definition Schema : Type := list (string * ValueType).

Fixpoint schemaType (sch : Schema) (k : string) : option ValueType :=
  match sch with
  | [] => None
  | (k', t) :: sch' => if decide (k' = k) then Some t else schemaType sch' k
  end.

Fixpoint hasType (t : ValueType) (v : value) {struct t} : bool :=
  match t, v with
  | TypeString, VString _ => true
  | TypeStringDefault _, VString _ => true
  | TypeBool, VBool _ => true
  | TypeInt, VInt _ => true
  | TypeFloat, VFloat _ => true
  | TypeList e, VSlice l => forallb (hasType e) l
  | TypeSet e, VSet l => forallb (hasType e) l
  | TypeResource fs, VMap m =>
      (fix fields (fs : list (string * ValueType)) : bool :=
         match fs with
         | [] => true
         | (k, t') :: fs' =>
             match assoc k m with
             | Some v' => hasType t' v'
             | None => false
             end && fields fs'
         end) fs
  | _, _ => false
  end.

Fixpoint zeroValue (t : ValueType) : value :=
  match t with
  | TypeString => VString ""
  | TypeStringDefault dflt => VString dflt
  | TypeBool => VBool false
  | TypeInt => VInt 0
  | TypeFloat => VFloat 0
  | TypeList _ => VSlice []
  | TypeSet _ => VSet []
  | TypeResource fs =>
      VMap ((fix fields (fs : list (string * ValueType)) :=
               match fs with
               | [] => []
               | (k, t') :: fs' => (k, zeroValue t') :: fields fs'
               end) fs)
  end.

(** What [d.Set] stores for a Go value handed to a field of type [t]: slices
    become lists or sets, maps are completed with the zero value of every
    missing field of the nested resource; [None] is a type error. Sets keep
    the order and the repetitions of the slice they are built from. *)
Fixpoint coerce (t : ValueType) (v : value) {struct t} : option value :=
  match t, v with
  | TypeString, VString _ | TypeStringDefault _, VString _
  | TypeBool, VBool _ | TypeInt, VInt _ | TypeFloat, VFloat _ => Some v
  | TypeList e, VSlice l => VSlice <$> mapM (coerce e) l
  | TypeList e, VNil => Some (VSlice [])
  | TypeSet e, VSlice l | TypeSet e, VSet l => VSet <$> mapM (coerce e) l
  | TypeSet e, VNil => Some (VSet [])
  | TypeResource fs, VMap m =>
      VMap <$>
      (fix fields (fs : list (string * ValueType)) : option (list (string * value)) :=
         match fs with
         | [] => Some []
         | (k, t') :: fs' =>
             match match assoc k m with Some v' => coerce t' v' | None => Some (zeroValue t') end with
             | Some v' => (fun r => (k, v') :: r) <$> fields fs'
             | None => None
             end
         end) fs
  | _, _ => None
  end.

(** [*schema.ResourceData] of a resource whose schema is [sch]. *)
Record ResourceData (sch : Schema) : Type := mkResourceData {
  rdId : string;
  rdState : gmap string value;
  rdPartial : bool;
}.
Arguments mkResourceData {sch} _ _ _.
Arguments rdId {sch} _.
Arguments rdState {sch} _.
Arguments rdPartial {sch} _.

(** [d.Id()] *)
Definition Id {sch} (d : ResourceData sch) : string := rdId d.

(** [d.SetId(id)] *)
Definition SetId {sch} (d : ResourceData sch) (id : string) : ResourceData sch :=
  mkResourceData id (rdState d) (rdPartial d).

(** [d.Partial(on)] *)
Definition Partial {sch} (d : ResourceData sch) (on : bool) : ResourceData sch :=
  mkResourceData (rdId d) (rdState d) on.

(** [d.Get(key)]: always a value of the type the schema declares for [key],
    its zero value (or the default the schema declares) when the field is
    unset; nil for an unknown key. *)
Definition Get {sch} (d : ResourceData sch) (key : string) : value :=
  match schemaType sch key with
  | Some t =>
      match rdState d !! key with
      | Some v => if hasType t v then v else zeroValue t
      | None => zeroValue t
      end
  | None => VNil
  end.

(** [d.Set(key, v)]: the updated data, or the error of an unknown key or of a
    value that does not fit the schema. *)
Definition Set_ {sch} (d : ResourceData sch) (key : string) (v : value)
  : ResourceData sch + error :=
  match schemaType sch key with
  | Some t =>
      match coerce t v with
      | Some v' => inl (mkResourceData (rdId d) (<[key := v']> (rdState d)) (rdPartial d))
      | None => inr (key +:+ ": invalid value for the type of the field")
      end
  | None => inr ("Invalid address to set: " +:+ key)
  end.

(** The provider's idiom
    [if tfErr := d.Set(key, v); tfErr != nil { panic(tfErr) }]. *)
Definition mustSet {sch} (key : string) (v : value) (d : ResourceData sch)
  : outcome (ResourceData sch) :=
  match Set_ d key v with
  | inl d' => Ok d'
  | inr tfErr => Panic tfErr
  end.

(** [diag.Diagnostics]: the summaries of the errors reported; nil on success. *)
Definition Diagnostics : Type := list error.

(** [diag.FromErr(err)] *)
Definition diag_FromErr (err : error) : Diagnostics := [err].

(** ** HTTP status codes and methods of net/http *)

Definition StatusOK : Z := 200.
Definition StatusNoContent : Z := 204.
Definition StatusNotFound : Z := 404.

Inductive Method : Type := MethodGet | MethodPost | MethodPut | MethodDelete.

#[global] Instance Method_eq_dec : EqDecision Method.
Proof. solve_decision. Defined.

(** ** Wire records *)

(** resource_application.go: [jsonApplicationPath] *)
Module jsonApplicationPath.
Record t : Type := mk {
    Target : string;
    Program : string;
    WorkingDir : string;
}.
End jsonApplicationPath.

(** [jsonApplicationLocalDomain] is declared with the application local
    domain resource; these are the fields [fillApplication] reads. The plugin
    parameters are a dynamically shaped JSON value. *)
Module jsonApplicationLocalDomain.
Record t : Type := mk {
    ID : string;
    AdminAccount : string;
    DomainName : string;
    Description : string;
    EnablePasswordChange : bool;
    PasswordChangePolicy : string;
    PasswordChangePlugin : string;
    PasswordChangePluginParameters : value;
}.
End jsonApplicationLocalDomain.

(** resource_application.go: [jsonApplication]. [LocalDomains] is a pointer
    to a slice: [None] is the nil pointer. *)
Module jsonApplication.
Record t : Type := mk {
    ID : string;
    ApplicationName : string;
    ConnectionPolicy : string;
    Description : string;
    Parameters : string;
    Target : string;
    GlobalDomains : slice string;
    Paths : slice jsonApplicationPath.t;
    LocalDomains : option (slice jsonApplicationLocalDomain.t);
}.
  (** [var result jsonApplication] *)
Definition zero : t := mk "" "" "" "" "" "" None None None.
End jsonApplication.

(** resource_device_localdomain_account_credential.go *)
Module jsonDeviceLocalDomainAccountCredential.
Record t : Type := mk {
    ID : string;
    Type_ : string;
    Password : string;
    PrivateKey : string;
    PublicKey : string;
    Passphrase : string;
}.
Definition zero : t := mk "" "" "" "" "" "".
End jsonDeviceLocalDomainAccountCredential.

(** The records of a device, of a local domain of a device and of an account
    of a local domain are declared with their own resources; the credential
    resource reads their [ID] only. *)
Module jsonParent.
Record t : Type := mk { ID : string }.
Definition zero : t := mk "".
End jsonParent.

(** resource_externalauth_ldap.go *)
Module jsonExternalAuthLdap.
Record t : Type := mk {
    IsActiveDirectory : bool;
    IsAnonymousAccess : bool;
    IsProtectedUser : bool;
    IsSSL : bool;
    IsStartTLS : bool;
    UsePrimaryAuthDomain : bool;
    Port : Z;
    Timeout : float;
    ID : string;
    AuthenticationName : string;
    CACertificate : string;
    Certificate : string;
    CNAttribute : string;
    Description : string;
    LDAPBase : string;
    Login : string;
    LoginAttribute : string;
    Host : string;
    Password : string;
    PrivateKey : string;
    Type_ : string;
}.
Definition zero : t :=
    mk false false false false false false 0 0%float "" "" "" "" "" "" "" "" "" "" "" "" "".
End jsonExternalAuthLdap.

(** The localpasswordpolicy data source *)
Module jsonLocalpasswordpolicy.
Record t : Type := mk {
    AllowSameUserAndPassword : bool;
    ID : string;
    PasswordPolicyName : string;
    PasswordExpiration : Z;
    PasswordWarningDays : Z;
    PasswordMinLength : Z;
    PasswordMinLowerChars : Z;
    PasswordMinUpperChars : Z;
    PasswordMinDigitChars : Z;
    PasswordMinSpecialChars : Z;
    LastPasswordsToReject : Z;
    MaxAuthFailures : Z;
    SSHRsaMinLength : Z;
    ForbiddenPasswords : slice string;
    SSHKeyAlgosAllowed : slice string;
}.
  (** [jsonLocalpasswordpolicy{}] *)
Definition zero : t := mk false "" "" 0 0 0 0 0 0 0 0 0 0 None None.
End jsonLocalpasswordpolicy.

(** ** Transport *)

(** The [jsonBody] argument of [Client.newRequest]: nil or one of the wire
    records. *)
Inductive jsonBody : Type :=
| BodyApplication (j : jsonApplication.t)
| BodyCredential (j : jsonDeviceLocalDomainAccountCredential.t)
| BodyExternalAuthLdap (j : jsonExternalAuthLdap.t).

Record Request : Type := mkRequest {
  reqURI : string;
  reqMethod : Method;
  reqBody : option jsonBody;
}.

(** What [newRequest] returns: body, status code, error. *)
Definition Response : Type := string * Z * option error.

(** [Client]: the API version of the connected appliance and the appliance
    itself, which answers a request knowing the requests made so far. *)
Record Client : Type := mkClient {
  bastionAPIVersion : string;
  appliance : list Request -> Request -> Response;
}.

(** Code that talks to the appliance: it reads and extends the log of the
    requests issued, and may panic. *)
Definition M (A : Type) : Type := list Request -> outcome (A * list Request).

#[global] Instance M_ret : MRet M := fun A a log => Ok (a, log).
#[global] Instance M_bind : MBind M :=
  fun A B f m log =>
    match m log with
    | Ok (a, log') => f a log'
    | Panic msg => Panic msg
    end.

(** Code that only may panic, run inside [M]. *)
Definition lift {A} (o : outcome A) : M A :=
  fun log => match o with Ok a => Ok (a, log) | Panic msg => Panic msg end.

(** [c.newRequest(ctx, uri, method, jsonBody)] *)
Definition newRequest (c : Client) (uri : string) (method : Method)
    (body : option jsonBody) : M Response :=
  fun log =>
    let req := mkRequest uri method body in
    Ok (appliance c log req, log ++ [req]).

(** The POST requests of a log. *)
Definition posts (log : list Request) : list Request :=
  filter (λ req, reqMethod req = MethodPost) log.

(** [json.Unmarshal([]byte(body), &x)]: the decoder of encoding/json for the
    type of [x], from the text and the initial [x] to the final [x] and the
    error. *)
Class Unmarshaler (A : Type) : Type := json_Unmarshal : string -> A -> A * option error.

(** [for _, v := range l { s = body(s, v) }] where the body may panic. *)
Fixpoint forRange {A S : Type} (body : S -> A -> outcome S) (l : list A) (s : S)
  : outcome S :=
  match l with
  | [] => Ok s
  | v :: l' => s' ← body s v; forRange body l' s'
  end.

(** A [[]string] handed to [d.Set]. *)
Definition stringsValue (s : slice string) : value := VSlice (VString <$> elems s).

(** ** The schemas of the resources and of the data source *)

Definition resourceApplicationSchema : Schema :=
  [ ("application_name", TypeString);
    ("connection_policy", TypeString);
    ("paths", TypeSet (TypeResource
       [ ("target", TypeString);
         ("program", TypeString);
         ("working_dir", TypeString) ]));
    ("target", TypeString);
    ("description", TypeString);
    ("global_domains", TypeSet TypeString);
    ("parameters", TypeString);
    ("local_domains", TypeList (TypeResource
       [ ("id", TypeString);
         ("admin_account", TypeString);
         ("domain_name", TypeString);
         ("description", TypeString);
         ("enable_password_change", TypeBool);
         ("password_change_policy", TypeString);
         ("password_change_plugin", TypeString);
         ("password_change_plugin_parameters", TypeString) ])) ].

Definition ApplicationData : Type := ResourceData resourceApplicationSchema.

Definition resourceDeviceLocalDomainAccountCredentialSchema : Schema :=
  [ ("device_id", TypeString);
    ("domain_id", TypeString);
    ("account_id", TypeString);
    ("type", TypeString);
    ("passphrase", TypeString);
    ("password", TypeString);
    ("private_key", TypeString);
    ("public_key", TypeString) ].

Definition CredentialData : Type := ResourceData resourceDeviceLocalDomainAccountCredentialSchema.

Definition resourceExternalAuthLdapSchema : Schema :=
  [ ("authentication_name", TypeString);
    ("cn_attribute", TypeString);
    ("host", TypeString);
    ("ldap_base", TypeString);
    ("login_attribute", TypeString);
    ("port", TypeInt);
    ("timeout", TypeFloat);
    ("ca_certificate", TypeString);
    ("certificate", TypeString);
    ("description", TypeString);
    ("is_active_directory", TypeBool);
    ("is_anonymous_access", TypeBool);
    ("is_protected_user", TypeBool);
    ("is_ssl", TypeBool);
    ("is_starttls", TypeBool);
    ("login", TypeString);
    ("password", TypeString);
    ("private_key", TypeString);
    ("use_primary_auth_domain", TypeBool) ].

Definition ExternalAuthLdapData : Type := ResourceData resourceExternalAuthLdapSchema.

Definition dataSourceLocalpasswordpolicySchema : Schema :=
  [ ("password_policy_name", TypeStringDefault "default");
    ("allow_same_user_and_password", TypeBool);
    ("forbidden_passwords", TypeSet TypeString);
    ("last_passwords_to_reject", TypeInt);
    ("max_auth_failures", TypeInt);
    ("password_expiration", TypeInt);
    ("password_min_digit_chars", TypeInt);
    ("password_min_length", TypeInt);
    ("password_min_lower_chars", TypeInt);
    ("password_min_special_chars", TypeInt);
    ("password_min_upper_chars", TypeInt);
    ("password_warning_days", TypeInt);
    ("ssh_key_algos_allowed", TypeSet TypeString);
    ("ssh_rsa_min_length", TypeInt) ].

Definition LocalpasswordpolicyData : Type := ResourceData dataSourceLocalpasswordpolicySchema.

(** The three resources of the provider that these files declare. *)
Inductive resourceKind : Type :=
| Application
| DeviceLocalDomainAccountCredential
| ExternalAuthLdap.

Definition schemaOf (r : resourceKind) : Schema :=
  match r with
  | Application => resourceApplicationSchema
  | DeviceLocalDomainAccountCredential => resourceDeviceLocalDomainAccountCredentialSchema
  | ExternalAuthLdap => resourceExternalAuthLdapSchema
  end.

(** The name of a resource in a Terraform configuration: the prefix of the
    provider and the name the file of the resource carries. *)
Definition resourceName (r : resourceKind) : string :=
  match r with
  | Application => "wallix-bastion_application"
  | DeviceLocalDomainAccountCredential => "wallix-bastion_device_localdomain_account_credential"
  | ExternalAuthLdap => "wallix-bastion_externalauth_ldap"
  end.

(** An error message names a resource when it opens with its kind and name. *)
Definition namesResource (r : resourceKind) (msg : error) : bool :=
  String.prefix ("resource " +:+ resourceName r +:+ " ") msg.

(** The fields the appliance never returns. *)
Definition secretFields : list string := ["password"; "private_key"; "passphrase"].

(** The string a field of type string holds. *)
Definition GetString {sch} (d : ResourceData sch) (key : string) : string :=
  match Get d key with VString s => s | _ => "" end.

Definition GetBool {sch} (d : ResourceData sch) (key : string) : bool :=
  match Get d key with VBool b => b | _ => false end.

(** The elements of a field of type set. *)
Definition GetSet {sch} (d : ResourceData sch) (key : string) : list value :=
  match Get d key with VSet l => l | _ => [] end.

(** ** Sample configurations, appliances and decoders *)

Definition samplePath : value :=
  VMap [ ("target", VString "win-srv"); ("program", VString "notepad.exe");
         ("working_dir", VString "") ].

Definition sampleApplication : ApplicationData :=
  mkResourceData ""
    (<["application_name" := VString "app1"]>
       (<["connection_policy" := VString "RDP"]>
          (<["target" := VString "cluster1"]>
             (<["paths" := VSet [samplePath]]> ∅)))) false.

Definition sampleApplicationWithDomain : ApplicationData :=
  mkResourceData "" (<["global_domains" := VSet [VString "dom1"]]> (rdState sampleApplication))
    false.

Definition sampleCredential : CredentialData :=
  mkResourceData "9"
    (<["device_id" := VString "dev1"]>
       (<["domain_id" := VString "dom2"]>
          (<["account_id" := VString "acc3"]>
             (<["type" := VString "ssh_key"]>
                (<["private_key" := VString "PRIVATE"]>
                   (<["passphrase" := VString "secret"]> ∅)))))) false.

Definition sampleExternalAuthLdap : ExternalAuthLdapData :=
  mkResourceData "7"
    (<["authentication_name" := VString "ldap1"]>
       (<["login" := VString "admin"]>
          (<["password" := VString "hunter2"]>
             (<["private_key" := VString "PRIVATE"]> ∅)))) false.

(** The record of an application as a list query returns it. *)
Definition listedApplication (id name : string) : jsonApplication.t :=
  jsonApplication.mk id name "" "" "" "" None None None.

Definition listedCredential (id type : string) : jsonDeviceLocalDomainAccountCredential.t :=
  jsonDeviceLocalDomainAccountCredential.mk id type "" "" "" "".

Definition listedExternalAuthLdap (id name : string) : jsonExternalAuthLdap.t :=
  jsonExternalAuthLdap.mk false false false false false false 0 0%float id name "" "" "" ""
    "" "" "" "" "" "" "LDAP".

(** An appliance that answers every write with 204 and every read with 200. *)
Definition acceptingAppliance : list Request -> Request -> Response :=
  fun _ req =>
    ("[]", if decide (reqMethod req = MethodGet) then StatusOK else StatusNoContent, None).

(** An appliance that answers every request with the same status. *)
Definition constantAppliance (body : string) (code : Z) : list Request -> Request -> Response :=
  fun _ _ => (body, code, None).

(** A decoder that finds nothing to fill in, and one that always decodes to
    the same value. *)
Definition decodeNothing {A} : Unmarshaler A := fun _ x => (x, None).
Definition decodeTo {A} (a : A) : Unmarshaler A := fun _ _ => (a, None).

(** An appliance of the validated version and one of an older version. *)
Definition sampleVersion : string := "v3.3".
Definition acceptingClient : Client := mkClient sampleVersion acceptingAppliance.
Definition olderClient : Client := mkClient "v3.2" acceptingAppliance.
Definition goneClient : Client := mkClient sampleVersion (constantAppliance "not found" StatusNotFound).

(** The record of an LDAP authentication as the appliance returns it when it
    holds back the private key. *)
Definition returnedExternalAuthLdap : jsonExternalAuthLdap.t :=
  listedExternalAuthLdap "7" "ldap1".

Definition listedLocalpasswordpolicy (id name : string) : jsonLocalpasswordpolicy.t :=
  jsonLocalpasswordpolicy.mk false id name 0 0 0 0 0 0 0 0 0 0 None None.

(** An appliance that follows a script: the n-th request is answered with
    the n-th body and status, and with 500 once the script is over. *)
Definition scriptedAppliance (script : list (string * Z)) : list Request -> Request -> Response :=
  fun log _ =>
    match script !! length log with
    | Some (body, code) => (body, code, None)
    | None => ("", 500%Z, None)
    end.

(** A decoder that knows the bodies of a table and fails on any other. *)
Definition decodeTable {A} (table : list (string * A)) : Unmarshaler A :=
  fun body x =>
    match List.find (fun entry => bool_decide (entry.1 = body)) table with
    | Some entry => (entry.2, None)
    | None => (x, Some "unexpected end of JSON input")
    end.

Definition sampleDecodeApplications : Unmarshaler (slice jsonApplication.t) :=
  decodeTable [ ("[]", Some []); ("[app1]", Some [listedApplication "42" "app1"]) ].

Definition sampleDecodeCredentials
  : Unmarshaler (slice jsonDeviceLocalDomainAccountCredential.t) :=
  decodeTable [ ("[]", Some []);
                ("[password,ssh_key]",
                  Some [listedCredential "41" "password"; listedCredential "42" "ssh_key"]) ].

(** The credential 42 as a GET by id returns it: with its public key and
    without its secrets. *)
Definition returnedCredential : jsonDeviceLocalDomainAccountCredential.t :=
  jsonDeviceLocalDomainAccountCredential.mk "42" "ssh_key" "" "" "ssh-rsa AAAA" "".

Definition sampleDecodeCredential : Unmarshaler jsonDeviceLocalDomainAccountCredential.t :=
  decodeTable [ ("{42}", returnedCredential) ].

Definition sampleDecodeParent : Unmarshaler jsonParent.t := decodeTo (jsonParent.mk "p").

Definition sampleDecodeExternalAuthLdaps : Unmarshaler (slice jsonExternalAuthLdap.t) :=
  decodeTable [ ("[]", Some []); ("[ldap1]", Some [listedExternalAuthLdap "7" "ldap1"]) ].

Definition sampleDecodePolicies : Unmarshaler (slice jsonLocalpasswordpolicy.t) :=
  decodeTable [ ("[other,default]",
                  Some [listedLocalpasswordpolicy "2" "other";
                        listedLocalpasswordpolicy "1" "default"]) ].

(** The sample credential under the key of an import. *)
Definition importedCredential : CredentialData :=
  mkResourceData "dev1/dom2/acc3/ssh_key" (rdState sampleCredential) false.

(** An LDAP authentication without anonymous access and without a login. *)
Definition sampleExternalAuthLdapWithoutLogin : ExternalAuthLdapData :=
  mkResourceData "7"
    (<["authentication_name" := VString "ldap1"]> (<["password" := VString "hunter2"]> ∅))
    false.

(** The data of the data source before its first Read: nothing is set. *)
Definition unsetPolicy : LocalpasswordpolicyData := mkResourceData "" ∅ false.

Section Bastion.

(** Declared elsewhere in the provider: the API version the resources accept,
    the versions the data sources accept. *)
Variable versionValidate3_3 : string.
Variable defaultVersionsValid : list string.

(** [json.Marshal] on the plugin parameters of a local domain; its error is
    dropped by the caller. *)
Variable json_Marshal : value -> string.

Context {UnmarshalApplication : Unmarshaler jsonApplication.t}.
Context {UnmarshalApplications : Unmarshaler (slice jsonApplication.t)}.
Context {UnmarshalCredential : Unmarshaler jsonDeviceLocalDomainAccountCredential.t}.
Context {UnmarshalCredentials : Unmarshaler (slice jsonDeviceLocalDomainAccountCredential.t)}.
Context {UnmarshalParent : Unmarshaler jsonParent.t}.
Context {UnmarshalExternalAuthLdap : Unmarshaler jsonExternalAuthLdap.t}.
Context {UnmarshalExternalAuthLdaps : Unmarshaler (slice jsonExternalAuthLdap.t)}.
Context {UnmarshalLocalpasswordpolicies : Unmarshaler (slice jsonLocalpasswordpolicy.t)}.

(** ** resource_application.go *)

Definition resourceApplicationVersionCheck (version : string) : option error :=
  if decide (version = versionValidate3_3) then None
  else Some ("resource wallix-bastion_application not validate with api version " +:+ version).

Definition prepareApplicationJSON (d : ApplicationData) : outcome jsonApplication.t :=
  applicationName ← assertString (Get d "application_name");
  connectionPolicy ← assertString (Get d "connection_policy");
  description ← assertString (Get d "description");
  parameters ← assertString (Get d "parameters");
  target ← assertString (Get d "target");
  pathsList ← assertSetList (Get d "paths");
  paths ← forRange
    (fun paths v =>
       m ← assertMap v;
       pTarget ← assertString (index m "target");
       pProgram ← assertString (index m "program");
       pWorkingDir ← assertString (index m "working_dir");
       mret (append paths (jsonApplicationPath.mk pTarget pProgram pWorkingDir)))
    pathsList None;
  globalDomainsList ← assertSetList (Get d "global_domains");
  globalDomains ←
    (if decide (0 < length globalDomainsList)%nat then
       globalDomainsSlice ← assertSlice (Get d "global_domains");
       forRange (fun globalDomains v => s ← assertString v; mret (append globalDomains s))
         globalDomainsSlice None
     else mret make);
  mret (jsonApplication.mk "" applicationName connectionPolicy description parameters
          target globalDomains paths None).

Definition fillApplication (d : ApplicationData) (jsonData : jsonApplication.t)
  : outcome ApplicationData :=
  d ← mustSet "application_name" (VString (jsonApplication.ApplicationName jsonData)) d;
  d ← mustSet "connection_policy" (VString (jsonApplication.ConnectionPolicy jsonData)) d;
  let paths :=
    (fun v => VMap [ ("target", VString (jsonApplicationPath.Target v));
                     ("program", VString (jsonApplicationPath.Program v));
                     ("working_dir", VString (jsonApplicationPath.WorkingDir v)) ])
      <$> elems (jsonApplication.Paths jsonData) in
  d ← mustSet "paths" (VSlice paths) d;
  d ← mustSet "target" (VString (jsonApplication.Target jsonData)) d;
  d ← mustSet "description" (VString (jsonApplication.Description jsonData)) d;
  d ← mustSet "global_domains" (stringsValue (jsonApplication.GlobalDomains jsonData)) d;
  d ← mustSet "parameters" (VString (jsonApplication.Parameters jsonData)) d;
  localDomainsSlice ← deref (jsonApplication.LocalDomains jsonData);
  let localDomains :=
    (fun v => VMap [ ("id", VString (jsonApplicationLocalDomain.ID v));
                     ("admin_account", VString (jsonApplicationLocalDomain.AdminAccount v));
                     ("domain_name", VString (jsonApplicationLocalDomain.DomainName v));
                     ("description", VString (jsonApplicationLocalDomain.Description v));
                     ("enable_password_change",
                       VBool (jsonApplicationLocalDomain.EnablePasswordChange v));
                     ("password_change_policy",
                       VString (jsonApplicationLocalDomain.PasswordChangePolicy v));
                     ("password_change_plugin",
                       VString (jsonApplicationLocalDomain.PasswordChangePlugin v));
                     ("password_change_plugin_parameters",
                       VString (json_Marshal
                                  (jsonApplicationLocalDomain.PasswordChangePluginParameters v))) ])
      <$> elems localDomainsSlice in
  mustSet "local_domains" (VSlice localDomains) d.

Definition searchResourceApplication (applicationName : string) (c : Client)
  : M (string * bool * option error) :=
  '(body, code, err) ← newRequest c "/applications/?fields=application_name,id&limit=-1" MethodGet None;
  match err with
  | Some err => mret ("", false, Some err)
  | None =>
      if decide (code ≠ StatusOK) then
        mret ("", false,
              Some ("api doesn't return OK : " +:+ pretty code +:+ " with body :" +:+ LF +:+ body))
      else
        let '(results, err) := json_Unmarshal body (None : slice jsonApplication.t) in
        match err with
        | Some err => mret ("", false, Some ("json.Unmarshal failed : " +:+ err))
        | None =>
            match List.find (fun v => bool_decide (jsonApplication.ApplicationName v = applicationName))
                    (elems results) with
            | Some v => mret (jsonApplication.ID v, true, None)
            | None => mret ("", false, None)
            end
        end
  end.

(** The check of the status of a write shared by add, update and delete. *)
Definition writeStatus (prefix infix : string) (body : string) (code : Z) (err : option error)
  : option error :=
  match err with
  | Some err => Some err
  | None =>
      if decide (code ≠ StatusOK ∧ code ≠ StatusNoContent) then
        Some (prefix +:+ pretty code +:+ infix +:+ body)
      else None
  end.

Definition addApplication (d : ApplicationData) (c : Client) : M (option error) :=
  jsonData ← lift (prepareApplicationJSON d);
  '(body, code, err) ← newRequest c "/applications/" MethodPost (Some (BodyApplication jsonData));
  mret (writeStatus "api doesn't return OK or NoContent : " (" with body :" +:+ LF) body code err).

Definition updateApplication (d : ApplicationData) (c : Client) : M (option error) :=
  jsonData ← lift (prepareApplicationJSON d);
  '(body, code, err) ← newRequest c ("/applications/" +:+ Id d +:+ "?force=true") MethodPut
                         (Some (BodyApplication jsonData));
  mret (writeStatus "api doesn't return OK or NoContent : " (" with body :" +:+ LF) body code err).

Definition deleteApplication (d : ApplicationData) (c : Client) : M (option error) :=
  '(body, code, err) ← newRequest c ("/applications/" +:+ Id d) MethodDelete None;
  mret (writeStatus "api doesn't return OK or NoContent : " (" with body :" +:+ LF) body code err).

Definition readApplicationOptions (applicationID : string) (c : Client)
  : M (jsonApplication.t * option error) :=
  let result := jsonApplication.zero in
  '(body, code, err) ← newRequest c ("/applications/" +:+ applicationID) MethodGet None;
  match err with
  | Some err => mret (result, Some err)
  | None =>
      if decide (code = StatusNotFound) then mret (result, None)
      else if decide (code ≠ StatusOK) then
        mret (result,
              Some ("api doesn't return OK : " +:+ pretty code +:+ " with body :" +:+ LF +:+ body))
      else
        let '(result, err) := json_Unmarshal body result in
        match err with
        | Some err => mret (result, Some ("json.Unmarshal failed : " +:+ err))
        | None => mret (result, None)
        end
  end.

Definition resourceApplicationRead (d : ApplicationData) (c : Client)
  : M (ApplicationData * Diagnostics) :=
  match resourceApplicationVersionCheck (bastionAPIVersion c) with
  | Some err => mret (d, diag_FromErr err)
  | None =>
      '(cfg, err) ← readApplicationOptions (Id d) c;
      match err with
      | Some err => mret (d, diag_FromErr err)
      | None =>
          if decide (jsonApplication.ID cfg = "") then mret (SetId d "", (nil : Diagnostics))
          else d ← lift (fillApplication d cfg); mret (d, (nil : Diagnostics))
      end
  end.

Definition resourceApplicationCreate (d : ApplicationData) (c : Client)
  : M (ApplicationData * Diagnostics) :=
  match resourceApplicationVersionCheck (bastionAPIVersion c) with
  | Some err => mret (d, diag_FromErr err)
  | None =>
      applicationName ← lift (assertString (Get d "application_name"));
      '(_, ex, err) ← searchResourceApplication applicationName c;
      match err with
      | Some err => mret (d, diag_FromErr err)
      | None =>
          if (ex : bool) then
            mret (d, diag_FromErr ("application_name " +:+ applicationName +:+ " already exists"))
          else
            err ← addApplication d c;
            match err with
            | Some err => mret (d, diag_FromErr err)
            | None =>
                '(id, ex, err) ← searchResourceApplication applicationName c;
                match err with
                | Some err => mret (d, diag_FromErr err)
                | None =>
                    if negb (ex : bool) then
                      mret (d, diag_FromErr ("application_name " +:+ applicationName
                                             +:+ " can't find after POST"))
                    else resourceApplicationRead (SetId d id) c
                end
            end
      end
  end.

Definition resourceApplicationUpdate (d : ApplicationData) (c : Client)
  : M (ApplicationData * Diagnostics) :=
  let d := Partial d true in
  match resourceApplicationVersionCheck (bastionAPIVersion c) with
  | Some err => mret (d, diag_FromErr err)
  | None =>
      err ← updateApplication d c;
      match err with
      | Some err => mret (d, diag_FromErr err)
      | None => resourceApplicationRead (Partial d false) c
      end
  end.

Definition resourceApplicationDelete (d : ApplicationData) (c : Client)
  : M (ApplicationData * Diagnostics) :=
  match resourceApplicationVersionCheck (bastionAPIVersion c) with
  | Some err => mret (d, diag_FromErr err)
  | None =>
      err ← deleteApplication d c;
      match err with
      | Some err => mret (d, diag_FromErr err)
      | None => mret (d, (nil : Diagnostics))
      end
  end.

(** An import returns the slice of the data imported (nil on error) and the
    error; the first component is [d] as the call leaves it. *)
Definition resourceApplicationImport (d : ApplicationData) (c : Client)
  : M (ApplicationData * (slice ApplicationData * option error)) :=
  match resourceApplicationVersionCheck (bastionAPIVersion c) with
  | Some err => mret (d, (None, Some err))
  | None =>
      '(id, ex, err) ← searchResourceApplication (Id d) c;
      match err with
      | Some err => mret (d, (None, Some err))
      | None =>
          if negb (ex : bool) then
            mret (d, (None, Some ("don't find application_name with id " +:+ Id d
                                  +:+ " (id must be <application_name>")))
          else
            '(cfg, err) ← readApplicationOptions id c;
            match err with
            | Some err => mret (d, (None, Some err))
            | None =>
                d ← lift (fillApplication d cfg);
                let d := SetId d id in
                mret (d, (Some [d], None))
            end
      end
  end.


(** ** resource_device_localdomain_account_credential.go *)

Definition resourveDeviceLocalDomainAccountCredentialVersionCheck (version : string)
  : option error :=
  if decide (version = versionValidate3_3) then None
  else Some ("resource wallix-bastion_device_localdomain not validate with api version " +:+ version).

(** Modelled from the spec: [readDeviceOptions], [readDeviceLocalDomainOptions]
    and [readDeviceLocalDomainAccountOptions] are declared with the device
    resources, outside these files. Each follows the Read transition: a GET by
    id; a 404 is "absent" and gives the zero record without error; any other
    status than 200 is fatal and carries status and body; a body that does not
    decode is fatal. Only the [ID] of the record is kept, the one field the
    credential resource looks at. *)
Definition readParentOptions (uri : string) (c : Client) : M (string * option error) :=
  '(body, code, err) ← newRequest c uri MethodGet None;
  match err with
  | Some err => mret ("", Some err)
  | None =>
      if decide (code = StatusNotFound) then mret ("", None)
      else if decide (code ≠ StatusOK) then
        mret ("", Some ("api return not OK : " +:+ pretty code +:+ " with body " +:+ body))
      else
        let '(result, err) := json_Unmarshal body jsonParent.zero in
        mret (jsonParent.ID result, err)
  end.

Definition readDeviceOptions (deviceID : string) (c : Client) : M (string * option error) :=
  readParentOptions ("/devices/" +:+ deviceID) c.

Definition readDeviceLocalDomainOptions (deviceID localDomainID : string) (c : Client)
  : M (string * option error) :=
  readParentOptions ("/devices/" +:+ deviceID +:+ "/localdomains/" +:+ localDomainID) c.

Definition readDeviceLocalDomainAccountOptions (deviceID localDomainID accountID : string)
    (c : Client) : M (string * option error) :=
  readParentOptions ("/devices/" +:+ deviceID +:+ "/localdomains/" +:+ localDomainID
                     +:+ "/accounts/" +:+ accountID) c.

Definition credentialsURI (deviceID domainID accountID : string) : string :=
  "/devices/" +:+ deviceID +:+ "/localdomains/" +:+ domainID +:+ "/accounts/" +:+ accountID
  +:+ "/credentials/".

Definition searchResourceDeviceLocalDomainAccountCredential
    (deviceID domainID accountID typeCred : string) (c : Client)
  : M (string * bool * option error) :=
  '(body, code, err) ← newRequest c (credentialsURI deviceID domainID accountID) MethodGet None;
  match err with
  | Some err => mret ("", false, Some err)
  | None =>
      if decide (code ≠ StatusOK) then
        mret ("", false, Some ("api return not OK : " +:+ pretty code +:+ " with body " +:+ body))
      else
        let '(results, err) :=
          json_Unmarshal body (None : slice jsonDeviceLocalDomainAccountCredential.t) in
        match err with
        | Some err => mret ("", false, Some err)
        | None =>
            match List.find
                    (fun v => bool_decide (jsonDeviceLocalDomainAccountCredential.Type_ v = typeCred))
                    (elems results) with
            | Some v => mret (jsonDeviceLocalDomainAccountCredential.ID v, true, None)
            | None => mret ("", false, None)
            end
        end
  end.

Definition prepareDeviceLocalDomainAccountCredentialJSON (d : CredentialData) (newResource : bool)
  : outcome jsonDeviceLocalDomainAccountCredential.t :=
  type ← assertString (Get d "type");
  if decide (type = "password") then
    password ← assertString (Get d "password");
    mret (jsonDeviceLocalDomainAccountCredential.mk "" type password "" "" "")
  else if decide (type = "ssh_key") then
    send ← (if newResource then mret true
            else privateKey ← assertString (Get d "private_key");
                 mret (negb (strings_HasPrefix privateKey "generate:")));
    if (send : bool) then
      privateKey ← assertString (Get d "private_key");
      passphrase ← assertString (Get d "passphrase");
      mret (jsonDeviceLocalDomainAccountCredential.mk "" type "" privateKey "" passphrase)
    else mret (jsonDeviceLocalDomainAccountCredential.mk "" type "" "" "" "")
  else mret (jsonDeviceLocalDomainAccountCredential.mk "" type "" "" "" "").

Definition addDeviceLocalDomainAccountCredential (d : CredentialData) (c : Client)
  : M (option error) :=
  json ← lift (prepareDeviceLocalDomainAccountCredentialJSON d true);
  deviceID ← lift (assertString (Get d "device_id"));
  domainID ← lift (assertString (Get d "domain_id"));
  accountID ← lift (assertString (Get d "account_id"));
  '(body, code, err) ← newRequest c (credentialsURI deviceID domainID accountID) MethodPost
                         (Some (BodyCredential json));
  mret (writeStatus "api return not OK or NoContent : " " with body " body code err).

Definition updateDeviceLocalDomainAccountCredential (d : CredentialData) (c : Client)
  : M (option error) :=
  json ← lift (prepareDeviceLocalDomainAccountCredentialJSON d false);
  deviceID ← lift (assertString (Get d "device_id"));
  domainID ← lift (assertString (Get d "domain_id"));
  accountID ← lift (assertString (Get d "account_id"));
  '(body, code, err) ← newRequest c (credentialsURI deviceID domainID accountID +:+ Id d)
                         MethodPut (Some (BodyCredential json));
  mret (writeStatus "api return not OK or NoContent : " " with body " body code err).

Definition deleteDeviceLocalDomainAccountCredential (d : CredentialData) (c : Client)
  : M (option error) :=
  deviceID ← lift (assertString (Get d "device_id"));
  domainID ← lift (assertString (Get d "domain_id"));
  accountID ← lift (assertString (Get d "account_id"));
  '(body, code, err) ← newRequest c (credentialsURI deviceID domainID accountID +:+ Id d)
                         MethodDelete None;
  mret (writeStatus "api return not OK or NoContent : " " with body " body code err).

Definition readDeviceLocalDomainAccountCredentialOptions
    (deviceID localDomainID accountID credentialID : string) (c : Client)
  : M (jsonDeviceLocalDomainAccountCredential.t * option error) :=
  let result := jsonDeviceLocalDomainAccountCredential.zero in
  '(body, code, err) ← newRequest c (credentialsURI deviceID localDomainID accountID
                                      +:+ credentialID) MethodGet None;
  match err with
  | Some err => mret (result, Some err)
  | None =>
      if decide (code = StatusNotFound) then mret (result, None)
      else if decide (code ≠ StatusOK) then
        mret (result, Some ("api return not OK : " +:+ pretty code +:+ " with body " +:+ body))
      else
        let '(result, err) := json_Unmarshal body result in
        match err with
        | Some err => mret (result, Some err)
        | None => mret (result, None)
        end
  end.

Definition fillDeviceLocalDomainAccountCredential (d : CredentialData)
    (json : jsonDeviceLocalDomainAccountCredential.t) : outcome CredentialData :=
  d ← mustSet "type" (VString (jsonDeviceLocalDomainAccountCredential.Type_ json)) d;
  mustSet "public_key" (VString (jsonDeviceLocalDomainAccountCredential.PublicKey json)) d.

Definition resourceDeviceLocalDomainAccountCredentialRead (d : CredentialData) (c : Client)
  : M (CredentialData * Diagnostics) :=
  match resourveDeviceLocalDomainAccountCredentialVersionCheck (bastionAPIVersion c) with
  | Some err => mret (d, diag_FromErr err)
  | None =>
      deviceID ← lift (assertString (Get d "device_id"));
      domainID ← lift (assertString (Get d "domain_id"));
      accountID ← lift (assertString (Get d "account_id"));
      '(cfg, err) ← readDeviceLocalDomainAccountCredentialOptions deviceID domainID accountID
                      (Id d) c;
      match err with
      | Some err => mret (d, diag_FromErr err)
      | None =>
          if decide (jsonDeviceLocalDomainAccountCredential.ID cfg = "") then
            mret (SetId d "", (nil : Diagnostics))
          else d ← lift (fillDeviceLocalDomainAccountCredential d cfg);
               mret (d, (nil : Diagnostics))
      end
  end.

Definition resourceDeviceLocalDomainAccountCredentialCreate (d : CredentialData) (c : Client)
  : M (CredentialData * Diagnostics) :=
  match resourveDeviceLocalDomainAccountCredentialVersionCheck (bastionAPIVersion c) with
  | Some err => mret (d, diag_FromErr err)
  | None =>
  deviceID ← lift (assertString (Get d "device_id"));
  '(cfgDeviceID, err) ← readDeviceOptions deviceID c;
  match err with
  | Some err => mret (d, diag_FromErr err)
  | None =>
  if decide (cfgDeviceID = "") then
    mret (d, diag_FromErr ("device with ID " +:+ deviceID +:+ " doesn't exists"))
  else
  domainID ← lift (assertString (Get d "domain_id"));
  '(cfgDomainID, err) ← readDeviceLocalDomainOptions deviceID domainID c;
  match err with
  | Some err => mret (d, diag_FromErr err)
  | None =>
  if decide (cfgDomainID = "") then
    mret (d, diag_FromErr ("domain_id with ID " +:+ domainID +:+ " on device_id " +:+ deviceID
                           +:+ " doesn't exists"))
  else
  accountID ← lift (assertString (Get d "account_id"));
  '(cfgAccountID, err) ← readDeviceLocalDomainAccountOptions deviceID domainID accountID c;
  match err with
  | Some err => mret (d, diag_FromErr err)
  | None =>
  if decide (cfgAccountID = "") then
    mret (d, diag_FromErr ("account_id with ID " +:+ accountID +:+ " on domain_id " +:+ domainID
                           +:+ ", device_id " +:+ deviceID +:+ " doesn't exists"))
  else
  typeCred ← lift (assertString (Get d "type"));
  '(_, ex, err) ← searchResourceDeviceLocalDomainAccountCredential deviceID domainID accountID
                    typeCred c;
  match err with
  | Some err => mret (d, diag_FromErr err)
  | None =>
  if (ex : bool) then
    mret (d, diag_FromErr ("credential tpye " +:+ typeCred +:+ " on account_id " +:+ accountID
                           +:+ ", domain_id " +:+ domainID +:+ ", device_id " +:+ deviceID
                           +:+ " already exists"))
  else
  err ← addDeviceLocalDomainAccountCredential d c;
  match err with
  | Some err => mret (d, diag_FromErr err)
  | None =>
  '(id, ex, err) ← searchResourceDeviceLocalDomainAccountCredential deviceID domainID accountID
                     typeCred c;
  match err with
  | Some err => mret (d, diag_FromErr err)
  | None =>
  if negb (ex : bool) then
    mret (d, diag_FromErr ("credential tpye " +:+ typeCred +:+ " on account_id " +:+ accountID
                           +:+ ", domain_id " +:+ domainID +:+ ", device_id " +:+ deviceID
                           +:+ " can't find after POST"))
  else resourceDeviceLocalDomainAccountCredentialRead (SetId d id) c
  end end end end end end
  end.

Definition resourceDeviceLocalDomainAccountCredentialUpdate (d : CredentialData) (c : Client)
  : M (CredentialData * Diagnostics) :=
  let d := Partial d true in
  match resourveDeviceLocalDomainAccountCredentialVersionCheck (bastionAPIVersion c) with
  | Some err => mret (d, diag_FromErr err)
  | None =>
      err ← updateDeviceLocalDomainAccountCredential d c;
      match err with
      | Some err => mret (d, diag_FromErr err)
      | None => resourceDeviceLocalDomainAccountCredentialRead (Partial d false) c
      end
  end.

Definition resourceDeviceLocalDomainAccountCredentialDelete (d : CredentialData) (c : Client)
  : M (CredentialData * Diagnostics) :=
  match resourveDeviceLocalDomainAccountCredentialVersionCheck (bastionAPIVersion c) with
  | Some err => mret (d, diag_FromErr err)
  | None =>
      err ← deleteDeviceLocalDomainAccountCredential d c;
      match err with
      | Some err => mret (d, diag_FromErr err)
      | None => mret (d, (nil : Diagnostics))
      end
  end.

Definition resourceDeviceLocalDomainAccountCredentialImport (d : CredentialData) (c : Client)
  : M (CredentialData * (slice CredentialData * option error)) :=
  match resourveDeviceLocalDomainAccountCredentialVersionCheck (bastionAPIVersion c) with
  | Some err => mret (d, (None, Some err))
  | None =>
      let idSplit := strings_Split (Id d) "/"%char in
      if decide (length idSplit ≠ 4%nat) then
        mret (d, (None, Some "id msut be <device_id>/<domain_id>/<account_id>/<type>"))
      else
        idSplit0 ← lift (at_ idSplit 0);
        idSplit1 ← lift (at_ idSplit 1);
        idSplit2 ← lift (at_ idSplit 2);
        idSplit3 ← lift (at_ idSplit 3);
        '(id, ex, err) ← searchResourceDeviceLocalDomainAccountCredential idSplit0 idSplit1
                           idSplit2 idSplit3 c;
        match err with
        | Some err => mret (d, (None, Some err))
        | None =>
            if negb (ex : bool) then
              mret (d, (None, Some ("don't find credential with id " +:+ Id d +:+ " "
                                    +:+ "(id must be <device_id>/<domain_id>/<account_id>/<type>")))
            else
              '(cfg, err) ← readDeviceLocalDomainAccountCredentialOptions idSplit0 idSplit1
                              idSplit2 id c;
              match err with
              | Some err => mret (d, (None, Some err))
              | None =>
                  d ← lift (fillDeviceLocalDomainAccountCredential d cfg);
                  let d := SetId d id in
                  d ← lift (mustSet "device_id" (VString idSplit0) d);
                  d ← lift (mustSet "domain_id" (VString idSplit1) d);
                  d ← lift (mustSet "account_id" (VString idSplit2) d);
                  mret (d, (Some [d], None))
              end
        end
  end.


(** ** resource_externalauth_ldap.go *)

Definition resourveExternalAuthLdapVersionCheck (version : string) : option error :=
  if decide (version = versionValidate3_3) then None
  else Some ("resource wallix-bastion_externalauth_ldap not validate with api version " +:+ version).

Definition searchResourceExternalAuthLdap (authenticationName : string) (c : Client)
  : M (string * bool * option error) :=
  '(body, code, err) ← newRequest c ("/externalauths/" +:+ authenticationName) MethodGet None;
  match err with
  | Some err => mret ("", false, Some err)
  | None =>
      if decide (code ≠ StatusOK) then
        mret ("", false, Some ("api return not OK : " +:+ pretty code +:+ " with body " +:+ body))
      else
        let '(results, err) := json_Unmarshal body (None : slice jsonExternalAuthLdap.t) in
        match err with
        | Some err => mret ("", false, Some err)
        | None =>
            match List.find
                    (fun v => bool_decide (jsonExternalAuthLdap.AuthenticationName v
                                           = authenticationName))
                    (elems results) with
            | Some v => mret (jsonExternalAuthLdap.ID v, true, None)
            | None => mret ("", false, None)
            end
        end
  end.

Definition prepareExternalAuthLdapJSON (d : ExternalAuthLdapData) : outcome jsonExternalAuthLdap.t :=
  isActiveDirectory ← assertBool (Get d "is_active_directory");
  isAnonymousAccess ← assertBool (Get d "is_anonymous_access");
  isProtectedUser ← assertBool (Get d "is_protected_user");
  isSSL ← assertBool (Get d "is_ssl");
  isStartTLS ← assertBool (Get d "is_starttls");
  usePrimaryAuthDomain ← assertBool (Get d "use_primary_auth_domain");
  timeout ← assertFloat64 (Get d "timeout");
  authenticationName ← assertString (Get d "authentication_name");
  caCertificate ← assertString (Get d "ca_certificate");
  certificate ← assertString (Get d "certificate");
  cnAttribute ← assertString (Get d "cn_attribute");
  description ← assertString (Get d "description");
  ldapBase ← assertString (Get d "ldap_base");
  login ← assertString (Get d "login");
  loginAttribute ← assertString (Get d "login_attribute");
  host ← assertString (Get d "host");
  password ← assertString (Get d "password");
  port ← assertInt (Get d "port");
  privateKey ← assertString (Get d "private_key");
  mret (jsonExternalAuthLdap.mk isActiveDirectory isAnonymousAccess isProtectedUser isSSL
          isStartTLS usePrimaryAuthDomain port timeout "" authenticationName caCertificate
          certificate cnAttribute description ldapBase login loginAttribute host password
          privateKey "LDAP").

Definition addExternalAuthLdap (d : ExternalAuthLdapData) (c : Client) : M (option error) :=
  json ← lift (prepareExternalAuthLdapJSON d);
  '(body, code, err) ← newRequest c "/externalauths/" MethodPost (Some (BodyExternalAuthLdap json));
  mret (writeStatus "api return not OK or NoContent : " " with body " body code err).

Definition updateExternalAuthLdap (d : ExternalAuthLdapData) (c : Client) : M (option error) :=
  json ← lift (prepareExternalAuthLdapJSON d);
  '(body, code, err) ← newRequest c ("/externalauths/" +:+ Id d) MethodPut
                         (Some (BodyExternalAuthLdap json));
  mret (writeStatus "api return not OK or NoContent : " " with body " body code err).

Definition deleteExternalAuthLdap (d : ExternalAuthLdapData) (c : Client) : M (option error) :=
  '(body, code, err) ← newRequest c ("/externalauths/" +:+ Id d) MethodDelete None;
  mret (writeStatus "api return not OK or NoContent : " " with body " body code err).

Definition readExternalAuthLdapOptions (authenticationID : string) (c : Client)
  : M (jsonExternalAuthLdap.t * option error) :=
  let result := jsonExternalAuthLdap.zero in
  '(body, code, err) ← newRequest c ("/externalauths/" +:+ authenticationID) MethodGet None;
  match err with
  | Some err => mret (result, Some err)
  | None =>
      if decide (code = StatusNotFound) then mret (result, None)
      else if decide (code ≠ StatusOK) then
        mret (result, Some ("api return not OK : " +:+ pretty code +:+ " with body " +:+ body))
      else
        let '(result, err) := json_Unmarshal body result in
        match err with
        | Some err => mret (result, Some err)
        | None => mret (result, None)
        end
  end.

Definition fillExternalAuthLdap (d : ExternalAuthLdapData) (json : jsonExternalAuthLdap.t)
  : outcome ExternalAuthLdapData :=
  d ← mustSet "cn_attribute" (VString (jsonExternalAuthLdap.CNAttribute json)) d;
  d ← mustSet "host" (VString (jsonExternalAuthLdap.Host json)) d;
  d ← mustSet "ldap_base" (VString (jsonExternalAuthLdap.LDAPBase json)) d;
  d ← mustSet "login" (VString (jsonExternalAuthLdap.Login json)) d;
  d ← mustSet "login_attribute" (VString (jsonExternalAuthLdap.LoginAttribute json)) d;
  d ← mustSet "port" (VInt (jsonExternalAuthLdap.Port json)) d;
  d ← mustSet "timeout" (VFloat (jsonExternalAuthLdap.Timeout json)) d;
  d ← mustSet "ca_certificate" (VString (jsonExternalAuthLdap.CACertificate json)) d;
  d ← mustSet "certificate" (VString (jsonExternalAuthLdap.Certificate json)) d;
  d ← mustSet "description" (VString (jsonExternalAuthLdap.Description json)) d;
  d ← mustSet "is_active_directory" (VBool (jsonExternalAuthLdap.IsActiveDirectory json)) d;
  d ← mustSet "is_anonymous_access" (VBool (jsonExternalAuthLdap.IsAnonymousAccess json)) d;
  d ← mustSet "is_protected_user" (VBool (jsonExternalAuthLdap.IsProtectedUser json)) d;
  d ← mustSet "is_ssl" (VBool (jsonExternalAuthLdap.IsSSL json)) d;
  d ← mustSet "is_starttls" (VBool (jsonExternalAuthLdap.IsStartTLS json)) d;
  d ← mustSet "private_key" (VString (jsonExternalAuthLdap.PrivateKey json)) d;
  mustSet "use_primary_auth_domain" (VBool (jsonExternalAuthLdap.UsePrimaryAuthDomain json)) d.

Definition resourceExternalAuthLdapRead (d : ExternalAuthLdapData) (c : Client)
  : M (ExternalAuthLdapData * Diagnostics) :=
  match resourveExternalAuthLdapVersionCheck (bastionAPIVersion c) with
  | Some err => mret (d, diag_FromErr err)
  | None =>
      '(config, err) ← readExternalAuthLdapOptions (Id d) c;
      match err with
      | Some err => mret (d, diag_FromErr err)
      | None =>
          if decide (jsonExternalAuthLdap.ID config = "") then
            mret (SetId d "", (nil : Diagnostics))
          else d ← lift (fillExternalAuthLdap d config); mret (d, (nil : Diagnostics))
      end
  end.

(** [!d.Get("is_anonymous_access").(bool) &&
     (d.Get("login").(string) == "" || d.Get("password").(string) == "")],
    with the short-circuit evaluation of Go. *)
Definition missingLoginOrPassword (d : ExternalAuthLdapData) : outcome bool :=
  isAnonymousAccess ← assertBool (Get d "is_anonymous_access");
  if (isAnonymousAccess : bool) then mret false
  else
    login ← assertString (Get d "login");
    if decide (login = "") then mret true
    else password ← assertString (Get d "password");
         mret (bool_decide (password = "")).

Definition resourceExternalAuthLdapCreate (d : ExternalAuthLdapData) (c : Client)
  : M (ExternalAuthLdapData * Diagnostics) :=
  match resourveExternalAuthLdapVersionCheck (bastionAPIVersion c) with
  | Some err => mret (d, diag_FromErr err)
  | None =>
  authenticationName ← lift (assertString (Get d "authentication_name"));
  '(_, ex, err) ← searchResourceExternalAuthLdap authenticationName c;
  match err with
  | Some err => mret (d, diag_FromErr err)
  | None =>
  if (ex : bool) then
    mret (d, diag_FromErr ("authentication_name " +:+ authenticationName +:+ " already exists"))
  else
  missing ← lift (missingLoginOrPassword d);
  if (missing : bool) then
    mret (d, diag_FromErr ("missing 'login' and/or 'password' on " +:+ "externalauth_ldap "
                           +:+ authenticationName))
  else
  err ← addExternalAuthLdap d c;
  match err with
  | Some err => mret (d, diag_FromErr err)
  | None =>
  '(id, ex, err) ← searchResourceExternalAuthLdap authenticationName c;
  match err with
  | Some err => mret (d, diag_FromErr err)
  | None =>
  if negb (ex : bool) then
    mret (d, diag_FromErr ("authentication_name " +:+ authenticationName
                           +:+ " can't find after POST"))
  else resourceExternalAuthLdapRead (SetId d id) c
  end end end
  end.

Definition resourceExternalAuthLdapUpdate (d : ExternalAuthLdapData) (c : Client)
  : M (ExternalAuthLdapData * Diagnostics) :=
  match resourveExternalAuthLdapVersionCheck (bastionAPIVersion c) with
  | Some err => mret (d, diag_FromErr err)
  | None =>
      missing ← lift (missingLoginOrPassword d);
      if (missing : bool) then
        authenticationName ← lift (assertString (Get d "authentication_name"));
        mret (d, diag_FromErr ("missing 'login' and/or 'password' on " +:+ "externalauth_ldap "
                               +:+ authenticationName))
      else
        err ← updateExternalAuthLdap d c;
        match err with
        | Some err => mret (d, diag_FromErr err)
        | None => resourceExternalAuthLdapRead d c
        end
  end.

Definition resourceExternalAuthLdapDelete (d : ExternalAuthLdapData) (c : Client)
  : M (ExternalAuthLdapData * Diagnostics) :=
  match resourveExternalAuthLdapVersionCheck (bastionAPIVersion c) with
  | Some err => mret (d, diag_FromErr err)
  | None =>
      err ← deleteExternalAuthLdap d c;
      match err with
      | Some err => mret (d, diag_FromErr err)
      | None => mret (d, (nil : Diagnostics))
      end
  end.

Definition resourceExternalAuthLdapImport (d : ExternalAuthLdapData) (c : Client)
  : M (ExternalAuthLdapData * (slice ExternalAuthLdapData * option error)) :=
  match resourveExternalAuthLdapVersionCheck (bastionAPIVersion c) with
  | Some err => mret (d, (None, Some err))
  | None =>
      '(id, ex, err) ← searchResourceExternalAuthLdap (Id d) c;
      match err with
      | Some err => mret (d, (None, Some err))
      | None =>
          if negb (ex : bool) then
            mret (d, (None, Some ("don't find authentication_name with id " +:+ Id d
                                  +:+ " (id must be <authentication_name>")))
          else
            '(config, err) ← readExternalAuthLdapOptions id c;
            match err with
            | Some err => mret (d, (None, Some err))
            | None =>
                d ← lift (fillExternalAuthLdap d config);
                let d := SetId d id in
                mret (d, (Some [d], None))
            end
      end
  end.

(** ** The localpasswordpolicy data source *)

Definition dataSourceLocalpasswordpolicyVersionCheck (version : string) : option error :=
  if bool_decide (version ∈ defaultVersionsValid) then None
  else Some ("data source wallix-bastion_localpasswordpolicy not available with api version "
             +:+ version).

Definition readLocalpasswordpolicyOptions (passwordPolicyName : string) (c : Client)
  : M (jsonLocalpasswordpolicy.t * option error) :=
  '(body, code, err) ← newRequest c ("/localpasswordpolicies/?q=password_policy_name="
                                      +:+ passwordPolicyName) MethodGet None;
  match err with
  | Some err => mret (jsonLocalpasswordpolicy.zero, Some err)
  | None =>
      if decide (code ≠ StatusOK) then
        mret (jsonLocalpasswordpolicy.zero,
              Some ("api doesn't return OK: " +:+ pretty code +:+ " with body:" +:+ LF +:+ body))
      else
        let '(results, err) := json_Unmarshal body (None : slice jsonLocalpasswordpolicy.t) in
        match err with
        | Some err => mret (jsonLocalpasswordpolicy.zero, Some ("unmarshaling json: " +:+ err))
        | None =>
            if decide (length (elems results) = 0%nat) then
              mret (jsonLocalpasswordpolicy.zero,
                    Some ("password_policy_name " +:+ passwordPolicyName +:+ " not found"))
            else
              results0 ← lift (at_ (elems results) 0);
              mret (results0, None)
        end
  end.

Definition fillLocalpasswordpolicy (d : LocalpasswordpolicyData)
    (jsonData : jsonLocalpasswordpolicy.t) : outcome LocalpasswordpolicyData :=
  d ← mustSet "allow_same_user_and_password"
        (VBool (jsonLocalpasswordpolicy.AllowSameUserAndPassword jsonData)) d;
  d ← mustSet "password_expiration" (VInt (jsonLocalpasswordpolicy.PasswordExpiration jsonData)) d;
  d ← mustSet "password_warning_days" (VInt (jsonLocalpasswordpolicy.PasswordWarningDays jsonData)) d;
  d ← mustSet "password_min_length" (VInt (jsonLocalpasswordpolicy.PasswordMinLength jsonData)) d;
  d ← mustSet "password_min_lower_chars"
        (VInt (jsonLocalpasswordpolicy.PasswordMinLowerChars jsonData)) d;
  d ← mustSet "password_min_upper_chars"
        (VInt (jsonLocalpasswordpolicy.PasswordMinUpperChars jsonData)) d;
  d ← mustSet "password_min_digit_chars"
        (VInt (jsonLocalpasswordpolicy.PasswordMinDigitChars jsonData)) d;
  d ← mustSet "password_min_special_chars"
        (VInt (jsonLocalpasswordpolicy.PasswordMinSpecialChars jsonData)) d;
  d ← mustSet "last_passwords_to_reject"
        (VInt (jsonLocalpasswordpolicy.LastPasswordsToReject jsonData)) d;
  d ← mustSet "max_auth_failures" (VInt (jsonLocalpasswordpolicy.MaxAuthFailures jsonData)) d;
  d ← mustSet "ssh_rsa_min_length" (VInt (jsonLocalpasswordpolicy.SSHRsaMinLength jsonData)) d;
  d ← mustSet "forbidden_passwords"
        (stringsValue (jsonLocalpasswordpolicy.ForbiddenPasswords jsonData)) d;
  mustSet "ssh_key_algos_allowed"
    (stringsValue (jsonLocalpasswordpolicy.SSHKeyAlgosAllowed jsonData)) d.

Definition dataSourceLocalpasswordpolicyRead (d : LocalpasswordpolicyData) (c : Client)
  : M (LocalpasswordpolicyData * Diagnostics) :=
  match dataSourceLocalpasswordpolicyVersionCheck (bastionAPIVersion c) with
  | Some err => mret (d, diag_FromErr err)
  | None =>
      passwordPolicyName ← lift (assertString (Get d "password_policy_name"));
      '(cfg, err) ← readLocalpasswordpolicyOptions passwordPolicyName c;
      match err with
      | Some err => mret (d, diag_FromErr err)
      | None =>
          d ← lift (fillLocalpasswordpolicy d cfg);
          mret (SetId d (jsonLocalpasswordpolicy.ID cfg), (nil : Diagnostics))
      end
  end.


(** ** The resources as the provider registers them

    [resourceApplication()], [resourceDeviceLocalDomainAccountCredential()]
    and [resourceExternalAuthLdap()] each return a [schema.Resource] with the
    five entry points of the resource. *)

Definition versionCheck (r : resourceKind) : string -> option error :=
  match r with
  | Application => resourceApplicationVersionCheck
  | DeviceLocalDomainAccountCredential => resourveDeviceLocalDomainAccountCredentialVersionCheck
  | ExternalAuthLdap => resourveExternalAuthLdapVersionCheck
  end.

Definition CreateContext (r : resourceKind)
  : ResourceData (schemaOf r) -> Client -> M (ResourceData (schemaOf r) * Diagnostics) :=
  match r with
  | Application => resourceApplicationCreate
  | DeviceLocalDomainAccountCredential => resourceDeviceLocalDomainAccountCredentialCreate
  | ExternalAuthLdap => resourceExternalAuthLdapCreate
  end.

Definition ReadContext (r : resourceKind)
  : ResourceData (schemaOf r) -> Client -> M (ResourceData (schemaOf r) * Diagnostics) :=
  match r with
  | Application => resourceApplicationRead
  | DeviceLocalDomainAccountCredential => resourceDeviceLocalDomainAccountCredentialRead
  | ExternalAuthLdap => resourceExternalAuthLdapRead
  end.

Definition UpdateContext (r : resourceKind)
  : ResourceData (schemaOf r) -> Client -> M (ResourceData (schemaOf r) * Diagnostics) :=
  match r with
  | Application => resourceApplicationUpdate
  | DeviceLocalDomainAccountCredential => resourceDeviceLocalDomainAccountCredentialUpdate
  | ExternalAuthLdap => resourceExternalAuthLdapUpdate
  end.

Definition DeleteContext (r : resourceKind)
  : ResourceData (schemaOf r) -> Client -> M (ResourceData (schemaOf r) * Diagnostics) :=
  match r with
  | Application => resourceApplicationDelete
  | DeviceLocalDomainAccountCredential => resourceDeviceLocalDomainAccountCredentialDelete
  | ExternalAuthLdap => resourceExternalAuthLdapDelete
  end.

Definition Importer (r : resourceKind)
  : ResourceData (schemaOf r) -> Client
    -> M (ResourceData (schemaOf r) * (slice (ResourceData (schemaOf r)) * option error)) :=
  match r with
  | Application => resourceApplicationImport
  | DeviceLocalDomainAccountCredential => resourceDeviceLocalDomainAccountCredentialImport
  | ExternalAuthLdap => resourceExternalAuthLdapImport
  end.

(** The Locator of a resource on the identity key of [d]. *)
Definition locate (r : resourceKind) : ResourceData (schemaOf r) -> Client
    -> M (string * bool * option error) :=
  match r with
  | Application => fun d => searchResourceApplication (GetString d "application_name")
  | DeviceLocalDomainAccountCredential => fun d =>
      searchResourceDeviceLocalDomainAccountCredential (GetString d "device_id")
        (GetString d "domain_id") (GetString d "account_id") (GetString d "type")
  | ExternalAuthLdap => fun d => searchResourceExternalAuthLdap (GetString d "authentication_name")
  end.

(** The POST of a resource. *)
Definition post (r : resourceKind) : ResourceData (schemaOf r) -> Client -> M (option error) :=
  match r with
  | Application => addApplication
  | DeviceLocalDomainAccountCredential => addDeviceLocalDomainAccountCredential
  | ExternalAuthLdap => addExternalAuthLdap
  end.

(** What a Create does before it queries the Locator: the credential resource
    reads the device, the local domain and the account it hangs from; the
    result tells whether the three exist. *)
Definition parentsExist (d : CredentialData) (c : Client) : M bool :=
  '(cfgDeviceID, err) ← readDeviceOptions (GetString d "device_id") c;
  if bool_decide (err = None ∧ cfgDeviceID ≠ "") then
    '(cfgDomainID, err) ← readDeviceLocalDomainOptions (GetString d "device_id")
                            (GetString d "domain_id") c;
    if bool_decide (err = None ∧ cfgDomainID ≠ "") then
      '(cfgAccountID, err) ← readDeviceLocalDomainAccountOptions (GetString d "device_id")
                               (GetString d "domain_id") (GetString d "account_id") c;
      mret (bool_decide (err = None ∧ cfgAccountID ≠ ""))
    else mret false
  else mret false.

Definition beforeLocator (r : resourceKind) : ResourceData (schemaOf r) -> Client -> M bool :=
  match r with
  | DeviceLocalDomainAccountCredential => parentsExist
  | _ => fun _ _ => mret true
  end.

(** The check of the companion fields a Create makes between the Locator and
    the POST: whether a required companion is missing. *)
Definition missingCompanion (r : resourceKind) : ResourceData (schemaOf r) -> outcome bool :=
  match r with
  | ExternalAuthLdap => missingLoginOrPassword
  | _ => fun _ => Ok false
  end.

Definition alreadyExists (r : resourceKind) : ResourceData (schemaOf r) -> error :=
  match r with
  | Application => fun d =>
      "application_name " +:+ GetString d "application_name" +:+ " already exists"
  | DeviceLocalDomainAccountCredential => fun d =>
      "credential tpye " +:+ GetString d "type" +:+ " on account_id " +:+ GetString d "account_id"
      +:+ ", domain_id " +:+ GetString d "domain_id" +:+ ", device_id " +:+ GetString d "device_id"
      +:+ " already exists"
  | ExternalAuthLdap => fun d =>
      "authentication_name " +:+ GetString d "authentication_name" +:+ " already exists"
  end.

Definition cantFindAfterPost (r : resourceKind) : ResourceData (schemaOf r) -> error :=
  match r with
  | Application => fun d =>
      "application_name " +:+ GetString d "application_name" +:+ " can't find after POST"
  | DeviceLocalDomainAccountCredential => fun d =>
      "credential tpye " +:+ GetString d "type" +:+ " on account_id " +:+ GetString d "account_id"
      +:+ ", domain_id " +:+ GetString d "domain_id" +:+ ", device_id " +:+ GetString d "device_id"
      +:+ " can't find after POST"
  | ExternalAuthLdap => fun d =>
      "authentication_name " +:+ GetString d "authentication_name" +:+ " can't find after POST"
  end.

(** The URI of the GET by id of a Read. *)
Definition readURI (r : resourceKind) : ResourceData (schemaOf r) -> string :=
  match r with
  | Application => fun d => "/applications/" +:+ Id d
  | DeviceLocalDomainAccountCredential => fun d =>
      credentialsURI (GetString d "device_id") (GetString d "domain_id")
        (GetString d "account_id") +:+ Id d
  | ExternalAuthLdap => fun d => "/externalauths/" +:+ Id d
  end.

(** The text around status and body in the error of an unexpected status of
    a Read. *)
Definition statusErrorPrefix (r : resourceKind) : string :=
  match r with
  | Application => "api doesn't return OK : "
  | _ => "api return not OK : "
  end.

Definition statusErrorInfix (r : resourceKind) : string :=
  match r with
  | Application => " with body :" +:+ LF
  | _ => " with body "
  end.

(** [decode(encode(x))] on the application resource: the record
    [prepareApplicationJSON] builds from [d], handed to [fillApplication]. *)
Definition decodeEncodeApplication (d : ApplicationData) : outcome ApplicationData :=
  jsonData ← prepareApplicationJSON d;
  fillApplication d jsonData.

(** The wire record of an element of the set [paths]. *)
Definition pathOfValue (v : value) : jsonApplicationPath.t :=
  let field (k : string) :=
    match v with
    | VMap m => match index m k with VString s => s | _ => "" end
    | _ => ""
    end in
  jsonApplicationPath.mk (field "target") (field "program") (field "working_dir").

(** The refresh [m] of the data [d] returns, and the fields [keys] hold after
    it what they held before. *)
Definition keeps {sch A} (keys : list string) (d : ResourceData sch)
    (m : M (ResourceData sch * A)) : Prop :=
  ∀ log, ∃ d' a log', m log = Ok ((d', a), log') ∧ ∀ k, k ∈ keys -> Get d' k = Get d k.

(** ** What the further properties speak about *)

(** The answer of a Locator on a decoded list: the id of the first element
    whose key is the one wanted. *)
Definition firstMatch {A} (key ident : A -> string) (wanted : string) (l : list A)
  : string * bool * option error :=
  match List.find (fun v => bool_decide (key v = wanted)) l with
  | Some v => (ident v, true, None)
  | None => ("", false, None)
  end.

(** The log [log'] extends [log] by at most [n] requests, all of them GETs
    without a body. *)
Definition onlyGets (n : nat) (log log' : list Request) : Prop :=
  ∃ ext, log' = log ++ ext ∧ (length ext <= n)%nat
         ∧ Forall (λ req, reqMethod req = MethodGet ∧ reqBody req = None) ext.

Definition GetInt {sch} (d : ResourceData sch) (key : string) : Z :=
  match Get d key with VInt n => n | _ => 0 end.

Definition GetFloat {sch} (d : ResourceData sch) (key : string) : float :=
  match Get d key with VFloat f => f | _ => 0%float end.

(** The URI of the list query of a Locator. *)
Definition locateURI (r : resourceKind) : ResourceData (schemaOf r) -> string :=
  match r with
  | Application => fun _ => "/applications/?fields=application_name,id&limit=-1"
  | DeviceLocalDomainAccountCredential => fun d =>
      credentialsURI (GetString d "device_id") (GetString d "domain_id")
        (GetString d "account_id")
  | ExternalAuthLdap => fun d => "/externalauths/" +:+ GetString d "authentication_name"
  end.

(** The fields of an LDAP authentication that [fillExternalAuthLdap] writes. *)
Definition ldapFilledFields : list string :=
  [ "cn_attribute"; "host"; "ldap_base"; "login"; "login_attribute"; "port"; "timeout";
    "ca_certificate"; "certificate"; "description"; "is_active_directory";
    "is_anonymous_access"; "is_protected_user"; "is_ssl"; "is_starttls"; "private_key";
    "use_primary_auth_domain" ].

(** The text before the status in the error of a write that is refused. *)
Definition writeErrorPrefix (r : resourceKind) : string :=
  match r with
  | Application => "api doesn't return OK or NoContent : "
  | _ => "api return not OK or NoContent : "
  end.

(** What the data source mirrors of a policy: field and value. *)
Definition mirroredPolicy (cfg : jsonLocalpasswordpolicy.t) : list (string * value) :=
  [ ("allow_same_user_and_password", VBool (jsonLocalpasswordpolicy.AllowSameUserAndPassword cfg));
    ("password_expiration", VInt (jsonLocalpasswordpolicy.PasswordExpiration cfg));
    ("password_warning_days", VInt (jsonLocalpasswordpolicy.PasswordWarningDays cfg));
    ("password_min_length", VInt (jsonLocalpasswordpolicy.PasswordMinLength cfg));
    ("password_min_lower_chars", VInt (jsonLocalpasswordpolicy.PasswordMinLowerChars cfg));
    ("password_min_upper_chars", VInt (jsonLocalpasswordpolicy.PasswordMinUpperChars cfg));
    ("password_min_digit_chars", VInt (jsonLocalpasswordpolicy.PasswordMinDigitChars cfg));
    ("password_min_special_chars", VInt (jsonLocalpasswordpolicy.PasswordMinSpecialChars cfg));
    ("last_passwords_to_reject", VInt (jsonLocalpasswordpolicy.LastPasswordsToReject cfg));
    ("max_auth_failures", VInt (jsonLocalpasswordpolicy.MaxAuthFailures cfg));
    ("ssh_rsa_min_length", VInt (jsonLocalpasswordpolicy.SSHRsaMinLength cfg));
    ("forbidden_passwords",
      VSet (VString <$> elems (jsonLocalpasswordpolicy.ForbiddenPasswords cfg)));
    ("ssh_key_algos_allowed",
      VSet (VString <$> elems (jsonLocalpasswordpolicy.SSHKeyAlgosAllowed cfg))) ].

(** The URI of the query of the data source. *)
Definition policyURI (d : LocalpasswordpolicyData) : string :=
  "/localpasswordpolicies/?q=password_policy_name=" +:+ GetString d "password_policy_name".

(** The map [fillApplication] stores for a path and for a local domain. *)
Definition pathValue (v : jsonApplicationPath.t) : value :=
  VMap [ ("target", VString (jsonApplicationPath.Target v));
         ("program", VString (jsonApplicationPath.Program v));
         ("working_dir", VString (jsonApplicationPath.WorkingDir v)) ].

Definition localDomainValue (v : jsonApplicationLocalDomain.t) : value :=
  VMap [ ("id", VString (jsonApplicationLocalDomain.ID v));
         ("admin_account", VString (jsonApplicationLocalDomain.AdminAccount v));
         ("domain_name", VString (jsonApplicationLocalDomain.DomainName v));
         ("description", VString (jsonApplicationLocalDomain.Description v));
         ("enable_password_change", VBool (jsonApplicationLocalDomain.EnablePasswordChange v));
         ("password_change_policy",
           VString (jsonApplicationLocalDomain.PasswordChangePolicy v));
         ("password_change_plugin",
           VString (jsonApplicationLocalDomain.PasswordChangePlugin v));
         ("password_change_plugin_parameters",
           VString (json_Marshal (jsonApplicationLocalDomain.PasswordChangePluginParameters v))) ].

(** The record of an application as the appliance returns it after a write:
    the record written, with its local domains. *)
Definition withLocalDomains (jsonData : jsonApplication.t)
    (localDomains : slice jsonApplicationLocalDomain.t) : jsonApplication.t :=
  jsonApplication.mk (jsonApplication.ID jsonData) (jsonApplication.ApplicationName jsonData)
    (jsonApplication.ConnectionPolicy jsonData) (jsonApplication.Description jsonData)
    (jsonApplication.Parameters jsonData) (jsonApplication.Target jsonData)
    (jsonApplication.GlobalDomains jsonData) (jsonApplication.Paths jsonData)
    (Some localDomains).

(** The strings of an application that can be set. *)
Definition applicationStrings : list string :=
  [ "application_name"; "connection_policy"; "target"; "description"; "parameters" ].

(** The body of the write of a resource: the encoding of the data, for a
    new resource or for an update. *)
Definition encode (r : resourceKind) (newResource : bool)
  : ResourceData (schemaOf r) -> outcome jsonBody :=
  match r with
  | Application => fun d => json ← prepareApplicationJSON d; mret (BodyApplication json)
  | DeviceLocalDomainAccountCredential => fun d =>
      json ← prepareDeviceLocalDomainAccountCredentialJSON d newResource;
      mret (BodyCredential json)
  | ExternalAuthLdap => fun d =>
      json ← prepareExternalAuthLdapJSON d; mret (BodyExternalAuthLdap json)
  end.

(** The URI of the POST of a Create and of the PUT of an Update. *)
Definition collectionURI (r : resourceKind) : ResourceData (schemaOf r) -> string :=
  match r with
  | Application => fun _ => "/applications/"
  | DeviceLocalDomainAccountCredential => fun d =>
      credentialsURI (GetString d "device_id") (GetString d "domain_id")
        (GetString d "account_id")
  | ExternalAuthLdap => fun _ => "/externalauths/"
  end.

Definition updateURI (r : resourceKind) : ResourceData (schemaOf r) -> string :=
  match r with
  | Application => fun d => "/applications/" +:+ Id d +:+ "?force=true"
  | DeviceLocalDomainAccountCredential => fun d =>
      credentialsURI (GetString d "device_id") (GetString d "domain_id")
        (GetString d "account_id") +:+ Id d
  | ExternalAuthLdap => fun d => "/externalauths/" +:+ Id d
  end.

(** Whether an Update of the resource runs in the partial mode of the SDK. *)
Definition updatesInPartialMode (r : resourceKind) : bool :=
  match r with
  | ExternalAuthLdap => false
  | _ => true
  end.

(** * Properties *)

(** ** The monad of requests *)

Lemma bind_Ok {A B} (m : M A) (f : A -> M B) log a log' :
  m log = Ok (a, log') -> (m ≫= f) log = f a log'.
Proof. intros H. unfold mbind, M_bind. now rewrite H. Qed.

Lemma bind_Panic {A B} (m : M A) (f : A -> M B) log msg :
  m log = Panic msg -> (m ≫= f) log = Panic msg.
Proof. intros H. unfold mbind, M_bind. now rewrite H. Qed.

Lemma lift_Ok {A} (a : A) log : lift (Ok a) log = Ok (a, log).
Proof. reflexivity. Qed.

Lemma ret_Ok {A} (a : A) log : (mret a : M A) log = Ok (a, log).
Proof. reflexivity. Qed.

Lemma newRequest_Ok c uri method body log :
  newRequest c uri method body log
  = Ok (appliance c log (mkRequest uri method body), log ++ [mkRequest uri method body]).
Proof. reflexivity. Qed.

(** ** Resource data *)

Lemma Get_TypeString {sch} (d : ResourceData sch) key :
  schemaType sch key = Some TypeString -> Get d key = VString (GetString d key).
Proof.
  intros H. unfold GetString, Get. rewrite H.
  destruct (rdState d !! key) as [v|]; [destruct v|]; reflexivity.
Qed.

Lemma Get_TypeStringDefault {sch} (d : ResourceData sch) key dflt :
  schemaType sch key = Some (TypeStringDefault dflt) -> Get d key = VString (GetString d key).
Proof.
  intros H. unfold GetString, Get. rewrite H.
  destruct (rdState d !! key) as [v|]; [destruct v|]; reflexivity.
Qed.

Lemma Get_TypeBool {sch} (d : ResourceData sch) key :
  schemaType sch key = Some TypeBool -> Get d key = VBool (GetBool d key).
Proof.
  intros H. unfold GetBool, Get. rewrite H.
  destruct (rdState d !! key) as [v|]; [destruct v|]; reflexivity.
Qed.

Lemma Get_TypeSet {sch} (d : ResourceData sch) key e :
  schemaType sch key = Some (TypeSet e) ->
  Get d key = VSet (GetSet d key) ∧ forallb (hasType e) (GetSet d key) = true.
Proof.
  intros H. unfold GetSet, Get. rewrite H.
  destruct (rdState d !! key) as [v|]; [|split; reflexivity].
  destruct (hasType (TypeSet e) v) eqn:Hv; [|split; reflexivity].
  destruct v; try discriminate. split; [reflexivity | exact Hv].
Qed.

Lemma Get_SetId {sch} (d : ResourceData sch) id key : Get (SetId d id) key = Get d key.
Proof. reflexivity. Qed.

Lemma Get_Partial {sch} (d : ResourceData sch) on key : Get (Partial d on) key = Get d key.
Proof. reflexivity. Qed.

Lemma mustSet_Ok {sch} (d : ResourceData sch) key v t v' :
  schemaType sch key = Some t -> coerce t v = Some v' ->
  mustSet key v d = Ok (mkResourceData (rdId d) (<[key := v']> (rdState d)) (rdPartial d)).
Proof. intros Ht Hv. unfold mustSet, Set_. now rewrite Ht, Hv. Qed.

(** A successful [d.Set] touches the field it names, and nothing else. *)
Lemma mustSet_frame {sch} (d d' : ResourceData sch) key v key' :
  mustSet key v d = Ok d' -> key ≠ key' ->
  Get d' key' = Get d key' ∧ Id d' = Id d.
Proof.
  unfold mustSet, Set_. intros H Hne.
  destruct (schemaType sch key) as [t|]; [|discriminate].
  destruct (coerce t v) as [v'|]; [|discriminate].
  injection H as <-. split; [|reflexivity].
  unfold Get; simpl. now rewrite lookup_insert_ne.
Qed.

Lemma mustSet_Get_string {sch} (d d' : ResourceData sch) key s :
  schemaType sch key = Some TypeString ->
  mustSet key (VString s) d = Ok d' -> Get d' key = VString s.
Proof.
  unfold mustSet, Set_. intros Ht H. rewrite Ht in H. simpl in H.
  injection H as <-. unfold Get; simpl. now rewrite Ht, lookup_insert_eq.
Qed.

(** ** Version Gate *)

Lemma versionCheck_accepts r : versionCheck r versionValidate3_3 = None.
Proof.
  destruct r; simpl;
    unfold resourceApplicationVersionCheck,
      resourveDeviceLocalDomainAccountCredentialVersionCheck,
      resourveExternalAuthLdapVersionCheck;
    now rewrite decide_True.
Qed.

(** The gate of a resource rejects every version but the validated one, with
    an error that ends with the version; the errors of the application and of
    the LDAP authentication name their resource. *)
Lemma versionCheck_rejects r version :
  version ≠ versionValidate3_3 ->
  ∃ err pre, versionCheck r version = Some err ∧ err = pre +:+ version
    ∧ (r ≠ DeviceLocalDomainAccountCredential -> namesResource r err = true).
Proof.
  intros Hne.
  destruct r; simpl;
    unfold resourceApplicationVersionCheck,
      resourveDeviceLocalDomainAccountCredentialVersionCheck,
      resourveExternalAuthLdapVersionCheck;
    rewrite decide_False by exact Hne;
    eexists; eexists; (split; [reflexivity|]); (split; [reflexivity|]);
    intros Hr; try reflexivity.
  now destruct Hr.
Qed.

(** Every entry point of every resource stops at a rejecting gate: it
    reports the error of the gate and leaves the log of requests as it found
    it. *)
Lemma version_gate_precedes_io r (d : ResourceData (schemaOf r)) c err log :
  versionCheck r (bastionAPIVersion c) = Some err ->
  CreateContext r d c log = Ok ((d, diag_FromErr err), log)
  ∧ ReadContext r d c log = Ok ((d, diag_FromErr err), log)
  ∧ (∃ d', UpdateContext r d c log = Ok ((d', diag_FromErr err), log))
  ∧ DeleteContext r d c log = Ok ((d, diag_FromErr err), log)
  ∧ Importer r d c log = Ok ((d, (None, Some err)), log).
Proof.
  intros H. destruct r; simpl in *.
  - unfold resourceApplicationCreate, resourceApplicationRead, resourceApplicationUpdate,
      resourceApplicationDelete, resourceApplicationImport.
    rewrite H. repeat split. now eexists.
  - unfold resourceDeviceLocalDomainAccountCredentialCreate,
      resourceDeviceLocalDomainAccountCredentialRead,
      resourceDeviceLocalDomainAccountCredentialUpdate,
      resourceDeviceLocalDomainAccountCredentialDelete,
      resourceDeviceLocalDomainAccountCredentialImport.
    rewrite H. repeat split. now eexists.
  - unfold resourceExternalAuthLdapCreate, resourceExternalAuthLdapRead,
      resourceExternalAuthLdapUpdate, resourceExternalAuthLdapDelete,
      resourceExternalAuthLdapImport.
    rewrite H. repeat split. now eexists.
Qed.

(** The Read of the data source stops at its gate in the same way. *)
Lemma dataSource_version_gate_precedes_io (d : LocalpasswordpolicyData) c log :
  bastionAPIVersion c ∉ defaultVersionsValid ->
  dataSourceLocalpasswordpolicyRead d c log
  = Ok ((d, diag_FromErr
              ("data source wallix-bastion_localpasswordpolicy not available with api version "
               +:+ bastionAPIVersion c)), log).
Proof.
  intros H. unfold dataSourceLocalpasswordpolicyRead, dataSourceLocalpasswordpolicyVersionCheck.
  now rewrite bool_decide_eq_false_2.
Qed.

(** C2, on the code: a Create of the credential resource against an appliance
    whose API version is not the validated one is rejected before any request
    is made, but the error it returns carries the name of the
    wallix-bastion_device_localdomain resource, not the name of the credential
    resource the operation belongs to. *)
Theorem C2_credential_gate_error_names_another_resource (d : CredentialData) c log :
  bastionAPIVersion c ≠ versionValidate3_3 ->
  ∃ err,
    resourceDeviceLocalDomainAccountCredentialCreate d c log = Ok ((d, diag_FromErr err), log)
    ∧ err = "resource wallix-bastion_device_localdomain not validate with api version "
            +:+ bastionAPIVersion c
    ∧ namesResource DeviceLocalDomainAccountCredential err = false.
Proof.
  intros Hne. eexists. split; [|split; [reflexivity|reflexivity]].
  unfold resourceDeviceLocalDomainAccountCredentialCreate,
    resourveDeviceLocalDomainAccountCredentialVersionCheck.
  now rewrite decide_False by exact Hne.
Qed.

(** ** Import keys *)

(** Splitting on a byte gives one segment more than the byte occurs. *)
Lemma splitFrom_length sep cur s :
  length (splitFrom sep cur s)
  = S (length (filter (λ a, a = sep) (list_ascii_of_string s))).
Proof.
  revert cur. induction s as [|a s IH]; intros cur; simpl; [reflexivity|].
  rewrite filter_cons. destruct (decide (a = sep)); simpl; now rewrite IH.
Qed.

(** C8: an Import of the credential resource whose id does not split on '/'
    into exactly four segments returns the format error and makes no request;
    whatever the version of the appliance, it returns an error and makes no
    request. *)
Theorem C8_import_key_arity (d : CredentialData) c log :
  length (strings_Split (Id d) "/"%char) ≠ 4%nat ->
  (∃ err, resourceDeviceLocalDomainAccountCredentialImport d c log
          = Ok ((d, (None, Some err)), log))
  ∧ (bastionAPIVersion c = versionValidate3_3 ->
     resourceDeviceLocalDomainAccountCredentialImport d c log
     = Ok ((d, (None, Some "id msut be <device_id>/<domain_id>/<account_id>/<type>")), log)).
Proof.
  intros Hlen. unfold resourceDeviceLocalDomainAccountCredentialImport,
    resourveDeviceLocalDomainAccountCredentialVersionCheck.
  split.
  - destruct (decide (bastionAPIVersion c = versionValidate3_3)).
    + rewrite decide_True by exact Hlen. now eexists.
    + now eexists.
  - intros Hv. rewrite decide_True by exact Hv. now rewrite decide_True by exact Hlen.
Qed.

(** ** Read *)

Lemma bind_lift_Ok {A B} (a : A) (f : A -> M B) log : (lift (Ok a) ≫= f) log = f a log.
Proof. reflexivity. Qed.

Lemma bind_newRequest {B} c uri method body (f : Response -> M B) log :
  (newRequest c uri method body ≫= f) log
  = f (appliance c log (mkRequest uri method body)) (log ++ [mkRequest uri method body]).
Proof. reflexivity. Qed.

(** The strings a credential is addressed by are read without panic. *)
Ltac get_strings :=
  repeat rewrite Get_TypeString by reflexivity;
  simpl assertString;
  repeat rewrite bind_lift_Ok.

(** What the three GETs by id return on a status that is not 200. *)
Lemma readApplicationOptions_status applicationID c log body code :
  appliance c log (mkRequest ("/applications/" +:+ applicationID) MethodGet None)
  = (body, code, None) ->
  code ≠ StatusOK ->
  readApplicationOptions applicationID c log
  = Ok ((jsonApplication.zero,
         if decide (code = StatusNotFound) then None
         else Some (statusErrorPrefix Application +:+ pretty code
                    +:+ statusErrorInfix Application +:+ body)),
        log ++ [mkRequest ("/applications/" +:+ applicationID) MethodGet None]).
Proof.
  intros Hget Hok. unfold readApplicationOptions. cbv zeta.
  rewrite bind_newRequest, Hget. cbv beta iota.
  destruct (decide (code = StatusNotFound)); [reflexivity|].
  now rewrite decide_True by exact Hok.
Qed.

Lemma readDeviceLocalDomainAccountCredentialOptions_status
    deviceID localDomainID accountID credentialID c log body code :
  appliance c log (mkRequest (credentialsURI deviceID localDomainID accountID +:+ credentialID)
                     MethodGet None) = (body, code, None) ->
  code ≠ StatusOK ->
  readDeviceLocalDomainAccountCredentialOptions deviceID localDomainID accountID credentialID c log
  = Ok ((jsonDeviceLocalDomainAccountCredential.zero,
         if decide (code = StatusNotFound) then None
         else Some (statusErrorPrefix DeviceLocalDomainAccountCredential +:+ pretty code
                    +:+ statusErrorInfix DeviceLocalDomainAccountCredential +:+ body)),
        log ++ [mkRequest (credentialsURI deviceID localDomainID accountID +:+ credentialID)
                  MethodGet None]).
Proof.
  intros Hget Hok. unfold readDeviceLocalDomainAccountCredentialOptions. cbv zeta.
  rewrite bind_newRequest, Hget. cbv beta iota.
  destruct (decide (code = StatusNotFound)); [reflexivity|].
  now rewrite decide_True by exact Hok.
Qed.

Lemma readExternalAuthLdapOptions_status authenticationID c log body code :
  appliance c log (mkRequest ("/externalauths/" +:+ authenticationID) MethodGet None)
  = (body, code, None) ->
  code ≠ StatusOK ->
  readExternalAuthLdapOptions authenticationID c log
  = Ok ((jsonExternalAuthLdap.zero,
         if decide (code = StatusNotFound) then None
         else Some (statusErrorPrefix ExternalAuthLdap +:+ pretty code
                    +:+ statusErrorInfix ExternalAuthLdap +:+ body)),
        log ++ [mkRequest ("/externalauths/" +:+ authenticationID) MethodGet None]).
Proof.
  intros Hget Hok. unfold readExternalAuthLdapOptions. cbv zeta.
  rewrite bind_newRequest, Hget. cbv beta iota.
  destruct (decide (code = StatusNotFound)); [reflexivity|].
  now rewrite decide_True by exact Hok.
Qed.

(** C7: a Read whose GET by id is answered 404 clears the id and reports no
    error; a Read whose GET is answered with any status but 200 and 404
    reports one error, which carries the status and the body returned. *)
Theorem C7_read_not_found_is_absent r (d : ResourceData (schemaOf r)) c log body code :
  versionCheck r (bastionAPIVersion c) = None ->
  appliance c log (mkRequest (readURI r d) MethodGet None) = (body, code, None) ->
  (code = StatusNotFound ->
   ReadContext r d c log
   = Ok ((SetId d "", nil), log ++ [mkRequest (readURI r d) MethodGet None]))
  ∧ (code ≠ StatusOK -> code ≠ StatusNotFound ->
     ReadContext r d c log
     = Ok ((d, diag_FromErr (statusErrorPrefix r +:+ pretty code +:+ statusErrorInfix r +:+ body)),
           log ++ [mkRequest (readURI r d) MethodGet None])).
Proof.
  intros Hv Hget.
  assert (Hnf : code = StatusNotFound -> code ≠ StatusOK) by (intros ->; discriminate).
  destruct r; simpl in d, Hv, Hget; simpl ReadContext; simpl readURI.
  - unfold resourceApplicationRead. rewrite Hv. split.
    + intros Hc. erewrite bind_Ok by (apply readApplicationOptions_status; eauto).
      now rewrite decide_True by exact Hc.
    + intros Hok Hc. erewrite bind_Ok by (apply readApplicationOptions_status; eauto).
      now rewrite decide_False by exact Hc.
  - unfold resourceDeviceLocalDomainAccountCredentialRead. rewrite Hv. get_strings. split.
    + intros Hc.
      erewrite bind_Ok by (apply readDeviceLocalDomainAccountCredentialOptions_status; eauto).
      now rewrite decide_True by exact Hc.
    + intros Hok Hc.
      erewrite bind_Ok by (apply readDeviceLocalDomainAccountCredentialOptions_status; eauto).
      now rewrite decide_False by exact Hc.
  - unfold resourceExternalAuthLdapRead. rewrite Hv. split.
    + intros Hc. erewrite bind_Ok by (apply readExternalAuthLdapOptions_status; eauto).
      now rewrite decide_True by exact Hc.
    + intros Hok Hc. erewrite bind_Ok by (apply readExternalAuthLdapOptions_status; eauto).
      now rewrite decide_False by exact Hc.
Qed.

(** ** The lookup of the data source *)

(** C10: on a list answered 200 and decoded without error, the lookup of the
    data source returns an error when the list is empty and otherwise the
    first element of the list, whatever the name that element carries; the
    Locator of the application resource, on an empty list, reports
    "not found" without error. *)
Theorem C10_data_source_takes_first_result name c log body results :
  appliance c log
    (mkRequest ("/localpasswordpolicies/?q=password_policy_name=" +:+ name) MethodGet None)
  = (body, StatusOK, None) ->
  json_Unmarshal body (None : slice jsonLocalpasswordpolicy.t) = (results, None) ->
  let log' := log ++ [mkRequest ("/localpasswordpolicies/?q=password_policy_name=" +:+ name)
                        MethodGet None] in
  (elems results = [] ->
   readLocalpasswordpolicyOptions name c log
   = Ok ((jsonLocalpasswordpolicy.zero,
          Some ("password_policy_name " +:+ name +:+ " not found")), log'))
  ∧ (∀ first rest, elems results = first :: rest ->
     readLocalpasswordpolicyOptions name c log = Ok ((first, None), log'))
  ∧ (∀ applicationName log0 body0 results0,
       appliance c log0
         (mkRequest "/applications/?fields=application_name,id&limit=-1" MethodGet None)
       = (body0, StatusOK, None) ->
       json_Unmarshal body0 (None : slice jsonApplication.t) = (results0, None) ->
       elems results0 = [] ->
       searchResourceApplication applicationName c log0
       = Ok (("", false, None),
             log0 ++ [mkRequest "/applications/?fields=application_name,id&limit=-1"
                        MethodGet None])).
Proof.
  intros Hget Hdec log'. unfold readLocalpasswordpolicyOptions.
  rewrite bind_newRequest, Hget. simpl. rewrite Hdec. repeat split.
  - intros ->. reflexivity.
  - intros first rest ->. reflexivity.
  - intros applicationName log0 body0 results0 Hget0 Hdec0 Hnil.
    unfold searchResourceApplication. rewrite bind_newRequest, Hget0. simpl.
    rewrite Hdec0, Hnil. reflexivity.
Qed.

(** ** Locator and Create *)

Lemma posts_app_get log uri body : posts (log ++ [mkRequest uri MethodGet body]) = posts log.
Proof. unfold posts. rewrite filter_app. simpl. now rewrite app_nil_r. Qed.

(** Code that returns after one GET leaves one GET in the log. *)
Ltac one_get :=
  intros H; rewrite bind_newRequest in H;
  repeat (case_match; try discriminate);
  cbv [mret M_ret] in H; simplify_eq; reflexivity.

Lemma searchResourceApplication_log applicationName c log res log' :
  searchResourceApplication applicationName c log = Ok (res, log') ->
  log' = log ++ [mkRequest "/applications/?fields=application_name,id&limit=-1" MethodGet None].
Proof. unfold searchResourceApplication. one_get. Qed.

Lemma searchResourceDeviceLocalDomainAccountCredential_log
    deviceID domainID accountID typeCred c log res log' :
  searchResourceDeviceLocalDomainAccountCredential deviceID domainID accountID typeCred c log
  = Ok (res, log') ->
  log' = log ++ [mkRequest (credentialsURI deviceID domainID accountID) MethodGet None].
Proof. unfold searchResourceDeviceLocalDomainAccountCredential. one_get. Qed.

Lemma searchResourceExternalAuthLdap_log authenticationName c log res log' :
  searchResourceExternalAuthLdap authenticationName c log = Ok (res, log') ->
  log' = log ++ [mkRequest ("/externalauths/" +:+ authenticationName) MethodGet None].
Proof. unfold searchResourceExternalAuthLdap. one_get. Qed.

Lemma readParentOptions_log uri c log res log' :
  readParentOptions uri c log = Ok (res, log') -> log' = log ++ [mkRequest uri MethodGet None].
Proof. unfold readParentOptions. one_get. Qed.

(** The Locator issues no POST. *)
Lemma locate_posts r (d : ResourceData (schemaOf r)) c log res log' :
  locate r d c log = Ok (res, log') -> posts log' = posts log.
Proof.
  destruct r; simpl; intros H.
  - apply searchResourceApplication_log in H as ->. apply posts_app_get.
  - apply searchResourceDeviceLocalDomainAccountCredential_log in H as ->. apply posts_app_get.
  - apply searchResourceExternalAuthLdap_log in H as ->. apply posts_app_get.
Qed.

(** When the three parents of a credential exist, each was read without
    error and has an id. *)
Lemma parentsExist_true (d : CredentialData) c log log' :
  parentsExist d c log = Ok (true, log') ->
  ∃ cfgDeviceID cfgDomainID cfgAccountID log1 log2,
    readDeviceOptions (GetString d "device_id") c log = Ok ((cfgDeviceID, None), log1)
    ∧ cfgDeviceID ≠ ""
    ∧ readDeviceLocalDomainOptions (GetString d "device_id") (GetString d "domain_id") c log1
      = Ok ((cfgDomainID, None), log2)
    ∧ cfgDomainID ≠ ""
    ∧ readDeviceLocalDomainAccountOptions (GetString d "device_id") (GetString d "domain_id")
        (GetString d "account_id") c log2 = Ok ((cfgAccountID, None), log')
    ∧ cfgAccountID ≠ "".
Proof.
  unfold parentsExist, mbind, M_bind. intros H.
  destruct (readDeviceOptions _ c log) as [[[dev e1] l1]|] eqn:E1; [|discriminate].
  case_bool_decide as H1; [|discriminate]. destruct H1 as [-> Hdev].
  destruct (readDeviceLocalDomainOptions _ _ c l1) as [[[dom e2] l2]|] eqn:E2; [|discriminate].
  case_bool_decide as H2; [|discriminate]. destruct H2 as [-> Hdom].
  destruct (readDeviceLocalDomainAccountOptions _ _ _ c l2) as [[[acc e3] l3]|] eqn:E3;
    [|discriminate].
  cbv [mret M_ret] in H. simplify_eq.
  case_bool_decide as H3; [|discriminate]. destruct H3 as [-> Hacc].
  now exists dev, dom, acc, l1, l2.
Qed.

Lemma beforeLocator_posts r (d : ResourceData (schemaOf r)) c log log' :
  beforeLocator r d c log = Ok (true, log') -> posts log' = posts log.
Proof.
  destruct r; simpl; intros H; try (cbv [mret M_ret] in H; now simplify_eq).
  apply parentsExist_true in H as (dev & dom & acc & l1 & l2 & H1 & _ & H2 & _ & H3 & _).
  apply readParentOptions_log in H1 as ->, H2 as ->, H3 as ->.
  now rewrite !posts_app_get.
Qed.

(** C6: a Create whose first query of the Locator reports that the identity
    key exists returns the "already exists" error of the resource, leaves the
    data untouched, and adds no POST to the log of requests. *)
Theorem C6_create_rejects_duplicate r (d : ResourceData (schemaOf r)) c log log1 log2 id :
  versionCheck r (bastionAPIVersion c) = None ->
  beforeLocator r d c log = Ok (true, log1) ->
  locate r d c log1 = Ok ((id, true, None), log2) ->
  CreateContext r d c log = Ok ((d, diag_FromErr (alreadyExists r d)), log2)
  ∧ posts log2 = posts log.
Proof.
  intros Hv Hpre Hloc. split.
  2: { apply locate_posts in Hloc. apply beforeLocator_posts in Hpre. congruence. }
  destruct r; simpl in d, Hv, Hpre, Hloc; simpl CreateContext; simpl alreadyExists.
  - cbv [mret M_ret] in Hpre. simplify_eq.
    unfold resourceApplicationCreate. rewrite Hv. get_strings.
    erewrite bind_Ok by exact Hloc. reflexivity.
  - apply parentsExist_true in Hpre
      as (dev & dom & acc & l1 & l2 & H1 & Hdev & H2 & Hdom & H3 & Hacc).
    unfold resourceDeviceLocalDomainAccountCredentialCreate. rewrite Hv. get_strings.
    erewrite bind_Ok by exact H1. cbv beta iota. rewrite decide_False by exact Hdev.
    rewrite bind_lift_Ok.
    erewrite bind_Ok by exact H2. cbv beta iota. rewrite decide_False by exact Hdom.
    rewrite bind_lift_Ok.
    erewrite bind_Ok by exact H3. cbv beta iota. rewrite decide_False by exact Hacc.
    rewrite bind_lift_Ok.
    erewrite bind_Ok by exact Hloc. reflexivity.
  - cbv [mret M_ret] in Hpre. simplify_eq.
    unfold resourceExternalAuthLdapCreate. rewrite Hv. get_strings.
    erewrite bind_Ok by exact Hloc. reflexivity.
Qed.

(** C5: a Create whose POST succeeds and whose next query of the Locator
    still reports the identity key as not found returns the "can't find after
    POST" error of the resource and binds no id. *)
Theorem C5_create_verifies_after_post r (d : ResourceData (schemaOf r)) c
    log log1 log2 log3 log4 id0 id :
  versionCheck r (bastionAPIVersion c) = None ->
  beforeLocator r d c log = Ok (true, log1) ->
  locate r d c log1 = Ok ((id0, false, None), log2) ->
  missingCompanion r d = Ok false ->
  post r d c log2 = Ok (None, log3) ->
  locate r d c log3 = Ok ((id, false, None), log4) ->
  CreateContext r d c log = Ok ((d, diag_FromErr (cantFindAfterPost r d)), log4).
Proof.
  intros Hv Hpre Hloc Hcomp Hpost Hloc'.
  destruct r; simpl in d, Hv, Hpre, Hloc, Hcomp, Hpost, Hloc';
    simpl CreateContext; simpl cantFindAfterPost.
  - cbv [mret M_ret] in Hpre. simplify_eq.
    unfold resourceApplicationCreate. rewrite Hv. get_strings.
    erewrite bind_Ok by exact Hloc. cbv beta iota.
    erewrite bind_Ok by exact Hpost. cbv beta iota.
    erewrite bind_Ok by exact Hloc'. reflexivity.
  - apply parentsExist_true in Hpre
      as (dev & dom & acc & l1 & l2 & H1 & Hdev & H2 & Hdom & H3 & Hacc).
    unfold resourceDeviceLocalDomainAccountCredentialCreate. rewrite Hv. get_strings.
    erewrite bind_Ok by exact H1. cbv beta iota. rewrite decide_False by exact Hdev.
    rewrite bind_lift_Ok.
    erewrite bind_Ok by exact H2. cbv beta iota. rewrite decide_False by exact Hdom.
    rewrite bind_lift_Ok.
    erewrite bind_Ok by exact H3. cbv beta iota. rewrite decide_False by exact Hacc.
    rewrite bind_lift_Ok.
    erewrite bind_Ok by exact Hloc. cbv beta iota.
    erewrite bind_Ok by exact Hpost. cbv beta iota.
    erewrite bind_Ok by exact Hloc'. reflexivity.
  - cbv [mret M_ret] in Hpre. simplify_eq.
    unfold resourceExternalAuthLdapCreate. rewrite Hv. get_strings.
    erewrite bind_Ok by exact Hloc. cbv beta iota.
    rewrite Hcomp, bind_lift_Ok.
    erewrite bind_Ok by exact Hpost. cbv beta iota.
    erewrite bind_Ok by exact Hloc'. reflexivity.
Qed.

(** ** Secrets on refresh *)

Lemma Get_insert_ne {sch} id st partial key v key' :
  key ≠ key' ->
  Get (sch := sch) (mkResourceData id (<[key := v]> st) partial) key'
  = Get (sch := sch) (mkResourceData id st partial) key'.
Proof. intros Hne. unfold Get; simpl. now rewrite lookup_insert_ne. Qed.

Lemma Get_insert_eq {sch} id st partial key v t :
  schemaType sch key = Some t -> hasType t v = true ->
  Get (sch := sch) (mkResourceData id (<[key := v]> st) partial) key = v.
Proof. intros Ht Hv. unfold Get; simpl. now rewrite Ht, lookup_insert_eq, Hv. Qed.

(** Runs the writes of a fill whose values are scalars. *)
Ltac run_sets :=
  repeat (erewrite mustSet_Ok by reflexivity;
          cbn [mbind outcome_bind rdId rdState rdPartial]).

Lemma fillDeviceLocalDomainAccountCredential_frame (d : CredentialData) json :
  ∃ d', fillDeviceLocalDomainAccountCredential d json = Ok d'
    ∧ Id d' = Id d
    ∧ ∀ k, k ∈ secretFields -> Get d' k = Get d k.
Proof.
  destruct d as [id st partial].
  unfold fillDeviceLocalDomainAccountCredential. run_sets.
  eexists. split; [reflexivity|]. split; [reflexivity|].
  intros k Hk.
  unfold secretFields in Hk. rewrite !elem_of_cons, elem_of_nil in Hk.
  destruct Hk as [->|[->|[->|[]]]]; now rewrite !Get_insert_ne by discriminate.
Qed.

Lemma fillExternalAuthLdap_frame (d : ExternalAuthLdapData) json :
  ∃ d', fillExternalAuthLdap d json = Ok d'
    ∧ Id d' = Id d
    ∧ Get d' "password" = Get d "password"
    ∧ Get d' "private_key" = VString (jsonExternalAuthLdap.PrivateKey json).
Proof.
  destruct d as [id st partial].
  unfold fillExternalAuthLdap. run_sets.
  eexists. split; [reflexivity|]. split; [reflexivity|]. split.
  - now rewrite !Get_insert_ne by discriminate.
  - rewrite Get_insert_ne by discriminate. now apply Get_insert_eq with (t := TypeString).
Qed.

(** The GETs of the Locator and of a Read never panic. *)
Ltac one_get_total :=
  rewrite bind_newRequest; repeat case_match; eexists; reflexivity.

Lemma searchResourceDeviceLocalDomainAccountCredential_total
    deviceID domainID accountID typeCred c log :
  ∃ res, searchResourceDeviceLocalDomainAccountCredential deviceID domainID accountID typeCred
           c log
         = Ok (res, log ++ [mkRequest (credentialsURI deviceID domainID accountID) MethodGet None]).
Proof. unfold searchResourceDeviceLocalDomainAccountCredential. one_get_total. Qed.

Lemma searchResourceExternalAuthLdap_total authenticationName c log :
  ∃ res, searchResourceExternalAuthLdap authenticationName c log
         = Ok (res, log ++ [mkRequest ("/externalauths/" +:+ authenticationName) MethodGet None]).
Proof. unfold searchResourceExternalAuthLdap. one_get_total. Qed.

Lemma readDeviceLocalDomainAccountCredentialOptions_total
    deviceID localDomainID accountID credentialID c log :
  ∃ res, readDeviceLocalDomainAccountCredentialOptions deviceID localDomainID accountID
           credentialID c log
         = Ok (res, log ++ [mkRequest (credentialsURI deviceID localDomainID accountID
                                       +:+ credentialID) MethodGet None]).
Proof. unfold readDeviceLocalDomainAccountCredentialOptions. cbv zeta. one_get_total. Qed.

Lemma readExternalAuthLdapOptions_total authenticationID c log :
  ∃ res, readExternalAuthLdapOptions authenticationID c log
         = Ok (res, log ++ [mkRequest ("/externalauths/" +:+ authenticationID) MethodGet None]).
Proof. unfold readExternalAuthLdapOptions. cbv zeta. one_get_total. Qed.

Lemma credential_read_keeps_secrets (d : CredentialData) c :
  keeps secretFields d (resourceDeviceLocalDomainAccountCredentialRead d c).
Proof.
  intros log. unfold resourceDeviceLocalDomainAccountCredentialRead.
  destruct (resourveDeviceLocalDomainAccountCredentialVersionCheck _);
    [now do 3 eexists|].
  get_strings.
  destruct (readDeviceLocalDomainAccountCredentialOptions_total (GetString d "device_id")
              (GetString d "domain_id") (GetString d "account_id") (Id d) c log)
    as [[cfg err] Hread].
  erewrite bind_Ok by exact Hread. cbv beta iota.
  destruct err; [now do 3 eexists|].
  destruct (decide _); [now do 3 eexists|].
  destruct (fillDeviceLocalDomainAccountCredential_frame d cfg) as (d' & Hfill & _ & Hkeep).
  rewrite Hfill, bind_lift_Ok. now do 3 eexists.
Qed.

Lemma credential_import_keeps_secrets (d : CredentialData) c :
  keeps secretFields d (resourceDeviceLocalDomainAccountCredentialImport d c).
Proof.
  intros log. unfold resourceDeviceLocalDomainAccountCredentialImport.
  destruct (resourveDeviceLocalDomainAccountCredentialVersionCheck _);
    [now do 3 eexists|].
  cbv zeta. destruct (decide _) as [|Hlen]; [now do 3 eexists|].
  apply dec_stable in Hlen.
  destruct (strings_Split (Id d) "/") as [|s0 [|s1 [|s2 [|s3 [|]]]]]; try discriminate Hlen.
  cbn [at_ lookup list_lookup]. rewrite !bind_lift_Ok.
  destruct (searchResourceDeviceLocalDomainAccountCredential_total s0 s1 s2 s3 c log)
    as [[[id ex] err] Hsearch].
  erewrite bind_Ok by exact Hsearch. cbv beta iota.
  destruct err; [now do 3 eexists|].
  destruct ex; cbn [negb]; [|now do 3 eexists].
  destruct (readDeviceLocalDomainAccountCredentialOptions_total s0 s1 s2 id c
              (log ++ [mkRequest (credentialsURI s0 s1 s2) MethodGet None]))
    as [[cfg err] Hread].
  erewrite bind_Ok by exact Hread. cbv beta iota.
  destruct err; [now do 3 eexists|].
  destruct (fillDeviceLocalDomainAccountCredential_frame d cfg) as (d' & Hfill & _ & Hkeep).
  rewrite Hfill, bind_lift_Ok. cbv zeta.
  destruct d' as [id' st' partial'].
  unfold SetId. cbn [rdState rdPartial].
  repeat (erewrite mustSet_Ok by reflexivity; cbn [rdId rdState rdPartial];
          rewrite bind_lift_Ok).
  do 3 eexists. split; [reflexivity|].
  intros k Hk. rewrite <- (Hkeep k Hk).
  unfold secretFields in Hk. rewrite !elem_of_cons, elem_of_nil in Hk.
  destruct Hk as [->|[->|[->|[]]]]; now rewrite !Get_insert_ne by discriminate.
Qed.

Lemma ldap_read_keeps_password (d : ExternalAuthLdapData) c :
  keeps ["password"] d (resourceExternalAuthLdapRead d c).
Proof.
  intros log. unfold resourceExternalAuthLdapRead.
  destruct (resourveExternalAuthLdapVersionCheck _); [now do 3 eexists|].
  destruct (readExternalAuthLdapOptions_total (Id d) c log) as [[config err] Hread].
  erewrite bind_Ok by exact Hread. cbv beta iota.
  destruct err; [now do 3 eexists|].
  destruct (decide _); [now do 3 eexists|].
  destruct (fillExternalAuthLdap_frame d config) as (d' & Hfill & _ & Hkeep & _).
  rewrite Hfill, bind_lift_Ok. do 3 eexists. split; [reflexivity|].
  intros k Hk. apply list_elem_of_singleton in Hk as ->. exact Hkeep.
Qed.

Lemma ldap_import_keeps_password (d : ExternalAuthLdapData) c :
  keeps ["password"] d (resourceExternalAuthLdapImport d c).
Proof.
  intros log. unfold resourceExternalAuthLdapImport.
  destruct (resourveExternalAuthLdapVersionCheck _); [now do 3 eexists|].
  destruct (searchResourceExternalAuthLdap_total (Id d) c log) as [[[id ex] err] Hsearch].
  erewrite bind_Ok by exact Hsearch. cbv beta iota.
  destruct err; [now do 3 eexists|].
  destruct ex; cbn [negb]; [|now do 3 eexists].
  destruct (readExternalAuthLdapOptions_total id c
              (log ++ [mkRequest ("/externalauths/" +:+ Id d) MethodGet None]))
    as [[config err] Hread].
  erewrite bind_Ok by exact Hread. cbv beta iota.
  destruct err; [now do 3 eexists|].
  destruct (fillExternalAuthLdap_frame d config) as (d' & Hfill & _ & Hkeep & _).
  rewrite Hfill, bind_lift_Ok. cbv zeta. do 3 eexists. split; [reflexivity|].
  intros k Hk. apply list_elem_of_singleton in Hk as ->. exact Hkeep.
Qed.

(** C3, as the code has it: a Read and an Import of the credential resource
    return and leave password, private_key and passphrase as they were held;
    a Read and an Import of the LDAP authentication return and leave password
    as it was held; the fill of the LDAP authentication stores the
    private_key of the response. *)
Theorem C3_secrets_on_refresh :
  (∀ (d : CredentialData) c,
     keeps secretFields d (resourceDeviceLocalDomainAccountCredentialRead d c)
     ∧ keeps secretFields d (resourceDeviceLocalDomainAccountCredentialImport d c))
  ∧ (∀ (d : ExternalAuthLdapData) c,
       keeps ["password"] d (resourceExternalAuthLdapRead d c)
       ∧ keeps ["password"] d (resourceExternalAuthLdapImport d c))
  ∧ (∀ (d : ExternalAuthLdapData) json,
       ∃ d', fillExternalAuthLdap d json = Ok d'
         ∧ Get d' "private_key" = VString (jsonExternalAuthLdap.PrivateKey json)).
Proof.
  split; [|split].
  - intros d c. split.
    + apply credential_read_keeps_secrets.
    + apply credential_import_keeps_secrets.
  - intros d c. split.
    + apply ldap_read_keeps_password.
    + apply ldap_import_keeps_password.
  - intros d json.
    destruct (fillExternalAuthLdap_frame d json) as (d' & Hfill & _ & _ & Hkey).
    exists d'. split; [exact Hfill | exact Hkey].
Qed.

(** ** The codec of the application resource *)

(** The loop over [paths] never panics: the SDK hands out maps that hold the
    three strings of a path. *)
Lemma prepare_paths_loop l paths0 :
  forallb (hasType (TypeResource [ ("target", TypeString); ("program", TypeString);
                                   ("working_dir", TypeString) ])) l = true ->
  ∃ paths,
    forRange
      (fun paths v =>
         m ← assertMap v;
         pTarget ← assertString (index m "target");
         pProgram ← assertString (index m "program");
         pWorkingDir ← assertString (index m "working_dir");
         mret (append paths (jsonApplicationPath.mk pTarget pProgram pWorkingDir)))
      l paths0 = Ok paths
    ∧ elems paths = elems paths0 ++ (pathOfValue <$> l)
    ∧ (l = [] -> paths = paths0).
Proof.
  revert paths0. induction l as [|v l IH]; intros paths0 Hty.
  - exists paths0. simpl. now rewrite app_nil_r.
  - simpl in Hty. apply andb_prop in Hty as [Hv Hl].
    destruct v as [| | | | | | |m]; try discriminate Hv.
    simpl in Hv.
    destruct (assoc "target" m) as [[| pTarget | | | | | |]|] eqn:Ht; try discriminate Hv.
    destruct (assoc "program" m) as [[| pProgram | | | | | |]|] eqn:Hp; try discriminate Hv.
    destruct (assoc "working_dir" m) as [[| pWorkingDir | | | | | |]|] eqn:Hw;
      try discriminate Hv.
    assert (Hit : index m "target" = VString pTarget) by (unfold index; now rewrite Ht).
    assert (Hip : index m "program" = VString pProgram) by (unfold index; now rewrite Hp).
    assert (Hiw : index m "working_dir" = VString pWorkingDir)
      by (unfold index; now rewrite Hw).
    destruct (IH (append paths0 (jsonApplicationPath.mk pTarget pProgram pWorkingDir)) Hl)
      as (paths & Hloop & Helems & _).
    exists paths. split; [|split; [|discriminate]].
    + cbn [forRange assertMap mbind outcome_bind]. rewrite Hit, Hip, Hiw.
      cbn [assertString mbind outcome_bind mret outcome_ret]. exact Hloop.
    + rewrite Helems. rewrite fmap_cons. unfold pathOfValue at 2. rewrite Hit, Hip, Hiw.
      unfold append; simpl. now rewrite <- app_assoc.
Qed.

(** What [prepareApplicationJSON] does up to the global domains. *)
Lemma prepareApplicationJSON_unfold (d : ApplicationData) :
  ∃ paths,
    elems paths = pathOfValue <$> GetSet d "paths"
    ∧ prepareApplicationJSON d
      = (globalDomains ←
           (if decide (0 < length (GetSet d "global_domains"))%nat then
              globalDomainsSlice ← assertSlice (VSet (GetSet d "global_domains"));
              forRange (fun globalDomains v => s ← assertString v; mret (append globalDomains s))
                globalDomainsSlice None
            else mret make);
         mret (jsonApplication.mk "" (GetString d "application_name")
                 (GetString d "connection_policy") (GetString d "description")
                 (GetString d "parameters") (GetString d "target") globalDomains paths None)).
Proof.
  destruct (Get_TypeSet d "paths" _ eq_refl) as [Hpaths Hty].
  destruct (Get_TypeSet d "global_domains" _ eq_refl) as [Hgd _].
  destruct (prepare_paths_loop (GetSet d "paths") None Hty) as (paths & Hloop & Helems & _).
  exists paths. split; [exact Helems|].
  unfold prepareApplicationJSON. rewrite Hpaths, Hgd.
  rewrite (Get_TypeString d "application_name"), (Get_TypeString d "connection_policy"),
    (Get_TypeString d "description"), (Get_TypeString d "parameters"),
    (Get_TypeString d "target") by reflexivity.
  cbn [assertString assertSetList mbind outcome_bind]. rewrite Hloop.
  reflexivity.
Qed.

(** Without global domains the record carries every settable field and an
    empty, non-nil sequence of global domains. *)
Lemma prepareApplicationJSON_without_global_domains (d : ApplicationData) :
  GetSet d "global_domains" = [] ->
  ∃ paths,
    elems paths = pathOfValue <$> GetSet d "paths"
    ∧ prepareApplicationJSON d
      = Ok (jsonApplication.mk "" (GetString d "application_name")
              (GetString d "connection_policy") (GetString d "description")
              (GetString d "parameters") (GetString d "target") (Some []) paths None).
Proof.
  intros Hgd. destruct (prepareApplicationJSON_unfold d) as (paths & Helems & ->).
  exists paths. split; [exact Helems|]. now rewrite Hgd.
Qed.

(** C4, on the code: the encoding of an application that has a global domain
    panics on the assertion that the set of global domains is a slice; no
    record is built and no global domain is copied. *)
Theorem C4_encode_with_global_domains_panics (d : ApplicationData) :
  GetSet d "global_domains" ≠ [] ->
  prepareApplicationJSON d = Panic "interface conversion: interface {} is not []interface {}".
Proof.
  intros Hgd. destruct (prepareApplicationJSON_unfold d) as (paths & _ & ->).
  destruct (GetSet d "global_domains"); [congruence|]. reflexivity.
Qed.

(** The decoding of a record without local domains always panics. *)
Lemma fillApplication_nil_LocalDomains (d : ApplicationData) jsonData :
  jsonApplication.LocalDomains jsonData = None ->
  isPanic (fillApplication d jsonData) = true.
Proof.
  intros Hnil. unfold fillApplication.
  repeat match goal with
         | |- context [mustSet ?k ?v ?d] =>
             destruct (mustSet k v d); cbn [mbind outcome_bind]; [|reflexivity]
         end.
  now rewrite Hnil.
Qed.

Lemma prepareApplicationJSON_LocalDomains (d : ApplicationData) jsonData :
  prepareApplicationJSON d = Ok jsonData -> jsonApplication.LocalDomains jsonData = None.
Proof.
  destruct (prepareApplicationJSON_unfold d) as (paths & _ & ->).
  destruct (if decide _ then _ else _); cbn [mbind outcome_bind mret outcome_ret];
    [|discriminate].
  now intros [= <-].
Qed.

(** C9, on the code: [fillApplication] panics on every response in which
    local_domains is absent. *)
Theorem C9_decode_without_local_domains_panics (d : ApplicationData) jsonData :
  jsonApplication.LocalDomains jsonData = None ->
  isPanic (fillApplication d jsonData) = true.
Proof. apply fillApplication_nil_LocalDomains. Qed.

(** C1, on the code: decoding the record that the encoding produces panics
    for every configuration of an application, since the encoding leaves the
    local domains nil (and panics by itself when there is a global domain). *)
Theorem C1_decode_encode_panics (d : ApplicationData) :
  isPanic (decodeEncodeApplication d) = true.
Proof.
  unfold decodeEncodeApplication.
  destruct (prepareApplicationJSON d) as [jsonData|msg] eqn:Hprepare; [|reflexivity].
  cbn [mbind outcome_bind]. apply fillApplication_nil_LocalDomains.
  now apply prepareApplicationJSON_LocalDomains in Hprepare.
Qed.

(** * Further properties of the code *)

(** ** Locator *)

Lemma find_first {A} (f : A -> bool) l v :
  List.find f l = Some v
  ↔ ∃ l1 l2, l = l1 ++ v :: l2 ∧ f v = true ∧ Forall (λ x, f x = false) l1.
Proof.
  induction l as [|x l IH]; simpl.
  - split; [discriminate|]. intros (l1 & l2 & H & _). now destruct l1.
  - destruct (f x) eqn:Hx.
    + split.
      * intros [= ->]. exists [], l. repeat split; [exact Hx | constructor].
      * intros (l1 & l2 & H & Hv & Hl1). destruct l1 as [|y l1]; simpl in H.
        -- now injection H as -> _.
        -- injection H as -> _. apply Forall_cons in Hl1 as [Hy _]. congruence.
    + rewrite IH. split.
      * intros (l1 & l2 & -> & Hv & Hl1). exists (x :: l1), l2.
        repeat split; [exact Hv | now constructor].
      * intros (l1 & l2 & H & Hv & Hl1). destruct l1 as [|y l1]; simpl in H.
        -- injection H as -> _. congruence.
        -- injection H as -> ->. apply Forall_cons in Hl1 as [_ Hl1]. now exists l1, l2.
Qed.

Lemma firstMatch_spec {A} (key ident : A -> string) wanted l id ex err :
  firstMatch key ident wanted l = (id, ex, err) ->
  err = None
  ∧ (ex = true ↔ ∃ v, v ∈ l ∧ key v = wanted)
  ∧ (ex = true ->
     ∃ l1 v l2, l = l1 ++ v :: l2 ∧ key v = wanted ∧ ident v = id
                ∧ Forall (λ x, key x ≠ wanted) l1)
  ∧ (ex = false -> id = "").
Proof.
  unfold firstMatch.
  destruct (List.find _ l) as [v|] eqn:Hfind; intros [= <- <- <-].
  - apply find_first in Hfind as (l1 & l2 & -> & Hv & Hl1).
    apply bool_decide_eq_true in Hv.
    assert (Hl1' : Forall (λ x, key x ≠ wanted) l1).
    { eapply Forall_impl; [exact Hl1|]. intros x Hx. now apply bool_decide_eq_false in Hx. }
    repeat split; try discriminate.
    + intros _. exists v. split; [|exact Hv]. apply elem_of_app. right. constructor.
    + intros _. now exists l1, v, l2.
  - repeat split; try discriminate.
    intros (v & Hin & Hv). apply list_elem_of_In in Hin.
    eapply find_none in Hfind; [|exact Hin]. apply bool_decide_eq_false in Hfind.
    contradiction.
Qed.

Lemma searchResourceApplication_decoded applicationName c log body results :
  appliance c log (mkRequest "/applications/?fields=application_name,id&limit=-1" MethodGet None)
  = (body, StatusOK, None) ->
  json_Unmarshal body (None : slice jsonApplication.t) = (results, None) ->
  searchResourceApplication applicationName c log
  = Ok (firstMatch jsonApplication.ApplicationName jsonApplication.ID applicationName
          (elems results),
        log ++ [mkRequest "/applications/?fields=application_name,id&limit=-1" MethodGet None]).
Proof.
  intros Hget Hdec. unfold searchResourceApplication, firstMatch.
  rewrite bind_newRequest, Hget. cbv beta iota. rewrite decide_False by (intros H; now apply H).
  rewrite Hdec. now destruct (List.find _ _).
Qed.

Lemma searchResourceDeviceLocalDomainAccountCredential_decoded
    deviceID domainID accountID typeCred c log body results :
  appliance c log (mkRequest (credentialsURI deviceID domainID accountID) MethodGet None)
  = (body, StatusOK, None) ->
  json_Unmarshal body (None : slice jsonDeviceLocalDomainAccountCredential.t) = (results, None) ->
  searchResourceDeviceLocalDomainAccountCredential deviceID domainID accountID typeCred c log
  = Ok (firstMatch jsonDeviceLocalDomainAccountCredential.Type_
          jsonDeviceLocalDomainAccountCredential.ID typeCred (elems results),
        log ++ [mkRequest (credentialsURI deviceID domainID accountID) MethodGet None]).
Proof.
  intros Hget Hdec. unfold searchResourceDeviceLocalDomainAccountCredential, firstMatch.
  rewrite bind_newRequest, Hget. cbv beta iota. rewrite decide_False by (intros H; now apply H).
  rewrite Hdec. now destruct (List.find _ _).
Qed.

(** X1: on a list answered 200 and decoded without error, the Locator of the
    application resource reports found exactly when the list holds an
    application of the name asked for; the id it returns is the id of the
    first such application, and the empty string when there is none. *)
Theorem X1_application_locator_first_match applicationName c log body results :
  appliance c log (mkRequest "/applications/?fields=application_name,id&limit=-1" MethodGet None)
  = (body, StatusOK, None) ->
  json_Unmarshal body (None : slice jsonApplication.t) = (results, None) ->
  ∃ id ex,
    searchResourceApplication applicationName c log
    = Ok ((id, ex, None),
          log ++ [mkRequest "/applications/?fields=application_name,id&limit=-1" MethodGet None])
    ∧ (ex = true
       ↔ ∃ v, v ∈ elems results ∧ jsonApplication.ApplicationName v = applicationName)
    ∧ (ex = true ->
       ∃ l1 v l2, elems results = l1 ++ v :: l2
                  ∧ jsonApplication.ApplicationName v = applicationName
                  ∧ jsonApplication.ID v = id
                  ∧ Forall (λ x, jsonApplication.ApplicationName x ≠ applicationName) l1)
    ∧ (ex = false -> id = "").
Proof.
  intros Hget Hdec.
  rewrite (searchResourceApplication_decoded _ _ _ _ _ Hget Hdec).
  destruct (firstMatch jsonApplication.ApplicationName jsonApplication.ID applicationName
              (elems results)) as [[id ex] err] eqn:Hfirst.
  apply firstMatch_spec in Hfirst as (-> & Hiff & Hfound & Hnone).
  exists id, ex. split; [reflexivity|]. split; [exact Hiff|]. split; assumption.
Qed.

(** X2: the Locator of the credential resource asks for the credentials of
    the account and compares nothing but the type: it returns the id of the
    first credential of the type asked for, found exactly when there is one,
    and the empty string otherwise. *)
Theorem X2_credential_locator_matches_type
    deviceID domainID accountID typeCred c log body results :
  appliance c log (mkRequest (credentialsURI deviceID domainID accountID) MethodGet None)
  = (body, StatusOK, None) ->
  json_Unmarshal body (None : slice jsonDeviceLocalDomainAccountCredential.t) = (results, None) ->
  ∃ id ex,
    searchResourceDeviceLocalDomainAccountCredential deviceID domainID accountID typeCred c log
    = Ok ((id, ex, None),
          log ++ [mkRequest (credentialsURI deviceID domainID accountID) MethodGet None])
    ∧ (ex = true
       ↔ ∃ v, v ∈ elems results ∧ jsonDeviceLocalDomainAccountCredential.Type_ v = typeCred)
    ∧ (ex = true ->
       ∃ l1 v l2, elems results = l1 ++ v :: l2
                  ∧ jsonDeviceLocalDomainAccountCredential.Type_ v = typeCred
                  ∧ jsonDeviceLocalDomainAccountCredential.ID v = id
                  ∧ Forall (λ x, jsonDeviceLocalDomainAccountCredential.Type_ x ≠ typeCred) l1)
    ∧ (ex = false -> id = "").
Proof.
  intros Hget Hdec.
  rewrite (searchResourceDeviceLocalDomainAccountCredential_decoded _ _ _ _ _ _ _ _ Hget Hdec).
  destruct (firstMatch jsonDeviceLocalDomainAccountCredential.Type_
              jsonDeviceLocalDomainAccountCredential.ID typeCred (elems results))
    as [[id ex] err] eqn:Hfirst.
  apply firstMatch_spec in Hfirst as (-> & Hiff & Hfound & Hnone).
  exists id, ex. split; [reflexivity|]. split; [exact Hiff|]. split; assumption.
Qed.

(** X3: a Locator whose list query fails in the transport hands the error of
    the transport on as it is, and one whose query is answered with a status
    other than 200 returns an error made of the status and the body; in both
    cases it reports "not found" with an empty id, after the one GET. *)
Theorem X3_locator_propagates_failures r (d : ResourceData (schemaOf r)) c log body code terr :
  appliance c log (mkRequest (locateURI r d) MethodGet None) = (body, code, terr) ->
  terr ≠ None ∨ code ≠ StatusOK ->
  locate r d c log
  = Ok (("", false,
         Some (match terr with
               | Some err => err
               | None => statusErrorPrefix r +:+ pretty code +:+ statusErrorInfix r +:+ body
               end)),
        log ++ [mkRequest (locateURI r d) MethodGet None]).
Proof.
  intros Hget Hfail.
  destruct r; simpl in d, Hget |- *;
    unfold searchResourceApplication, searchResourceDeviceLocalDomainAccountCredential,
      searchResourceExternalAuthLdap;
    rewrite bind_newRequest, Hget; cbv beta iota;
    (destruct terr as [err|]; [reflexivity|]);
    (destruct Hfail as [Hfail|Hfail]; [now destruct Hfail|]);
    now rewrite decide_True by exact Hfail.
Qed.

(** ** The encoding of a credential *)

Lemma strings_of_credential (d : CredentialData) :
  Get d "type" = VString (GetString d "type")
  ∧ Get d "password" = VString (GetString d "password")
  ∧ Get d "private_key" = VString (GetString d "private_key")
  ∧ Get d "passphrase" = VString (GetString d "passphrase").
Proof. repeat split; now apply Get_TypeString. Qed.

(** X4: the encoding of a credential never panics and never carries an id or
    a public key. A credential of type password carries the password and no
    key material; a credential of type ssh_key carries no password, and
    carries the private key and the passphrase on creation and on every
    update but the one whose private key starts with "generate:", which
    carries neither; any other type carries no secret at all. *)
Theorem X4_credential_encoding (d : CredentialData) newResource :
  ∃ json,
    prepareDeviceLocalDomainAccountCredentialJSON d newResource = Ok json
    ∧ jsonDeviceLocalDomainAccountCredential.Type_ json = GetString d "type"
    ∧ jsonDeviceLocalDomainAccountCredential.ID json = ""
    ∧ jsonDeviceLocalDomainAccountCredential.PublicKey json = ""
    ∧ (GetString d "type" = "password" ->
       jsonDeviceLocalDomainAccountCredential.Password json = GetString d "password"
       ∧ jsonDeviceLocalDomainAccountCredential.PrivateKey json = ""
       ∧ jsonDeviceLocalDomainAccountCredential.Passphrase json = "")
    ∧ (GetString d "type" = "ssh_key" ->
       jsonDeviceLocalDomainAccountCredential.Password json = ""
       ∧ (if newResource || negb (strings_HasPrefix (GetString d "private_key") "generate:")
          then jsonDeviceLocalDomainAccountCredential.PrivateKey json
               = GetString d "private_key"
               ∧ jsonDeviceLocalDomainAccountCredential.Passphrase json
                 = GetString d "passphrase"
          else jsonDeviceLocalDomainAccountCredential.PrivateKey json = ""
               ∧ jsonDeviceLocalDomainAccountCredential.Passphrase json = ""))
    ∧ (GetString d "type" ≠ "password" -> GetString d "type" ≠ "ssh_key" ->
       jsonDeviceLocalDomainAccountCredential.Password json = ""
       ∧ jsonDeviceLocalDomainAccountCredential.PrivateKey json = ""
       ∧ jsonDeviceLocalDomainAccountCredential.Passphrase json = "").
Proof.
  destruct (strings_of_credential d) as (Htype & Hpassword & Hkey & Hphrase).
  unfold prepareDeviceLocalDomainAccountCredentialJSON.
  rewrite Htype, Hpassword, Hkey, Hphrase.
  cbn [assertString mbind outcome_bind].
  destruct (decide (GetString d "type" = "password")) as [Hp|Hp].
  - eexists. split; [reflexivity|]. cbn.
    repeat split; try reflexivity; try (intros; congruence).
  - destruct (decide (GetString d "type" = "ssh_key")) as [Hs|Hs].
    + destruct newResource; cbn [mbind outcome_bind mret outcome_ret orb].
      * eexists. split; [reflexivity|]. cbn.
        repeat split; try reflexivity; try (intros; congruence).
      * destruct (strings_HasPrefix (GetString d "private_key") "generate:");
          cbn [negb]; eexists; (split; [reflexivity|]); cbn;
          repeat split; try reflexivity; try (intros; congruence).
    + eexists. split; [reflexivity|]. cbn.
      repeat split; try reflexivity; try (intros; congruence).
Qed.

(** ** The codec of the LDAP authentication *)

Lemma Get_TypeInt {sch} (d : ResourceData sch) key :
  schemaType sch key = Some TypeInt -> Get d key = VInt (GetInt d key).
Proof.
  intros H. unfold GetInt, Get. rewrite H.
  destruct (rdState d !! key) as [v|]; [destruct v|]; reflexivity.
Qed.

Lemma Get_TypeFloat {sch} (d : ResourceData sch) key :
  schemaType sch key = Some TypeFloat -> Get d key = VFloat (GetFloat d key).
Proof.
  intros H. unfold GetFloat, Get. rewrite H.
  destruct (rdState d !! key) as [v|]; [destruct v|]; reflexivity.
Qed.

(** The encoding of an LDAP authentication never panics. *)
Lemma prepareExternalAuthLdapJSON_Ok (d : ExternalAuthLdapData) :
  prepareExternalAuthLdapJSON d
  = Ok (jsonExternalAuthLdap.mk
          (GetBool d "is_active_directory") (GetBool d "is_anonymous_access")
          (GetBool d "is_protected_user") (GetBool d "is_ssl") (GetBool d "is_starttls")
          (GetBool d "use_primary_auth_domain") (GetInt d "port") (GetFloat d "timeout") ""
          (GetString d "authentication_name") (GetString d "ca_certificate")
          (GetString d "certificate") (GetString d "cn_attribute") (GetString d "description")
          (GetString d "ldap_base") (GetString d "login") (GetString d "login_attribute")
          (GetString d "host") (GetString d "password") (GetString d "private_key") "LDAP").
Proof.
  unfold prepareExternalAuthLdapJSON.
  rewrite (Get_TypeBool d "is_active_directory"), (Get_TypeBool d "is_anonymous_access"),
    (Get_TypeBool d "is_protected_user"), (Get_TypeBool d "is_ssl"),
    (Get_TypeBool d "is_starttls"), (Get_TypeBool d "use_primary_auth_domain"),
    (Get_TypeFloat d "timeout"), (Get_TypeString d "authentication_name"),
    (Get_TypeString d "ca_certificate"), (Get_TypeString d "certificate"),
    (Get_TypeString d "cn_attribute"), (Get_TypeString d "description"),
    (Get_TypeString d "ldap_base"), (Get_TypeString d "login"),
    (Get_TypeString d "login_attribute"), (Get_TypeString d "host"),
    (Get_TypeString d "password"), (Get_TypeInt d "port"), (Get_TypeString d "private_key")
    by reflexivity.
  reflexivity.
Qed.

(** Reads a field back from data built by writes: past the writes of other
    fields, then the write of the field itself. *)
Ltac read_back :=
  rewrite ?Get_insert_ne by discriminate;
  erewrite Get_insert_eq by reflexivity.

(** X5: decoding into any data the record that encodes an LDAP
    authentication never panics and reproduces every field the decoding
    writes, the private key included; it writes neither the password nor the
    name nor the id, which stay as the data decoded into held them. The
    record encoded is of type LDAP and carries no id. *)
Theorem X5_ldap_decode_encode (d d0 : ExternalAuthLdapData) :
  ∃ json d',
    prepareExternalAuthLdapJSON d = Ok json
    ∧ jsonExternalAuthLdap.Type_ json = "LDAP"
    ∧ jsonExternalAuthLdap.ID json = ""
    ∧ jsonExternalAuthLdap.Password json = GetString d "password"
    ∧ fillExternalAuthLdap d0 json = Ok d'
    ∧ Id d' = Id d0
    ∧ (∀ k, k ∈ ldapFilledFields -> Get d' k = Get d k)
    ∧ (∀ k, k ∉ ldapFilledFields -> Get d' k = Get d0 k).
Proof.
  destruct d0 as [id0 st0 partial0].
  eexists. eexists. split; [apply prepareExternalAuthLdapJSON_Ok|].
  do 3 (split; [reflexivity|]).
  unfold fillExternalAuthLdap. cbn [jsonExternalAuthLdap.CNAttribute jsonExternalAuthLdap.Host
    jsonExternalAuthLdap.LDAPBase jsonExternalAuthLdap.Login jsonExternalAuthLdap.LoginAttribute
    jsonExternalAuthLdap.Port jsonExternalAuthLdap.Timeout jsonExternalAuthLdap.CACertificate
    jsonExternalAuthLdap.Certificate jsonExternalAuthLdap.Description
    jsonExternalAuthLdap.IsActiveDirectory jsonExternalAuthLdap.IsAnonymousAccess
    jsonExternalAuthLdap.IsProtectedUser jsonExternalAuthLdap.IsSSL
    jsonExternalAuthLdap.IsStartTLS jsonExternalAuthLdap.PrivateKey
    jsonExternalAuthLdap.UsePrimaryAuthDomain].
  run_sets. split; [reflexivity|]. split; [reflexivity|]. split.
  - intros k Hk. unfold ldapFilledFields in Hk.
    repeat (apply elem_of_cons in Hk as [->|Hk]);
      [ .. | now apply elem_of_nil in Hk ];
      read_back; symmetry;
      first [ now apply Get_TypeString | now apply Get_TypeBool
            | now apply Get_TypeInt | now apply Get_TypeFloat ].
  - intros k Hk. unfold ldapFilledFields in Hk.
    rewrite !not_elem_of_cons in Hk. destruct_and!.
    now rewrite !Get_insert_ne by congruence.
Qed.

(** ** Companion fields of the LDAP authentication *)

Lemma missingLoginOrPassword_Ok (d : ExternalAuthLdapData) :
  missingLoginOrPassword d
  = Ok (negb (GetBool d "is_anonymous_access")
        && (bool_decide (GetString d "login" = "")
            || bool_decide (GetString d "password" = ""))).
Proof.
  unfold missingLoginOrPassword.
  rewrite (Get_TypeBool d "is_anonymous_access"), (Get_TypeString d "login"),
    (Get_TypeString d "password") by reflexivity.
  cbn [assertBool assertString mbind outcome_bind].
  destruct (GetBool d "is_anonymous_access"); [reflexivity|].
  destruct (decide (GetString d "login" = "")) as [Hl|Hl].
  - now rewrite (bool_decide_eq_true_2 _ Hl).
  - now rewrite (bool_decide_eq_false_2 _ Hl).
Qed.

(** X6: an LDAP authentication without anonymous access whose login or
    password is empty is refused before any write: Update returns the
    "missing 'login' and/or 'password'" error without a single request, and
    Create returns it after the Locator has answered "not found", without a
    POST. *)
Theorem X6_ldap_requires_login_and_password (d : ExternalAuthLdapData) c log :
  bastionAPIVersion c = versionValidate3_3 ->
  GetBool d "is_anonymous_access" = false ->
  GetString d "login" = "" ∨ GetString d "password" = "" ->
  resourceExternalAuthLdapUpdate d c log
  = Ok ((d, diag_FromErr ("missing 'login' and/or 'password' on externalauth_ldap "
                          +:+ GetString d "authentication_name")), log)
  ∧ ∀ id log1,
      searchResourceExternalAuthLdap (GetString d "authentication_name") c log
      = Ok ((id, false, None), log1) ->
      resourceExternalAuthLdapCreate d c log
      = Ok ((d, diag_FromErr ("missing 'login' and/or 'password' on externalauth_ldap "
                              +:+ GetString d "authentication_name")), log1)
      ∧ posts log1 = posts log.
Proof.
  intros Hv Hanon Hempty.
  assert (Hmissing : missingLoginOrPassword d = Ok true).
  { rewrite missingLoginOrPassword_Ok, Hanon. cbn [negb andb].
    destruct Hempty as [H|H]; rewrite (bool_decide_eq_true_2 _ H);
      [reflexivity | now rewrite orb_true_r]. }
  assert (Hcheck : resourveExternalAuthLdapVersionCheck (bastionAPIVersion c) = None).
  { unfold resourveExternalAuthLdapVersionCheck. now rewrite decide_True by exact Hv. }
  split.
  - unfold resourceExternalAuthLdapUpdate. rewrite Hcheck, Hmissing, bind_lift_Ok.
    cbv beta iota. get_strings. reflexivity.
  - intros id log1 Hsearch. split.
    + unfold resourceExternalAuthLdapCreate. rewrite Hcheck. get_strings.
      erewrite bind_Ok by exact Hsearch. cbv beta iota.
      rewrite Hmissing, bind_lift_Ok. reflexivity.
    + apply searchResourceExternalAuthLdap_log in Hsearch as ->. apply posts_app_get.
Qed.

(** ** Delete *)

Lemma writeStatus_None prefix infix body code terr :
  writeStatus prefix infix body code terr = None
  ↔ terr = None ∧ (code = StatusOK ∨ code = StatusNoContent).
Proof.
  unfold writeStatus. destruct terr as [err|].
  - split; [discriminate|]. now intros [? _].
  - destruct (decide (code ≠ StatusOK ∧ code ≠ StatusNoContent)) as [[H1 H2]|H].
    + split; [discriminate|]. intros [_ [?|?]]; contradiction.
    + split; [|reflexivity]. intros _. split; [reflexivity|].
      destruct (decide (code = StatusOK)); [now left|].
      destruct (decide (code = StatusNoContent)); [now right|]. now destruct H.
Qed.

(** X7: a Delete issues one request, the DELETE of the item, and leaves the
    data as they are. It reports no error exactly when the transport does
    not fail and the status is 200 or 204; any other status, 404 included,
    is reported as an error made of the status and the body. *)
Theorem X7_delete_reports_every_other_status r (d : ResourceData (schemaOf r)) c log
    body code terr :
  versionCheck r (bastionAPIVersion c) = None ->
  appliance c log (mkRequest (readURI r d) MethodDelete None) = (body, code, terr) ->
  ∃ diags,
    DeleteContext r d c log
    = Ok ((d, diags), log ++ [mkRequest (readURI r d) MethodDelete None])
    ∧ (diags = [] ↔ terr = None ∧ (code = StatusOK ∨ code = StatusNoContent))
    ∧ (terr = None -> code ≠ StatusOK -> code ≠ StatusNoContent ->
       diags = diag_FromErr (writeErrorPrefix r +:+ pretty code +:+ statusErrorInfix r
                             +:+ body)).
Proof.
  intros Hv Hdel.
  exists (match writeStatus (writeErrorPrefix r) (statusErrorInfix r) body code terr with
          | Some err => diag_FromErr err
          | None => []
          end).
  split; [|split].
  - destruct r; simpl in d, Hv, Hdel |- *.
    + unfold resourceApplicationDelete, deleteApplication. rewrite Hv.
      rewrite bind_Ok with (a := writeStatus "api doesn't return OK or NoContent : "
                                   (" with body :" +:+ LF) body code terr)
                           (log' := log ++ [mkRequest ("/applications/" +:+ Id d)
                                              MethodDelete None])
        by (rewrite bind_newRequest, Hdel; reflexivity).
      now destruct (writeStatus _ _ _ _ _).
    + unfold resourceDeviceLocalDomainAccountCredentialDelete,
        deleteDeviceLocalDomainAccountCredential. rewrite Hv.
      rewrite bind_Ok with (a := writeStatus "api return not OK or NoContent : "
                                   " with body " body code terr)
                           (log' := log ++ [mkRequest
                                              (credentialsURI (GetString d "device_id")
                                                 (GetString d "domain_id")
                                                 (GetString d "account_id") +:+ Id d)
                                              MethodDelete None])
        by (get_strings; rewrite bind_newRequest, Hdel; reflexivity).
      now destruct (writeStatus _ _ _ _ _).
    + unfold resourceExternalAuthLdapDelete, deleteExternalAuthLdap. rewrite Hv.
      rewrite bind_Ok with (a := writeStatus "api return not OK or NoContent : "
                                   " with body " body code terr)
                           (log' := log ++ [mkRequest ("/externalauths/" +:+ Id d)
                                              MethodDelete None])
        by (rewrite bind_newRequest, Hdel; reflexivity).
      now destruct (writeStatus _ _ _ _ _).
  - rewrite <- writeStatus_None with (prefix := writeErrorPrefix r)
                                     (infix := statusErrorInfix r) (body := body).
    destruct (writeStatus _ _ _ _ _); split; intros; (discriminate || reflexivity).
  - intros -> Hok Hnc. unfold writeStatus.
    now rewrite decide_True by (split; assumption).
Qed.

(** ** Operations that only read *)

Lemma onlyGets_refl n log : onlyGets n log log.
Proof. exists []. rewrite app_nil_r. repeat split; [simpl; lia | constructor]. Qed.

Lemma onlyGets_one n log uri : onlyGets (S n) log (log ++ [mkRequest uri MethodGet None]).
Proof. eexists. repeat split; [simpl; lia | now repeat constructor]. Qed.

Lemma onlyGets_two n log uri uri' :
  onlyGets (S (S n)) log
    ((log ++ [mkRequest uri MethodGet None]) ++ [mkRequest uri' MethodGet None]).
Proof.
  exists [mkRequest uri MethodGet None; mkRequest uri' MethodGet None].
  rewrite <- app_assoc. repeat split; [simpl; lia | now repeat constructor].
Qed.

Lemma searchResourceApplication_total applicationName c log :
  ∃ res, searchResourceApplication applicationName c log
         = Ok (res, log ++ [mkRequest "/applications/?fields=application_name,id&limit=-1"
                              MethodGet None]).
Proof. unfold searchResourceApplication. one_get_total. Qed.

Lemma readApplicationOptions_total applicationID c log :
  ∃ res, readApplicationOptions applicationID c log
         = Ok (res, log ++ [mkRequest ("/applications/" +:+ applicationID) MethodGet None]).
Proof. unfold readApplicationOptions. cbv zeta. one_get_total. Qed.

(** What is left of an operation once its requests are made: returns and
    writes into the data, which leave the log alone. *)
Ltac after_requests H :=
  cbv beta iota in H;
  repeat match type of H with
         | context [lift ?o] =>
             lazymatch o with
             | Ok _ => fail
             | Panic _ => fail
             | _ => destruct o
             end
         end;
  cbv [mret M_ret mbind M_bind lift] in H;
  repeat (match type of H with
          | context [match ?x with _ => _ end] =>
              lazymatch x with
              | context [match _ with _ => _ end] => fail
              | _ => destruct x
              end
          end; cbv beta iota in H);
  try discriminate H;
  injection H as _ <-.

Lemma readLocalpasswordpolicyOptions_log passwordPolicyName c log res log' :
  readLocalpasswordpolicyOptions passwordPolicyName c log = Ok (res, log') ->
  log' = log ++ [mkRequest ("/localpasswordpolicies/?q=password_policy_name="
                            +:+ passwordPolicyName) MethodGet None].
Proof.
  unfold readLocalpasswordpolicyOptions. intros H. rewrite bind_newRequest in H.
  after_requests H; reflexivity.
Qed.

Lemma application_read_only_gets (d : ApplicationData) c log res log' :
  resourceApplicationRead d c log = Ok (res, log') -> onlyGets 1 log log'.
Proof.
  unfold resourceApplicationRead. intros H.
  destruct (resourceApplicationVersionCheck _).
  { after_requests H. apply onlyGets_refl. }
  destruct (readApplicationOptions_total (Id d) c log) as [[cfg err] Hread].
  erewrite bind_Ok in H by exact Hread.
  after_requests H; apply onlyGets_one.
Qed.

Lemma credential_read_only_gets (d : CredentialData) c log res log' :
  resourceDeviceLocalDomainAccountCredentialRead d c log = Ok (res, log') ->
  onlyGets 1 log log'.
Proof.
  unfold resourceDeviceLocalDomainAccountCredentialRead. intros H.
  destruct (resourveDeviceLocalDomainAccountCredentialVersionCheck _).
  { after_requests H. apply onlyGets_refl. }
  revert H. get_strings. intros H.
  destruct (readDeviceLocalDomainAccountCredentialOptions_total (GetString d "device_id")
              (GetString d "domain_id") (GetString d "account_id") (Id d) c log)
    as [[cfg err] Hread].
  erewrite bind_Ok in H by exact Hread.
  after_requests H; apply onlyGets_one.
Qed.

Lemma ldap_read_only_gets (d : ExternalAuthLdapData) c log res log' :
  resourceExternalAuthLdapRead d c log = Ok (res, log') -> onlyGets 1 log log'.
Proof.
  unfold resourceExternalAuthLdapRead. intros H.
  destruct (resourveExternalAuthLdapVersionCheck _).
  { after_requests H. apply onlyGets_refl. }
  destruct (readExternalAuthLdapOptions_total (Id d) c log) as [[cfg err] Hread].
  erewrite bind_Ok in H by exact Hread.
  after_requests H; apply onlyGets_one.
Qed.

Lemma application_import_only_gets (d : ApplicationData) c log res log' :
  resourceApplicationImport d c log = Ok (res, log') -> onlyGets 2 log log'.
Proof.
  unfold resourceApplicationImport. intros H.
  destruct (resourceApplicationVersionCheck _).
  { after_requests H. apply onlyGets_refl. }
  destruct (searchResourceApplication_total (Id d) c log) as [[[id ex] err] Hsearch].
  erewrite bind_Ok in H by exact Hsearch. cbv beta iota in H.
  destruct err. { after_requests H. apply onlyGets_one. }
  destruct ex; cbn [negb] in H. 2: { after_requests H. apply onlyGets_one. }
  destruct (readApplicationOptions_total id c
              (log ++ [mkRequest "/applications/?fields=application_name,id&limit=-1"
                         MethodGet None])) as [[cfg err] Hread].
  erewrite bind_Ok in H by exact Hread.
  after_requests H; apply onlyGets_two.
Qed.

Lemma credential_import_only_gets (d : CredentialData) c log res log' :
  resourceDeviceLocalDomainAccountCredentialImport d c log = Ok (res, log') ->
  onlyGets 2 log log'.
Proof.
  unfold resourceDeviceLocalDomainAccountCredentialImport. intros H.
  destruct (resourveDeviceLocalDomainAccountCredentialVersionCheck _).
  { after_requests H. apply onlyGets_refl. }
  cbv zeta in H. destruct (decide _) as [|Hlen]. { after_requests H. apply onlyGets_refl. }
  apply dec_stable in Hlen.
  destruct (strings_Split (Id d) "/") as [|s0 [|s1 [|s2 [|s3 [|]]]]]; try discriminate Hlen.
  cbn [at_ lookup list_lookup] in H. rewrite !bind_lift_Ok in H.
  destruct (searchResourceDeviceLocalDomainAccountCredential_total s0 s1 s2 s3 c log)
    as [[[id ex] err] Hsearch].
  erewrite bind_Ok in H by exact Hsearch. cbv beta iota in H.
  destruct err. { after_requests H. apply onlyGets_one. }
  destruct ex; cbn [negb] in H. 2: { after_requests H. apply onlyGets_one. }
  destruct (readDeviceLocalDomainAccountCredentialOptions_total s0 s1 s2 id c
              (log ++ [mkRequest (credentialsURI s0 s1 s2) MethodGet None]))
    as [[cfg err] Hread].
  erewrite bind_Ok in H by exact Hread.
  after_requests H; apply onlyGets_two.
Qed.

Lemma ldap_import_only_gets (d : ExternalAuthLdapData) c log res log' :
  resourceExternalAuthLdapImport d c log = Ok (res, log') -> onlyGets 2 log log'.
Proof.
  unfold resourceExternalAuthLdapImport. intros H.
  destruct (resourveExternalAuthLdapVersionCheck _).
  { after_requests H. apply onlyGets_refl. }
  destruct (searchResourceExternalAuthLdap_total (Id d) c log) as [[[id ex] err] Hsearch].
  erewrite bind_Ok in H by exact Hsearch. cbv beta iota in H.
  destruct err. { after_requests H. apply onlyGets_one. }
  destruct ex; cbn [negb] in H. 2: { after_requests H. apply onlyGets_one. }
  destruct (readExternalAuthLdapOptions_total id c
              (log ++ [mkRequest ("/externalauths/" +:+ Id d) MethodGet None]))
    as [[cfg err] Hread].
  erewrite bind_Ok in H by exact Hread.
  after_requests H; apply onlyGets_two.
Qed.

(** X8: the operations that refresh never write to the appliance. Whatever
    the appliance answers, a Read that returns has made at most one request
    and an Import that returns at most two, and the Read of the data source
    at most one; each of these requests is a GET without a body. *)
Theorem X8_refresh_only_gets :
  (∀ r (d : ResourceData (schemaOf r)) c log res log',
     ReadContext r d c log = Ok (res, log') -> onlyGets 1 log log')
  ∧ (∀ r (d : ResourceData (schemaOf r)) c log res log',
       Importer r d c log = Ok (res, log') -> onlyGets 2 log log')
  ∧ (∀ (d : LocalpasswordpolicyData) c log res log',
       dataSourceLocalpasswordpolicyRead d c log = Ok (res, log') -> onlyGets 1 log log').
Proof.
  split; [|split].
  - intros [] d c log res log'; simpl.
    + apply application_read_only_gets.
    + apply credential_read_only_gets.
    + apply ldap_read_only_gets.
  - intros [] d c log res log'; simpl.
    + apply application_import_only_gets.
    + apply credential_import_only_gets.
    + apply ldap_import_only_gets.
  - intros d c log res log'. unfold dataSourceLocalpasswordpolicyRead. intros H.
    destruct (dataSourceLocalpasswordpolicyVersionCheck _).
    { after_requests H. apply onlyGets_refl. }
    rewrite (Get_TypeStringDefault d "password_policy_name" "default") in H by reflexivity.
    cbn [assertString] in H. rewrite bind_lift_Ok in H.
    destruct (readLocalpasswordpolicyOptions (GetString d "password_policy_name") c log)
      as [[[cfg err] log1]|] eqn:Hread.
    2: { erewrite bind_Panic in H by exact Hread. discriminate. }
    erewrite bind_Ok in H by exact Hread.
    apply readLocalpasswordpolicyOptions_log in Hread as ->.
    after_requests H; apply onlyGets_one.
Qed.

(** ** Import of a credential *)

(** What an Import of the credential resource returns once the Locator has
    found the key and the GET by id has returned a record. *)
Lemma credential_import_after_read (d : CredentialData) c log
    s0 s1 s2 s3 id cfg log1 log2 :
  bastionAPIVersion c = versionValidate3_3 ->
  strings_Split (Id d) "/"%char = [s0; s1; s2; s3] ->
  searchResourceDeviceLocalDomainAccountCredential s0 s1 s2 s3 c log
  = Ok ((id, true, None), log1) ->
  readDeviceLocalDomainAccountCredentialOptions s0 s1 s2 id c log1 = Ok ((cfg, None), log2) ->
  ∃ d',
    resourceDeviceLocalDomainAccountCredentialImport d c log
    = Ok ((d', (Some [d'], None)), log2)
    ∧ Id d' = id
    ∧ Get d' "device_id" = VString s0
    ∧ Get d' "domain_id" = VString s1
    ∧ Get d' "account_id" = VString s2
    ∧ Get d' "type" = VString (jsonDeviceLocalDomainAccountCredential.Type_ cfg)
    ∧ Get d' "public_key" = VString (jsonDeviceLocalDomainAccountCredential.PublicKey cfg)
    ∧ ∀ k, k ∈ secretFields -> Get d' k = Get d k.
Proof.
  intros Hv Hsplit Hsearch Hread. destruct d as [id0 st0 partial0].
  unfold resourceDeviceLocalDomainAccountCredentialImport,
    resourveDeviceLocalDomainAccountCredentialVersionCheck.
  rewrite decide_True by exact Hv. cbv zeta. rewrite Hsplit.
  rewrite decide_False by (intros H; now apply H).
  cbn [at_ lookup list_lookup]. rewrite !bind_lift_Ok.
  erewrite bind_Ok by exact Hsearch. cbv beta iota. cbn [negb].
  erewrite bind_Ok by exact Hread. cbv beta iota.
  unfold fillDeviceLocalDomainAccountCredential. run_sets. rewrite bind_lift_Ok. cbv zeta.
  unfold SetId. cbn [rdState rdPartial].
  repeat (erewrite mustSet_Ok by reflexivity; cbn [rdId rdState rdPartial];
          rewrite bind_lift_Ok).
  eexists. split; [reflexivity|]. split; [reflexivity|].
  do 5 (split; [now read_back|]).
  intros k Hk. unfold secretFields in Hk. rewrite !elem_of_cons, elem_of_nil in Hk.
  destruct Hk as [->|[->|[->|[]]]]; now rewrite !Get_insert_ne by discriminate.
Qed.

(** X9: an Import of the credential resource under a key of four segments
    that the Locator finds and whose GET by id returns a record binds the id
    the Locator found, takes device_id, domain_id and account_id from the
    first three segments of the key, takes type and public_key from the
    record (not from the fourth segment), and leaves password, private_key
    and passphrase as they were. *)
Theorem X9_credential_import_populates_parent_keys (d : CredentialData) c log
    s0 s1 s2 s3 id cfg log1 log2 :
  bastionAPIVersion c = versionValidate3_3 ->
  strings_Split (Id d) "/"%char = [s0; s1; s2; s3] ->
  searchResourceDeviceLocalDomainAccountCredential s0 s1 s2 s3 c log
  = Ok ((id, true, None), log1) ->
  readDeviceLocalDomainAccountCredentialOptions s0 s1 s2 id c log1 = Ok ((cfg, None), log2) ->
  ∃ d',
    resourceDeviceLocalDomainAccountCredentialImport d c log
    = Ok ((d', (Some [d'], None)), log2)
    ∧ Id d' = id
    ∧ Get d' "device_id" = VString s0
    ∧ Get d' "domain_id" = VString s1
    ∧ Get d' "account_id" = VString s2
    ∧ Get d' "type" = VString (jsonDeviceLocalDomainAccountCredential.Type_ cfg)
    ∧ Get d' "public_key" = VString (jsonDeviceLocalDomainAccountCredential.PublicKey cfg)
    ∧ ∀ k, k ∈ secretFields -> Get d' k = Get d k.
Proof. apply credential_import_after_read. Qed.

(** X10: an Import of the credential resource does not notice that the
    credential the Locator found is gone when it is read: on a 404 of the
    GET by id it reports no error and returns the data under the id found,
    with an empty type and an empty public key. *)
Theorem X10_credential_import_of_vanished_record (d : CredentialData) c log
    s0 s1 s2 s3 id log1 body :
  bastionAPIVersion c = versionValidate3_3 ->
  strings_Split (Id d) "/"%char = [s0; s1; s2; s3] ->
  searchResourceDeviceLocalDomainAccountCredential s0 s1 s2 s3 c log
  = Ok ((id, true, None), log1) ->
  appliance c log1 (mkRequest (credentialsURI s0 s1 s2 +:+ id) MethodGet None)
  = (body, StatusNotFound, None) ->
  ∃ d',
    resourceDeviceLocalDomainAccountCredentialImport d c log
    = Ok ((d', (Some [d'], None)),
          log1 ++ [mkRequest (credentialsURI s0 s1 s2 +:+ id) MethodGet None])
    ∧ Id d' = id
    ∧ Get d' "type" = VString ""
    ∧ Get d' "public_key" = VString "".
Proof.
  intros Hv Hsplit Hsearch Hget.
  pose proof (readDeviceLocalDomainAccountCredentialOptions_status s0 s1 s2 id c log1 body
                StatusNotFound Hget) as Hread.
  rewrite decide_True in Hread by reflexivity.
  destruct (credential_import_after_read d c log s0 s1 s2 s3 id _ log1 _
              Hv Hsplit Hsearch (Hread ltac:(discriminate)))
    as (d' & Himport & Hid & _ & _ & _ & Htype & Hkey & _).
  exists d'. repeat split; assumption.
Qed.

(** ** Create, through to the Read that ends it *)

(** A Read whose GET by id is answered 404 clears the id, for any data. *)
Lemma read_of_absent r (d : ResourceData (schemaOf r)) c log body :
  versionCheck r (bastionAPIVersion c) = None ->
  appliance c log (mkRequest (readURI r d) MethodGet None) = (body, StatusNotFound, None) ->
  ReadContext r d c log
  = Ok ((SetId d "", nil), log ++ [mkRequest (readURI r d) MethodGet None]).
Proof.
  intros Hv Hget.
  destruct r; simpl in d, Hv, Hget; simpl ReadContext; simpl readURI.
  - unfold resourceApplicationRead. rewrite Hv.
    erewrite bind_Ok
      by (apply readApplicationOptions_status; [exact Hget | discriminate]).
    reflexivity.
  - unfold resourceDeviceLocalDomainAccountCredentialRead. rewrite Hv. get_strings.
    erewrite bind_Ok
      by (apply readDeviceLocalDomainAccountCredentialOptions_status;
          [exact Hget | discriminate]).
    reflexivity.
  - unfold resourceExternalAuthLdapRead. rewrite Hv.
    erewrite bind_Ok
      by (apply readExternalAuthLdapOptions_status; [exact Hget | discriminate]).
    reflexivity.
Qed.

(** A Create that passes every check ends with the Read of the data under
    the id found. *)
Lemma create_ends_with_read r (d : ResourceData (schemaOf r)) c
    log log1 log2 log3 log4 id0 id :
  versionCheck r (bastionAPIVersion c) = None ->
  beforeLocator r d c log = Ok (true, log1) ->
  locate r d c log1 = Ok ((id0, false, None), log2) ->
  missingCompanion r d = Ok false ->
  post r d c log2 = Ok (None, log3) ->
  locate r d c log3 = Ok ((id, true, None), log4) ->
  CreateContext r d c log = ReadContext r (SetId d id) c log4.
Proof.
  intros Hv Hpre Hloc Hcomp Hpost Hloc'.
  destruct r; simpl in d, Hv, Hpre, Hloc, Hcomp, Hpost, Hloc';
    simpl CreateContext; simpl ReadContext.
  - cbv [mret M_ret] in Hpre. injection Hpre as <-.
    unfold resourceApplicationCreate. rewrite Hv. get_strings.
    erewrite bind_Ok by exact Hloc. cbv beta iota.
    erewrite bind_Ok by exact Hpost. cbv beta iota.
    erewrite bind_Ok by exact Hloc'. reflexivity.
  - apply parentsExist_true in Hpre
      as (dev & dom & acc & l1 & l2 & H1 & Hdev & H2 & Hdom & H3 & Hacc).
    unfold resourceDeviceLocalDomainAccountCredentialCreate. rewrite Hv. get_strings.
    erewrite bind_Ok by exact H1. cbv beta iota. rewrite decide_False by exact Hdev.
    rewrite bind_lift_Ok.
    erewrite bind_Ok by exact H2. cbv beta iota. rewrite decide_False by exact Hdom.
    rewrite bind_lift_Ok.
    erewrite bind_Ok by exact H3. cbv beta iota. rewrite decide_False by exact Hacc.
    rewrite bind_lift_Ok.
    erewrite bind_Ok by exact Hloc. cbv beta iota.
    erewrite bind_Ok by exact Hpost. cbv beta iota.
    erewrite bind_Ok by exact Hloc'. reflexivity.
  - cbv [mret M_ret] in Hpre. injection Hpre as <-.
    unfold resourceExternalAuthLdapCreate. rewrite Hv. get_strings.
    erewrite bind_Ok by exact Hloc. cbv beta iota.
    rewrite Hcomp, bind_lift_Ok.
    erewrite bind_Ok by exact Hpost. cbv beta iota.
    erewrite bind_Ok by exact Hloc'. reflexivity.
Qed.

(** X11: a Create can end without an error and without an id. When the
    POST succeeds and the Locator then finds the id, but the GET by that id
    is answered 404, Create reports no error and returns the data with the
    empty id. *)
Theorem X11_create_of_vanished_record r (d : ResourceData (schemaOf r)) c
    log log1 log2 log3 log4 id0 id body :
  versionCheck r (bastionAPIVersion c) = None ->
  beforeLocator r d c log = Ok (true, log1) ->
  locate r d c log1 = Ok ((id0, false, None), log2) ->
  missingCompanion r d = Ok false ->
  post r d c log2 = Ok (None, log3) ->
  locate r d c log3 = Ok ((id, true, None), log4) ->
  appliance c log4 (mkRequest (readURI r (SetId d id)) MethodGet None)
  = (body, StatusNotFound, None) ->
  CreateContext r d c log
  = Ok ((SetId d "", nil), log4 ++ [mkRequest (readURI r (SetId d id)) MethodGet None]).
Proof.
  intros Hv Hpre Hloc Hcomp Hpost Hloc' Hget.
  rewrite (create_ends_with_read r d c log log1 log2 log3 log4 id0 id)
    by assumption.
  now rewrite (read_of_absent r (SetId d id) c log4 body) by assumption.
Qed.

(** X12: a Create of the credential resource that passes every check and
    whose GET by the id found returns a record with an id reports no error,
    binds the id the Locator found, mirrors type and public_key of the
    record, and leaves password, private_key and passphrase as they were. *)
Theorem X12_credential_create_binds_id (d : CredentialData) c
    log log1 log2 log3 log4 log5 id0 id cfg :
  resourveDeviceLocalDomainAccountCredentialVersionCheck (bastionAPIVersion c) = None ->
  parentsExist d c log = Ok (true, log1) ->
  searchResourceDeviceLocalDomainAccountCredential (GetString d "device_id")
    (GetString d "domain_id") (GetString d "account_id") (GetString d "type") c log1
  = Ok ((id0, false, None), log2) ->
  addDeviceLocalDomainAccountCredential d c log2 = Ok (None, log3) ->
  searchResourceDeviceLocalDomainAccountCredential (GetString d "device_id")
    (GetString d "domain_id") (GetString d "account_id") (GetString d "type") c log3
  = Ok ((id, true, None), log4) ->
  readDeviceLocalDomainAccountCredentialOptions (GetString d "device_id")
    (GetString d "domain_id") (GetString d "account_id") id c log4 = Ok ((cfg, None), log5) ->
  jsonDeviceLocalDomainAccountCredential.ID cfg ≠ "" ->
  ∃ d',
    resourceDeviceLocalDomainAccountCredentialCreate d c log = Ok ((d', nil), log5)
    ∧ Id d' = id
    ∧ Get d' "type" = VString (jsonDeviceLocalDomainAccountCredential.Type_ cfg)
    ∧ Get d' "public_key" = VString (jsonDeviceLocalDomainAccountCredential.PublicKey cfg)
    ∧ ∀ k, k ∈ secretFields -> Get d' k = Get d k.
Proof.
  intros Hv Hpre Hloc Hpost Hloc' Hread Hid.
  pose proof (create_ends_with_read DeviceLocalDomainAccountCredential d c
                log log1 log2 log3 log4 id0 id Hv Hpre Hloc eq_refl Hpost Hloc') as Hcreate.
  simpl CreateContext in Hcreate. simpl ReadContext in Hcreate. rewrite Hcreate.
  clear Hcreate Hpre Hloc Hpost Hloc'. destruct d as [idd st partial].
  unfold resourceDeviceLocalDomainAccountCredentialRead. rewrite Hv.
  rewrite !Get_SetId. get_strings. unfold Id, SetId. cbn [rdId rdState rdPartial].
  erewrite bind_Ok by exact Hread. cbv beta iota. rewrite decide_False by exact Hid.
  unfold fillDeviceLocalDomainAccountCredential. run_sets. rewrite bind_lift_Ok.
  eexists. split; [reflexivity|]. split; [reflexivity|].
  do 2 (split; [now read_back|]).
  intros k Hk. unfold secretFields in Hk. rewrite !elem_of_cons, elem_of_nil in Hk.
  destruct Hk as [->|[->|[->|[]]]]; now rewrite !Get_insert_ne by discriminate.
Qed.

(** ** The Read of the data source *)

Lemma mapM_coerce_strings (l : list string) :
  mapM (coerce TypeString) (VString <$> l) = Some (VString <$> l).
Proof.
  apply mapM_Some. induction l as [|x l IH]; [constructor|].
  rewrite fmap_cons. constructor; [reflexivity | exact IH].
Qed.

Lemma forallb_strings (l : list string) :
  forallb (hasType TypeString) (VString <$> l) = true.
Proof. induction l as [|x l IH]; [reflexivity|]. rewrite fmap_cons. simpl. exact IH. Qed.

(** Writing a slice of strings into a set of strings. *)
Lemma mustSet_strings {sch} (d : ResourceData sch) key (s : slice string) :
  schemaType sch key = Some (TypeSet TypeString) ->
  mustSet key (stringsValue s) d
  = Ok (mkResourceData (rdId d) (<[key := VSet (VString <$> elems s)]> (rdState d))
          (rdPartial d)).
Proof.
  intros Ht. apply mustSet_Ok with (t := TypeSet TypeString); [exact Ht|].
  unfold stringsValue.
  change (VSet <$> mapM (coerce TypeString) (VString <$> elems s)
          = Some (VSet (VString <$> elems s))).
  now rewrite mapM_coerce_strings.
Qed.

Lemma Get_insert_strings {sch} id st partial key (l : list string) :
  schemaType sch key = Some (TypeSet TypeString) ->
  Get (sch := sch) (mkResourceData id (<[key := VSet (VString <$> l)]> st) partial) key
  = VSet (VString <$> l).
Proof.
  intros Ht. apply Get_insert_eq with (t := TypeSet TypeString); [exact Ht|].
  apply forallb_strings.
Qed.

(** X13: a Read of the data source whose lookup returns a policy reports no
    error, takes the id of the policy as the id of the data and mirrors the
    thirteen settings of the policy; it does not write the name: the data
    keep the name that was asked for, whatever the name of the policy
    returned. *)
Theorem X13_data_source_read_mirrors_policy (d : LocalpasswordpolicyData) c log cfg log' :
  bastionAPIVersion c ∈ defaultVersionsValid ->
  readLocalpasswordpolicyOptions (GetString d "password_policy_name") c log
  = Ok ((cfg, None), log') ->
  ∃ d',
    dataSourceLocalpasswordpolicyRead d c log = Ok ((d', nil), log')
    ∧ Id d' = jsonLocalpasswordpolicy.ID cfg
    ∧ Get d' "password_policy_name" = Get d "password_policy_name"
    ∧ ∀ k v, (k, v) ∈ mirroredPolicy cfg -> Get d' k = v.
Proof.
  intros Hv Hread. destruct d as [id st partial].
  unfold dataSourceLocalpasswordpolicyRead, dataSourceLocalpasswordpolicyVersionCheck.
  rewrite bool_decide_eq_true_2 by exact Hv.
  rewrite (Get_TypeStringDefault _ "password_policy_name" "default") by reflexivity.
  cbn [assertString]. rewrite bind_lift_Ok.
  erewrite bind_Ok by exact Hread. cbv beta iota.
  unfold fillLocalpasswordpolicy. run_sets.
  rewrite mustSet_strings by reflexivity. cbn [mbind outcome_bind rdId rdState rdPartial].
  rewrite mustSet_strings by reflexivity. cbn [rdId rdState rdPartial].
  rewrite bind_lift_Ok.
  eexists. split; [reflexivity|]. split; [reflexivity|]. split.
  - unfold SetId. cbn [rdId rdState rdPartial]. rewrite !Get_insert_ne by discriminate.
    now rewrite (Get_TypeStringDefault _ "password_policy_name" "default") by reflexivity.
  - intros k v Hk. unfold SetId. cbn [rdId rdState rdPartial].
    unfold mirroredPolicy in Hk.
    repeat (apply elem_of_cons in Hk as [[= -> ->]|Hk]);
      [ .. | now apply elem_of_nil in Hk ];
      rewrite ?Get_insert_ne by discriminate;
      first [ now apply Get_insert_strings
            | now erewrite Get_insert_eq by reflexivity ].
Qed.

(** X14: the data source has no "absent": when its query is answered with
    any status but 200, a 404 included, the Read reports an error made of
    the status and the body and leaves the data as they are. The query asks
    for the policy named in the configuration, and for the policy "default"
    when the configuration names none. *)
Theorem X14_data_source_read_of_other_status (d : LocalpasswordpolicyData) c log body code :
  bastionAPIVersion c ∈ defaultVersionsValid ->
  appliance c log (mkRequest (policyURI d) MethodGet None) = (body, code, None) ->
  code ≠ StatusOK ->
  dataSourceLocalpasswordpolicyRead d c log
  = Ok ((d, diag_FromErr ("api doesn't return OK: " +:+ pretty code +:+ " with body:" +:+ LF
                          +:+ body)),
        log ++ [mkRequest (policyURI d) MethodGet None])
  ∧ (rdState d !! "password_policy_name" = None ->
     policyURI d = "/localpasswordpolicies/?q=password_policy_name=default").
Proof.
  intros Hv Hget Hcode. split.
  - unfold dataSourceLocalpasswordpolicyRead, dataSourceLocalpasswordpolicyVersionCheck.
    rewrite bool_decide_eq_true_2 by exact Hv.
    rewrite (Get_TypeStringDefault _ "password_policy_name" "default") by reflexivity.
    cbn [assertString]. rewrite bind_lift_Ok.
    erewrite bind_Ok.
    2: { unfold readLocalpasswordpolicyOptions. unfold policyURI in Hget.
         rewrite bind_newRequest, Hget. cbv beta iota.
         rewrite decide_True by exact Hcode. reflexivity. }
    reflexivity.
  - intros Hunset. unfold policyURI, GetString, Get. simpl schemaType. now rewrite Hunset.
Qed.

(** ** The decoding of an application *)

Lemma coerce_paths (l : list jsonApplicationPath.t) :
  coerce (TypeSet (TypeResource [ ("target", TypeString); ("program", TypeString);
                                  ("working_dir", TypeString) ]))
    (VSlice (pathValue <$> l))
  = Some (VSet (pathValue <$> l)).
Proof.
  change (VSet <$> mapM (coerce (TypeResource [ ("target", TypeString);
                                                ("program", TypeString);
                                                ("working_dir", TypeString) ]))
                     (pathValue <$> l) = Some (VSet (pathValue <$> l))).
  assert (H : mapM (coerce (TypeResource [ ("target", TypeString); ("program", TypeString);
                                           ("working_dir", TypeString) ]))
                (pathValue <$> l) = Some (pathValue <$> l)).
  { apply mapM_Some. induction l as [|x l IH]; [constructor|].
    rewrite fmap_cons. constructor; [reflexivity | exact IH]. }
  now rewrite H.
Qed.

Lemma forallb_paths (l : list jsonApplicationPath.t) :
  forallb (hasType (TypeResource [ ("target", TypeString); ("program", TypeString);
                                   ("working_dir", TypeString) ])) (pathValue <$> l) = true.
Proof.
  induction l as [|x l IH]; [reflexivity|].
  rewrite fmap_cons. cbn [forallb]. rewrite IH. reflexivity.
Qed.

Lemma coerce_localDomains (l : list jsonApplicationLocalDomain.t) :
  coerce (TypeList (TypeResource
            [ ("id", TypeString); ("admin_account", TypeString); ("domain_name", TypeString);
              ("description", TypeString); ("enable_password_change", TypeBool);
              ("password_change_policy", TypeString); ("password_change_plugin", TypeString);
              ("password_change_plugin_parameters", TypeString) ]))
    (VSlice (localDomainValue <$> l))
  = Some (VSlice (localDomainValue <$> l)).
Proof.
  change (VSlice <$> mapM (coerce (TypeResource
            [ ("id", TypeString); ("admin_account", TypeString); ("domain_name", TypeString);
              ("description", TypeString); ("enable_password_change", TypeBool);
              ("password_change_policy", TypeString); ("password_change_plugin", TypeString);
              ("password_change_plugin_parameters", TypeString) ]))
                       (localDomainValue <$> l) = Some (VSlice (localDomainValue <$> l))).
  assert (H : mapM (coerce (TypeResource
            [ ("id", TypeString); ("admin_account", TypeString); ("domain_name", TypeString);
              ("description", TypeString); ("enable_password_change", TypeBool);
              ("password_change_policy", TypeString); ("password_change_plugin", TypeString);
              ("password_change_plugin_parameters", TypeString) ]))
                (localDomainValue <$> l) = Some (localDomainValue <$> l)).
  { apply mapM_Some. induction l as [|x l IH]; [constructor|].
    rewrite fmap_cons. constructor; [reflexivity | exact IH]. }
  now rewrite H.
Qed.

Lemma forallb_localDomains (l : list jsonApplicationLocalDomain.t) :
  forallb (hasType (TypeResource
            [ ("id", TypeString); ("admin_account", TypeString); ("domain_name", TypeString);
              ("description", TypeString); ("enable_password_change", TypeBool);
              ("password_change_policy", TypeString); ("password_change_plugin", TypeString);
              ("password_change_plugin_parameters", TypeString) ]))
    (localDomainValue <$> l) = true.
Proof.
  induction l as [|x l IH]; [reflexivity|].
  rewrite fmap_cons. cbn [forallb]. rewrite IH. reflexivity.
Qed.

(** The data a decoding leaves when the record has local domains. *)
Lemma fillApplication_Ok id st partial jsonData localDomains :
  jsonApplication.LocalDomains jsonData = Some localDomains ->
  fillApplication (mkResourceData id st partial) jsonData
  = Ok (mkResourceData id
          (<["local_domains" := VSlice (localDomainValue <$> elems localDomains)]>
          (<["parameters" := VString (jsonApplication.Parameters jsonData)]>
          (<["global_domains" :=
               VSet (VString <$> elems (jsonApplication.GlobalDomains jsonData))]>
          (<["description" := VString (jsonApplication.Description jsonData)]>
          (<["target" := VString (jsonApplication.Target jsonData)]>
          (<["paths" := VSet (pathValue <$> elems (jsonApplication.Paths jsonData))]>
          (<["connection_policy" := VString (jsonApplication.ConnectionPolicy jsonData)]>
          (<["application_name" := VString (jsonApplication.ApplicationName jsonData)]>
             st))))))))
          partial).
Proof.
  intros Hlds. unfold fillApplication. run_sets. cbv zeta.
  erewrite mustSet_Ok; [|reflexivity|apply coerce_paths].
  cbn [mbind outcome_bind rdId rdState rdPartial]. run_sets.
  rewrite mustSet_strings by reflexivity.
  cbn [mbind outcome_bind rdId rdState rdPartial]. run_sets.
  rewrite Hlds. cbn [deref mbind outcome_bind].
  erewrite mustSet_Ok; [|reflexivity|apply coerce_localDomains]. reflexivity.
Qed.

(** X15: the decoding of an application panics exactly when the record has
    no local domains. When it has, the decoding keeps the id of the data and
    stores the five strings, the global domains and the paths of the record,
    and one map for each local domain, in the order of the record, in which
    the plugin parameters are the text [json.Marshal] gives for them. *)
Theorem X15_application_decoding (d : ApplicationData) jsonData :
  (isPanic (fillApplication d jsonData) = true
   ↔ jsonApplication.LocalDomains jsonData = None)
  ∧ ∀ localDomains,
      jsonApplication.LocalDomains jsonData = Some localDomains ->
      ∃ d',
        fillApplication d jsonData = Ok d'
        ∧ Id d' = Id d
        ∧ Get d' "application_name" = VString (jsonApplication.ApplicationName jsonData)
        ∧ Get d' "connection_policy" = VString (jsonApplication.ConnectionPolicy jsonData)
        ∧ Get d' "target" = VString (jsonApplication.Target jsonData)
        ∧ Get d' "description" = VString (jsonApplication.Description jsonData)
        ∧ Get d' "parameters" = VString (jsonApplication.Parameters jsonData)
        ∧ Get d' "global_domains"
          = VSet (VString <$> elems (jsonApplication.GlobalDomains jsonData))
        ∧ Get d' "paths" = VSet (pathValue <$> elems (jsonApplication.Paths jsonData))
        ∧ Get d' "local_domains" = VSlice (localDomainValue <$> elems localDomains).
Proof.
  destruct d as [id st partial]. split.
  - split; [|apply fillApplication_nil_LocalDomains].
    destruct (jsonApplication.LocalDomains jsonData) as [localDomains|] eqn:Hlds;
      [|reflexivity].
    rewrite (fillApplication_Ok _ _ _ _ _ Hlds). discriminate.
  - intros localDomains Hlds. rewrite (fillApplication_Ok _ _ _ _ _ Hlds).
    eexists. split; [reflexivity|]. split; [reflexivity|].
    do 5 (split; [now read_back|]).
    split; [|split].
    + rewrite ?Get_insert_ne by discriminate. now apply Get_insert_strings.
    + rewrite ?Get_insert_ne by discriminate.
      apply Get_insert_eq with (t := TypeSet (TypeResource
              [ ("target", TypeString); ("program", TypeString);
                ("working_dir", TypeString) ])); [reflexivity|].
      apply forallb_paths.
    + eapply Get_insert_eq; [reflexivity|]. apply forallb_localDomains.
Qed.

Lemma pathOfValue_pathValue v : pathOfValue (pathValue v) = v.
Proof. now destruct v. Qed.

(** X16: what the codec of the application resource preserves. For an
    application without global domains the encoding succeeds; once the
    appliance has completed the record with local domains, whichever they
    are, its decoding into any data succeeds and gives back the five strings
    as they were set, no global domain, and the paths with the target, the
    program and the working directory they were set with. *)
Theorem X16_application_decode_encode (d d0 : ApplicationData) localDomains :
  GetSet d "global_domains" = [] ->
  ∃ jsonData d',
    prepareApplicationJSON d = Ok jsonData
    ∧ fillApplication d0 (withLocalDomains jsonData localDomains) = Ok d'
    ∧ Id d' = Id d0
    ∧ (∀ k, k ∈ applicationStrings -> Get d' k = Get d k)
    ∧ GetSet d' "global_domains" = []
    ∧ pathOfValue <$> GetSet d' "paths" = pathOfValue <$> GetSet d "paths".
Proof.
  intros Hgd. destruct d0 as [id0 st0 partial0].
  destruct (prepareApplicationJSON_without_global_domains d Hgd) as (paths & Hpaths & Hprepare).
  eexists. eexists. split; [exact Hprepare|].
  split; [apply fillApplication_Ok; reflexivity|].
  cbn [withLocalDomains jsonApplication.ID jsonApplication.ApplicationName
         jsonApplication.ConnectionPolicy jsonApplication.Description
         jsonApplication.Parameters jsonApplication.Target jsonApplication.GlobalDomains
         jsonApplication.Paths jsonApplication.LocalDomains].
  split; [reflexivity|]. split; [|split].
  - intros k Hk. unfold applicationStrings in Hk.
    repeat (apply elem_of_cons in Hk as [->|Hk]); [ .. | now apply elem_of_nil in Hk ];
      read_back; symmetry; now apply Get_TypeString.
  - unfold GetSet. rewrite ?Get_insert_ne by discriminate.
    now rewrite Get_insert_strings by reflexivity.
  - unfold GetSet at 1. rewrite ?Get_insert_ne by discriminate.
    erewrite Get_insert_eq; [|reflexivity|apply forallb_paths].
    rewrite Hpaths, <- list_fmap_compose.
    rewrite <- list_fmap_compose. apply list_fmap_ext. intros i v _. cbn.
    now rewrite pathOfValue_pathValue.
Qed.

(** ** Import keys, again *)

Lemma rev_app_append cur x y : String.rev_app cur x +:+ y = String.rev_app cur (x +:+ y).
Proof. revert x. induction cur as [|a cur IH]; intros x; [reflexivity|]. simpl. apply IH. Qed.

Lemma concat_splitFrom sep cur s :
  String.concat (String sep "") (splitFrom sep cur s) = String.rev_app cur s.
Proof.
  revert cur. induction s as [|a s IH]; intros cur; [reflexivity|].
  cbn [splitFrom]. destruct (decide (a = sep)) as [->|Hne].
  - pose proof (splitFrom_length sep "" s) as Hlen. specialize (IH "").
    destruct (splitFrom sep "" s) as [|x xs]; [discriminate Hlen|].
    cbn [String.concat]. cbn [String.concat] in IH. rewrite IH.
    unfold String.rev. now rewrite rev_app_append.
  - apply IH.
Qed.

(** X17: the segments of an import key, joined by '/', give the key back, and
    there is one segment more than the key has '/': the key of a credential
    is of the form the Import accepts exactly when it has three '/'. *)
Theorem X17_import_key_segments (id : string) :
  String.concat "/" (strings_Split id "/"%char) = id
  ∧ (length (strings_Split id "/"%char) = 4%nat
     ↔ length (filter (λ a, a = "/"%char) (list_ascii_of_string id)) = 3%nat).
Proof.
  split.
  - apply concat_splitFrom.
  - unfold strings_Split. rewrite splitFrom_length. lia.
Qed.

(** ** Writes that the appliance refuses *)

Lemma writeStatus_refused prefix infix body code :
  code ≠ StatusOK -> code ≠ StatusNoContent ->
  writeStatus prefix infix body code None = Some (prefix +:+ pretty code +:+ infix +:+ body).
Proof. intros H1 H2. unfold writeStatus. now rewrite decide_True by (split; assumption). Qed.

(** What an add and an update return when the encoding succeeds: the
    verdict on the answer to the one request they make. *)
Lemma post_Ok r (d : ResourceData (schemaOf r)) c log json body code terr :
  encode r true d = Ok json ->
  appliance c log (mkRequest (collectionURI r d) MethodPost (Some json)) = (body, code, terr) ->
  post r d c log
  = Ok (writeStatus (writeErrorPrefix r) (statusErrorInfix r) body code terr,
        log ++ [mkRequest (collectionURI r d) MethodPost (Some json)]).
Proof.
  intros Henc Hpost. destruct r; simpl in d, Henc, Hpost |- *.
  - unfold addApplication. destruct (prepareApplicationJSON d) as [j|]; [|discriminate].
    injection Henc as <-. now rewrite bind_lift_Ok, bind_newRequest, Hpost.
  - unfold addDeviceLocalDomainAccountCredential.
    destruct (prepareDeviceLocalDomainAccountCredentialJSON d true) as [j|]; [|discriminate].
    injection Henc as <-. rewrite bind_lift_Ok. get_strings.
    now rewrite bind_newRequest, Hpost.
  - unfold addExternalAuthLdap. destruct (prepareExternalAuthLdapJSON d) as [j|]; [|discriminate].
    injection Henc as <-. now rewrite bind_lift_Ok, bind_newRequest, Hpost.
Qed.

(** X18: a Create whose POST the appliance refuses stops there. The POST
    carries the encoding of the data for a new resource to the collection of
    the resource; when it is answered with a status other than 200 and 204,
    Create returns one error made of the status and the body, leaves the
    data as they are, and does not query the Locator again. *)
Theorem X18_create_post_refused r (d : ResourceData (schemaOf r)) c
    log log1 log2 id0 json body code :
  versionCheck r (bastionAPIVersion c) = None ->
  beforeLocator r d c log = Ok (true, log1) ->
  locate r d c log1 = Ok ((id0, false, None), log2) ->
  missingCompanion r d = Ok false ->
  encode r true d = Ok json ->
  appliance c log2 (mkRequest (collectionURI r d) MethodPost (Some json)) = (body, code, None) ->
  code ≠ StatusOK -> code ≠ StatusNoContent ->
  CreateContext r d c log
  = Ok ((d, diag_FromErr (writeErrorPrefix r +:+ pretty code +:+ statusErrorInfix r +:+ body)),
        log2 ++ [mkRequest (collectionURI r d) MethodPost (Some json)]).
Proof.
  intros Hv Hpre Hloc Hcomp Henc Hanswer Hok Hnc.
  pose proof (post_Ok r d c log2 json body code None Henc Hanswer) as Hpost.
  rewrite (writeStatus_refused _ _ _ _ Hok Hnc) in Hpost. clear Henc Hanswer.
  destruct r; simpl in d, Hv, Hpre, Hloc, Hcomp, Hpost; simpl CreateContext;
    simpl collectionURI; cbn [writeErrorPrefix statusErrorInfix].
  - cbv [mret M_ret] in Hpre. injection Hpre as <-.
    unfold resourceApplicationCreate. rewrite Hv. get_strings.
    erewrite bind_Ok by exact Hloc. cbv beta iota.
    erewrite bind_Ok by exact Hpost. reflexivity.
  - apply parentsExist_true in Hpre
      as (dev & dom & acc & l1 & l2 & H1 & Hdev & H2 & Hdom & H3 & Hacc).
    unfold resourceDeviceLocalDomainAccountCredentialCreate. rewrite Hv. get_strings.
    erewrite bind_Ok by exact H1. cbv beta iota. rewrite decide_False by exact Hdev.
    rewrite bind_lift_Ok.
    erewrite bind_Ok by exact H2. cbv beta iota. rewrite decide_False by exact Hdom.
    rewrite bind_lift_Ok.
    erewrite bind_Ok by exact H3. cbv beta iota. rewrite decide_False by exact Hacc.
    rewrite bind_lift_Ok.
    erewrite bind_Ok by exact Hloc. cbv beta iota.
    erewrite bind_Ok by exact Hpost. reflexivity.
  - cbv [mret M_ret] in Hpre. injection Hpre as <-.
    unfold resourceExternalAuthLdapCreate. rewrite Hv. get_strings.
    erewrite bind_Ok by exact Hloc. cbv beta iota.
    rewrite Hcomp, bind_lift_Ok.
    erewrite bind_Ok by exact Hpost. reflexivity.
Qed.

(** X19: an Update whose PUT the appliance refuses stops there. The PUT
    carries the encoding of the data for an update to the item of the
    resource; when it is answered with a status other than 200 and 204,
    Update returns one error made of the status and the body after that one
    request, with every field and the id as they were; the Updates of the
    application and of the credential resource return the data in partial
    mode, which they switch on at their start and off only after the PUT. *)
Theorem X19_update_put_refused r (d : ResourceData (schemaOf r)) c log json body code :
  versionCheck r (bastionAPIVersion c) = None ->
  missingCompanion r d = Ok false ->
  encode r false d = Ok json ->
  appliance c log (mkRequest (updateURI r d) MethodPut (Some json)) = (body, code, None) ->
  code ≠ StatusOK -> code ≠ StatusNoContent ->
  UpdateContext r d c log
  = Ok ((mkResourceData (rdId d) (rdState d) (updatesInPartialMode r || rdPartial d),
         diag_FromErr (writeErrorPrefix r +:+ pretty code +:+ statusErrorInfix r +:+ body)),
        log ++ [mkRequest (updateURI r d) MethodPut (Some json)]).
Proof.
  intros Hv Hcomp Henc Hanswer Hok Hnc.
  destruct r; simpl in d, Hv, Hcomp, Henc, Hanswer; simpl UpdateContext; simpl updateURI;
    cbn [writeErrorPrefix statusErrorInfix updatesInPartialMode orb].
  - unfold resourceApplicationUpdate. cbv zeta. rewrite Hv.
    erewrite bind_Ok.
    2: { unfold updateApplication.
         change (prepareApplicationJSON (Partial d true)) with (prepareApplicationJSON d).
         destruct (prepareApplicationJSON d) as [j|]; [|discriminate].
         injection Henc as <-. rewrite bind_lift_Ok, bind_newRequest.
         change (Id (Partial d true)) with (Id d). rewrite Hanswer.
         cbv beta iota. rewrite (writeStatus_refused _ _ _ _ Hok Hnc). reflexivity. }
    reflexivity.
  - unfold resourceDeviceLocalDomainAccountCredentialUpdate. cbv zeta. rewrite Hv.
    erewrite bind_Ok.
    2: { unfold updateDeviceLocalDomainAccountCredential.
         change (prepareDeviceLocalDomainAccountCredentialJSON (Partial d true) false)
           with (prepareDeviceLocalDomainAccountCredentialJSON d false).
         destruct (prepareDeviceLocalDomainAccountCredentialJSON d false) as [j|];
           [|discriminate].
         injection Henc as <-. rewrite bind_lift_Ok. rewrite !Get_Partial. get_strings.
         rewrite bind_newRequest.
         change (Id (Partial d true)) with (Id d). rewrite Hanswer.
         cbv beta iota. rewrite (writeStatus_refused _ _ _ _ Hok Hnc). reflexivity. }
    reflexivity.
  - unfold resourceExternalAuthLdapUpdate. rewrite Hv, Hcomp, bind_lift_Ok. cbv beta iota.
    erewrite bind_Ok.
    2: { unfold updateExternalAuthLdap.
         destruct (prepareExternalAuthLdapJSON d) as [j|]; [|discriminate].
         injection Henc as <-. rewrite bind_lift_Ok, bind_newRequest, Hanswer.
         cbv beta iota. rewrite (writeStatus_refused _ _ _ _ Hok Hnc). reflexivity. }
    destruct d. reflexivity.
Qed.

(** ** The Version Gate, for every entry point *)

(** X20: the gate of a resource accepts the validated version and no other,
    and the gate of the data source the versions of its list and no other.
    Against a version that its gate does not accept, each of the five entry
    points of each resource and the Read of the data source returns an error
    that ends with the version, makes no request, and leaves every field and
    the id of the data as they are. *)
Theorem X20_version_gate_of_every_entry_point c :
  (∀ r, versionCheck r (bastionAPIVersion c) = None
        ↔ bastionAPIVersion c = versionValidate3_3)
  ∧ (dataSourceLocalpasswordpolicyVersionCheck (bastionAPIVersion c) = None
     ↔ bastionAPIVersion c ∈ defaultVersionsValid)
  ∧ (bastionAPIVersion c ≠ versionValidate3_3 ->
     ∀ r (d : ResourceData (schemaOf r)) log,
     ∃ pre d',
       CreateContext r d c log
       = Ok ((d, diag_FromErr (pre +:+ bastionAPIVersion c)), log)
       ∧ ReadContext r d c log
         = Ok ((d, diag_FromErr (pre +:+ bastionAPIVersion c)), log)
       ∧ UpdateContext r d c log
         = Ok ((d', diag_FromErr (pre +:+ bastionAPIVersion c)), log)
       ∧ Id d' = Id d ∧ (∀ k, Get d' k = Get d k)
       ∧ DeleteContext r d c log
         = Ok ((d, diag_FromErr (pre +:+ bastionAPIVersion c)), log)
       ∧ Importer r d c log = Ok ((d, (None, Some (pre +:+ bastionAPIVersion c))), log))
  ∧ (bastionAPIVersion c ∉ defaultVersionsValid ->
     ∀ (d : LocalpasswordpolicyData) log,
     ∃ pre,
       dataSourceLocalpasswordpolicyRead d c log
       = Ok ((d, diag_FromErr (pre +:+ bastionAPIVersion c)), log)).
Proof.
  split; [|split; [|split]].
  - intros r. split.
    + intros Hnone. destruct (decide (bastionAPIVersion c = versionValidate3_3)) as [|Hne];
        [assumption|].
      destruct (versionCheck_rejects r _ Hne) as (err & pre & Hsome & _). congruence.
    + intros ->. apply versionCheck_accepts.
  - unfold dataSourceLocalpasswordpolicyVersionCheck. split.
    + intros Hnone. destruct (decide (bastionAPIVersion c ∈ defaultVersionsValid)) as [|Hne];
        [assumption|].
      now rewrite bool_decide_eq_false_2 in Hnone by exact Hne.
    + intros Hin. now rewrite bool_decide_eq_true_2 by exact Hin.
  - intros Hne r d log.
    destruct (versionCheck_rejects r _ Hne) as (err & pre & Hsome & -> & _).
    destruct (version_gate_precedes_io r d c _ log Hsome)
      as (Hcreate & Hread & [d' Hupdate] & Hdelete & Himport).
    exists pre, d'. repeat split; try assumption.
    + destruct r; simpl in d, d', Hsome, Hupdate;
        unfold resourceApplicationUpdate, resourceDeviceLocalDomainAccountCredentialUpdate,
          resourceExternalAuthLdapUpdate in Hupdate; cbv zeta in Hupdate;
        rewrite Hsome in Hupdate; injection Hupdate as <-; reflexivity.
    + intros k. destruct r; simpl in d, d', Hsome, Hupdate;
        unfold resourceApplicationUpdate, resourceDeviceLocalDomainAccountCredentialUpdate,
          resourceExternalAuthLdapUpdate in Hupdate; cbv zeta in Hupdate;
        rewrite Hsome in Hupdate; injection Hupdate as <-; reflexivity.
  - intros Hne d log. eexists.
    now rewrite (dataSource_version_gate_precedes_io d c log Hne).
Qed.

End Bastion.

(** * The theorems at work on sample inputs *)

(** C2 at work: a Create of the sample credential against an appliance of
    version v3.2. *)
Lemma C2_credential_gate_error_witness :
  ∃ err,
    resourceDeviceLocalDomainAccountCredentialCreate sampleVersion
      (UnmarshalCredential := decodeNothing) (UnmarshalCredentials := decodeNothing)
      (UnmarshalParent := decodeNothing) sampleCredential olderClient []
    = Ok ((sampleCredential, diag_FromErr err), [])
    ∧ err = "resource wallix-bastion_device_localdomain not validate with api version v3.2"
    ∧ namesResource DeviceLocalDomainAccountCredential err = false.
Proof.
  apply (C2_credential_gate_error_names_another_resource sampleVersion
           (UnmarshalCredential := decodeNothing) (UnmarshalCredentials := decodeNothing)
           (UnmarshalParent := decodeNothing) sampleCredential olderClient []).
  vm_compute. discriminate.
Defined.

(** C8 at work: the id "9" of the sample credential has one segment. *)
Lemma C8_import_key_arity_witness :
  resourceDeviceLocalDomainAccountCredentialImport sampleVersion
    (UnmarshalCredential := decodeNothing) (UnmarshalCredentials := decodeNothing)
    sampleCredential acceptingClient []
  = Ok ((sampleCredential,
         (None, Some "id msut be <device_id>/<domain_id>/<account_id>/<type>")), []).
Proof.
  apply (C8_import_key_arity sampleVersion
           (UnmarshalCredential := decodeNothing) (UnmarshalCredentials := decodeNothing)
           sampleCredential acceptingClient []).
  - vm_compute. discriminate.
  - reflexivity.
Defined.

(** C7 at work: the Read of the sample application against an appliance that
    answers 404. *)
Lemma C7_read_not_found_witness :
  ReadContext sampleVersion (fun _ => "{}") (UnmarshalApplication := decodeNothing)
    (UnmarshalCredential := decodeNothing) (UnmarshalExternalAuthLdap := decodeNothing)
    Application sampleApplication goneClient []
  = Ok ((SetId sampleApplication "", nil), [mkRequest "/applications/" MethodGet None]).
Proof.
  apply (C7_read_not_found_is_absent sampleVersion (fun _ => "{}")
           (UnmarshalApplication := decodeNothing)
           (UnmarshalCredential := decodeNothing) (UnmarshalExternalAuthLdap := decodeNothing)
           Application sampleApplication goneClient [] "not found" StatusNotFound);
    reflexivity.
Defined.


(** C6 at work: the appliance already lists an application named app1. *)
Lemma C6_create_rejects_duplicate_witness :
  CreateContext sampleVersion (fun _ => "{}")
    (UnmarshalApplication := decodeNothing)
    (UnmarshalApplications := decodeTo (Some [listedApplication "42" "app1"]))
    (UnmarshalCredential := decodeNothing) (UnmarshalCredentials := decodeNothing)
    (UnmarshalParent := decodeNothing)
    (UnmarshalExternalAuthLdap := decodeNothing) (UnmarshalExternalAuthLdaps := decodeNothing)
    Application sampleApplication acceptingClient []
  = Ok ((sampleApplication, diag_FromErr "application_name app1 already exists"),
        [mkRequest "/applications/?fields=application_name,id&limit=-1" MethodGet None]).
Proof.
  apply (C6_create_rejects_duplicate sampleVersion (fun _ => "{}")
           (UnmarshalApplication := decodeNothing)
           (UnmarshalApplications := decodeTo (Some [listedApplication "42" "app1"]))
           (UnmarshalCredential := decodeNothing) (UnmarshalCredentials := decodeNothing)
           (UnmarshalParent := decodeNothing)
           (UnmarshalExternalAuthLdap := decodeNothing)
           (UnmarshalExternalAuthLdaps := decodeNothing)
           Application sampleApplication acceptingClient [] [] _ "42");
    vm_compute; reflexivity.
Defined.

(** C5 at work: the appliance accepts the POST of app1 and lists no
    application, before and after. *)
Lemma C5_create_verifies_after_post_witness :
  ∃ log,
    CreateContext sampleVersion (fun _ => "{}")
      (UnmarshalApplication := decodeNothing) (UnmarshalApplications := decodeNothing)
      (UnmarshalCredential := decodeNothing) (UnmarshalCredentials := decodeNothing)
      (UnmarshalParent := decodeNothing)
      (UnmarshalExternalAuthLdap := decodeNothing) (UnmarshalExternalAuthLdaps := decodeNothing)
      Application sampleApplication acceptingClient []
    = Ok ((sampleApplication, diag_FromErr "application_name app1 can't find after POST"), log)
    ∧ length (posts log) = 1%nat.
Proof.
  eexists. split.
  - eapply (C5_create_verifies_after_post sampleVersion (fun _ => "{}")
              (UnmarshalApplication := decodeNothing) (UnmarshalApplications := decodeNothing)
              (UnmarshalCredential := decodeNothing) (UnmarshalCredentials := decodeNothing)
              (UnmarshalParent := decodeNothing)
              (UnmarshalExternalAuthLdap := decodeNothing)
              (UnmarshalExternalAuthLdaps := decodeNothing)
              Application sampleApplication acceptingClient [] _ _ _ _ "" "");
      vm_compute; reflexivity.
  - vm_compute. reflexivity.
Defined.

(** C10 at work: asked for the policy "default", the appliance answers with
    a list whose first policy is named "other"; the lookup returns it. *)
Lemma C10_data_source_takes_first_result_witness :
  readLocalpasswordpolicyOptions
    (UnmarshalLocalpasswordpolicies :=
       decodeTo (Some [listedLocalpasswordpolicy "2" "other";
                       listedLocalpasswordpolicy "1" "default"]))
    "default" acceptingClient []
  = Ok ((listedLocalpasswordpolicy "2" "other", None),
        [mkRequest "/localpasswordpolicies/?q=password_policy_name=default" MethodGet None]).
Proof.
  eapply (C10_data_source_takes_first_result
            (UnmarshalApplications := decodeNothing)
            (UnmarshalLocalpasswordpolicies :=
               decodeTo (Some [listedLocalpasswordpolicy "2" "other";
                               listedLocalpasswordpolicy "1" "default"]))
            "default" acceptingClient [] "[]"); reflexivity.
Defined.

(** C4 at work: the sample application with the global domain dom1. *)
Lemma C4_encode_with_global_domains_witness :
  prepareApplicationJSON sampleApplicationWithDomain
  = Panic "interface conversion: interface {} is not []interface {}".
Proof.
  apply (C4_encode_with_global_domains_panics sampleApplicationWithDomain).
  vm_compute. discriminate.
Defined.

(** C9 at work: the appliance returns the application 42 without its local
    domains. *)
Lemma C9_decode_without_local_domains_witness :
  isPanic (fillApplication (fun _ => "{}") sampleApplication (listedApplication "42" "app1"))
  = true.
Proof.
  apply (C9_decode_without_local_domains_panics (fun _ => "{}") sampleApplication
           (listedApplication "42" "app1")).
  reflexivity.
Defined.

(** The panic of the decoding is the dereference of the nil pointer. *)
Example fillApplication_nil_pointer :
  fillApplication (fun _ => "{}") sampleApplication (listedApplication "42" "app1")
  = Panic "invalid memory address or nil pointer dereference".
Proof. vm_compute. reflexivity. Qed.

(** The encoding of the sample application succeeds, and its decoding
    panics. *)
Example decodeEncodeApplication_sample :
  isPanic (prepareApplicationJSON sampleApplication) = false
  ∧ decodeEncodeApplication (fun _ => "{}") sampleApplication
    = Panic "invalid memory address or nil pointer dereference".
Proof. split; vm_compute; reflexivity. Qed.

(** C3 as stated fails: the Read of an LDAP authentication whose private key
    the appliance holds back replaces the private key held by the empty
    string. *)
Lemma C3_ldap_read_overwrites_private_key :
  ∃ d',
    resourceExternalAuthLdapRead sampleVersion
      (UnmarshalExternalAuthLdap := decodeTo returnedExternalAuthLdap)
      sampleExternalAuthLdap acceptingClient []
    = Ok ((d', nil), [mkRequest "/externalauths/7" MethodGet None])
    ∧ "private_key" ∈ secretFields
    ∧ Get sampleExternalAuthLdap "private_key" = VString "PRIVATE"
    ∧ Get d' "private_key" = VString "".
Proof.
  eexists. split; [vm_compute; reflexivity|].
  split; [unfold secretFields; set_solver|].
  split; vm_compute; reflexivity.
Qed.

(** C3 at work: the Read of the sample credential. *)
Lemma C3_secrets_on_refresh_witness :
  keeps secretFields sampleCredential
    (resourceDeviceLocalDomainAccountCredentialRead sampleVersion
       (UnmarshalCredential := decodeTo (listedCredential "9" "ssh_key"))
       sampleCredential acceptingClient).
Proof.
  apply (C3_secrets_on_refresh sampleVersion
           (UnmarshalCredential := decodeTo (listedCredential "9" "ssh_key"))
           (UnmarshalCredentials := decodeNothing)
           (UnmarshalExternalAuthLdap := decodeNothing)
           (UnmarshalExternalAuthLdaps := decodeNothing)).
Defined.

(** * The further properties at work on sample inputs *)

(** X1 at work: the appliance lists the application app1 under the id 42. *)
Lemma X1_application_locator_witness :
  ∃ id ex,
    searchResourceApplication (UnmarshalApplications := sampleDecodeApplications) "app1"
      (mkClient sampleVersion (constantAppliance "[app1]" StatusOK)) []
    = Ok ((id, ex, None),
          [mkRequest "/applications/?fields=application_name,id&limit=-1" MethodGet None]).
Proof.
  destruct (X1_application_locator_first_match
              (UnmarshalApplications := sampleDecodeApplications) "app1"
              (mkClient sampleVersion (constantAppliance "[app1]" StatusOK)) [] "[app1]"
              (Some [listedApplication "42" "app1"]) eq_refl eq_refl)
    as (id & ex & H & _).
  exists id, ex. exact H.
Defined.

(** X2 at work: the account has a password and an ssh_key credential. *)
Lemma X2_credential_locator_witness :
  ∃ id ex,
    searchResourceDeviceLocalDomainAccountCredential
      (UnmarshalCredentials := sampleDecodeCredentials) "dev1" "dom2" "acc3" "ssh_key"
      (mkClient sampleVersion (constantAppliance "[password,ssh_key]" StatusOK)) []
    = Ok ((id, ex, None), [mkRequest (credentialsURI "dev1" "dom2" "acc3") MethodGet None]).
Proof.
  destruct (X2_credential_locator_matches_type
              (UnmarshalCredentials := sampleDecodeCredentials) "dev1" "dom2" "acc3" "ssh_key"
              (mkClient sampleVersion (constantAppliance "[password,ssh_key]" StatusOK)) []
              "[password,ssh_key]"
              (Some [listedCredential "41" "password"; listedCredential "42" "ssh_key"])
              eq_refl eq_refl)
    as (id & ex & H & _).
  exists id, ex. exact H.
Defined.

(** X3 at work: the list query of the application Locator is answered 500. *)
Lemma X3_locator_propagates_failures_witness :
  locate (UnmarshalApplications := sampleDecodeApplications)
    (UnmarshalCredentials := sampleDecodeCredentials)
    (UnmarshalExternalAuthLdaps := sampleDecodeExternalAuthLdaps)
    Application sampleApplication (mkClient sampleVersion (constantAppliance "boom" 500)) []
  = Ok (("", false, Some ("api doesn't return OK : 500 with body :" +:+ LF +:+ "boom")),
        [mkRequest "/applications/?fields=application_name,id&limit=-1" MethodGet None]).
Proof.
  apply (X3_locator_propagates_failures
           (UnmarshalApplications := sampleDecodeApplications)
           (UnmarshalCredentials := sampleDecodeCredentials)
           (UnmarshalExternalAuthLdaps := sampleDecodeExternalAuthLdaps)
           Application sampleApplication (mkClient sampleVersion (constantAppliance "boom" 500))
           [] "boom" 500 None eq_refl).
  right. discriminate.
Defined.

(** X6 at work: an LDAP authentication with a password and no login. *)
Lemma X6_ldap_requires_login_witness :
  resourceExternalAuthLdapUpdate sampleVersion
    (UnmarshalExternalAuthLdap := decodeNothing)
    sampleExternalAuthLdapWithoutLogin acceptingClient []
  = Ok ((sampleExternalAuthLdapWithoutLogin,
         diag_FromErr "missing 'login' and/or 'password' on externalauth_ldap ldap1"), []).
Proof.
  apply (X6_ldap_requires_login_and_password sampleVersion
           (UnmarshalExternalAuthLdap := decodeNothing)
           (UnmarshalExternalAuthLdaps := sampleDecodeExternalAuthLdaps)
           sampleExternalAuthLdapWithoutLogin acceptingClient []).
  - reflexivity.
  - vm_compute. reflexivity.
  - left. vm_compute. reflexivity.
Defined.

(** X7 at work: the Delete of an application that is already gone. *)
Lemma X7_delete_of_absent_witness :
  ∃ diags,
    DeleteContext sampleVersion Application sampleApplication goneClient []
    = Ok ((sampleApplication, diags), [mkRequest "/applications/" MethodDelete None])
    ∧ diags ≠ [].
Proof.
  destruct (X7_delete_reports_every_other_status sampleVersion Application sampleApplication
              goneClient [] "not found" StatusNotFound None eq_refl eq_refl)
    as (diags & H & Hnone & _).
  exists diags. split; [exact H|].
  intros Hnil. apply Hnone in Hnil as [_ [Hcode|Hcode]]; discriminate Hcode.
Defined.

(** X9 at work: the import of dev1/dom2/acc3/ssh_key, found under 42. *)
Lemma X9_credential_import_witness :
  ∃ log d',
    resourceDeviceLocalDomainAccountCredentialImport sampleVersion
      (UnmarshalCredential := sampleDecodeCredential)
      (UnmarshalCredentials := sampleDecodeCredentials) importedCredential
      (mkClient sampleVersion
         (scriptedAppliance [("[password,ssh_key]", StatusOK); ("{42}", StatusOK)])) []
    = Ok ((d', (Some [d'], None)), log)
    ∧ Id d' = "42"
    ∧ Get d' "device_id" = VString "dev1"
    ∧ Get d' "domain_id" = VString "dom2"
    ∧ Get d' "account_id" = VString "acc3"
    ∧ Get d' "type"
      = VString (jsonDeviceLocalDomainAccountCredential.Type_ returnedCredential)
    ∧ Get d' "public_key"
      = VString (jsonDeviceLocalDomainAccountCredential.PublicKey returnedCredential)
    ∧ ∀ k, k ∈ secretFields -> Get d' k = Get importedCredential k.
Proof.
  eexists.
  eapply (X9_credential_import_populates_parent_keys sampleVersion
            (UnmarshalCredential := sampleDecodeCredential)
            (UnmarshalCredentials := sampleDecodeCredentials) importedCredential
            (mkClient sampleVersion
               (scriptedAppliance [("[password,ssh_key]", StatusOK); ("{42}", StatusOK)])) []
            "dev1" "dom2" "acc3" "ssh_key" "42" returnedCredential);
    vm_compute; reflexivity.
Defined.

(** X10 at work: the credential 42 is listed, and gone when it is read. *)
Lemma X10_credential_import_of_vanished_witness :
  ∃ log d',
    resourceDeviceLocalDomainAccountCredentialImport sampleVersion
      (UnmarshalCredential := sampleDecodeCredential)
      (UnmarshalCredentials := sampleDecodeCredentials) importedCredential
      (mkClient sampleVersion
         (scriptedAppliance [("[password,ssh_key]", StatusOK); ("", StatusNotFound)])) []
    = Ok ((d', (Some [d'], None)),
          log ++ [mkRequest (credentialsURI "dev1" "dom2" "acc3" +:+ "42") MethodGet None])
    ∧ Id d' = "42"
    ∧ Get d' "type" = VString ""
    ∧ Get d' "public_key" = VString "".
Proof.
  eexists.
  eapply (X10_credential_import_of_vanished_record sampleVersion
            (UnmarshalCredential := sampleDecodeCredential)
            (UnmarshalCredentials := sampleDecodeCredentials) importedCredential
            (mkClient sampleVersion
               (scriptedAppliance [("[password,ssh_key]", StatusOK); ("", StatusNotFound)])) []
            "dev1" "dom2" "acc3" "ssh_key" "42" _ "");
    vm_compute; reflexivity.
Defined.

(** X11 at work: app1 is posted and listed under 42, and gone when read. *)
Lemma X11_create_of_vanished_witness :
  ∃ log,
    CreateContext sampleVersion (fun _ => "{}")
      (UnmarshalApplication := decodeNothing)
      (UnmarshalApplications := sampleDecodeApplications)
      (UnmarshalCredential := sampleDecodeCredential)
      (UnmarshalCredentials := sampleDecodeCredentials)
      (UnmarshalParent := sampleDecodeParent)
      (UnmarshalExternalAuthLdap := decodeNothing)
      (UnmarshalExternalAuthLdaps := sampleDecodeExternalAuthLdaps)
      Application sampleApplication
      (mkClient sampleVersion
         (scriptedAppliance [("[]", StatusOK); ("", StatusNoContent); ("[app1]", StatusOK);
                             ("", StatusNotFound)])) []
    = Ok ((SetId sampleApplication "", nil),
          log ++ [mkRequest "/applications/42" MethodGet None]).
Proof.
  eexists.
  eapply (X11_create_of_vanished_record sampleVersion (fun _ => "{}")
            (UnmarshalApplication := decodeNothing)
            (UnmarshalApplications := sampleDecodeApplications)
            (UnmarshalCredential := sampleDecodeCredential)
            (UnmarshalCredentials := sampleDecodeCredentials)
            (UnmarshalParent := sampleDecodeParent)
            (UnmarshalExternalAuthLdap := decodeNothing)
            (UnmarshalExternalAuthLdaps := sampleDecodeExternalAuthLdaps)
            Application sampleApplication
            (mkClient sampleVersion
               (scriptedAppliance [("[]", StatusOK); ("", StatusNoContent);
                                   ("[app1]", StatusOK); ("", StatusNotFound)])) []
            _ _ _ _ "" "42" "");
    vm_compute; reflexivity.
Defined.

(** X12 at work: the parents of the credential exist, no credential of type
    ssh_key is listed before the POST, and the credential 42 is, after. *)
Lemma X12_credential_create_witness :
  ∃ log d',
    resourceDeviceLocalDomainAccountCredentialCreate sampleVersion
      (UnmarshalCredential := sampleDecodeCredential)
      (UnmarshalCredentials := sampleDecodeCredentials)
      (UnmarshalParent := sampleDecodeParent) sampleCredential
      (mkClient sampleVersion
         (scriptedAppliance [("{p}", StatusOK); ("{p}", StatusOK); ("{p}", StatusOK);
                             ("[]", StatusOK); ("", StatusNoContent);
                             ("[password,ssh_key]", StatusOK); ("{42}", StatusOK)])) []
    = Ok ((d', nil), log)
    ∧ Id d' = "42"
    ∧ Get d' "type"
      = VString (jsonDeviceLocalDomainAccountCredential.Type_ returnedCredential)
    ∧ Get d' "public_key"
      = VString (jsonDeviceLocalDomainAccountCredential.PublicKey returnedCredential)
    ∧ ∀ k, k ∈ secretFields -> Get d' k = Get sampleCredential k.
Proof.
  eexists.
  eapply (X12_credential_create_binds_id sampleVersion (fun _ => "{}")
            (UnmarshalApplication := decodeNothing)
            (UnmarshalApplications := sampleDecodeApplications)
            (UnmarshalCredential := sampleDecodeCredential)
            (UnmarshalCredentials := sampleDecodeCredentials)
            (UnmarshalParent := sampleDecodeParent)
            (UnmarshalExternalAuthLdap := decodeNothing)
            (UnmarshalExternalAuthLdaps := sampleDecodeExternalAuthLdaps)
            sampleCredential
            (mkClient sampleVersion
               (scriptedAppliance [("{p}", StatusOK); ("{p}", StatusOK); ("{p}", StatusOK);
                                   ("[]", StatusOK); ("", StatusNoContent);
                                   ("[password,ssh_key]", StatusOK); ("{42}", StatusOK)])) []
            _ _ _ _ _ "" "42" returnedCredential);
    [vm_compute; reflexivity .. | vm_compute; discriminate].
Defined.

(** X13 at work: asked for the policy "default", the appliance lists the
    policy "other" first; the data take its id and keep the name asked. *)
Lemma X13_data_source_read_witness :
  ∃ log d',
    dataSourceLocalpasswordpolicyRead [sampleVersion]
      (UnmarshalLocalpasswordpolicies := sampleDecodePolicies) unsetPolicy
      (mkClient sampleVersion (constantAppliance "[other,default]" StatusOK)) []
    = Ok ((d', nil), log)
    ∧ Id d' = jsonLocalpasswordpolicy.ID (listedLocalpasswordpolicy "2" "other")
    ∧ Get d' "password_policy_name" = Get unsetPolicy "password_policy_name"
    ∧ ∀ k v, (k, v) ∈ mirroredPolicy (listedLocalpasswordpolicy "2" "other") -> Get d' k = v.
Proof.
  eexists.
  eapply (X13_data_source_read_mirrors_policy [sampleVersion]
            (UnmarshalLocalpasswordpolicies := sampleDecodePolicies) unsetPolicy
            (mkClient sampleVersion (constantAppliance "[other,default]" StatusOK)) []
            (listedLocalpasswordpolicy "2" "other")).
  - apply list_elem_of_singleton. reflexivity.
  - vm_compute. reflexivity.
Defined.

(** X14 at work: the query for the policy of an unset configuration is
    answered 404. *)
Lemma X14_data_source_read_of_404_witness :
  dataSourceLocalpasswordpolicyRead [sampleVersion]
    (UnmarshalLocalpasswordpolicies := sampleDecodePolicies) unsetPolicy goneClient []
  = Ok ((unsetPolicy,
         diag_FromErr ("api doesn't return OK: " +:+ pretty StatusNotFound +:+ " with body:"
                       +:+ LF +:+ "not found")),
        [] ++ [mkRequest (policyURI unsetPolicy) MethodGet None])
  ∧ (rdState unsetPolicy !! "password_policy_name" = None ->
     policyURI unsetPolicy = "/localpasswordpolicies/?q=password_policy_name=default").
Proof.
  apply (X14_data_source_read_of_other_status [sampleVersion]
           (UnmarshalLocalpasswordpolicies := sampleDecodePolicies) unsetPolicy goneClient []
           "not found" StatusNotFound).
  - apply list_elem_of_singleton. reflexivity.
  - reflexivity.
  - discriminate.
Defined.

(** X16 at work: the sample application, returned without local domains. *)
Lemma X16_application_decode_encode_witness :
  ∃ jsonData d',
    prepareApplicationJSON sampleApplication = Ok jsonData
    ∧ fillApplication (fun _ => "{}") sampleApplication (withLocalDomains jsonData (Some []))
      = Ok d'
    ∧ Id d' = Id sampleApplication
    ∧ (∀ k, k ∈ applicationStrings -> Get d' k = Get sampleApplication k)
    ∧ GetSet d' "global_domains" = []
    ∧ pathOfValue <$> GetSet d' "paths" = pathOfValue <$> GetSet sampleApplication "paths".
Proof.
  apply (X16_application_decode_encode (fun _ => "{}") sampleApplication sampleApplication
           (Some [])).
  vm_compute. reflexivity.
Defined.

(** X18 at work: the POST of app1 is answered 500. *)
Lemma X18_create_post_refused_witness :
  ∃ log json,
    CreateContext sampleVersion (fun _ => "{}")
      (UnmarshalApplication := decodeNothing)
      (UnmarshalApplications := sampleDecodeApplications)
      (UnmarshalCredential := sampleDecodeCredential)
      (UnmarshalCredentials := sampleDecodeCredentials)
      (UnmarshalParent := sampleDecodeParent)
      (UnmarshalExternalAuthLdap := decodeNothing)
      (UnmarshalExternalAuthLdaps := sampleDecodeExternalAuthLdaps)
      Application sampleApplication
      (mkClient sampleVersion (scriptedAppliance [("[]", StatusOK); ("boom", 500%Z)])) []
    = Ok ((sampleApplication,
           diag_FromErr (writeErrorPrefix Application +:+ pretty 500%Z
                         +:+ statusErrorInfix Application +:+ "boom")),
          log ++ [mkRequest (collectionURI Application sampleApplication) MethodPost
                    (Some json)]).
Proof.
  eexists. eexists.
  eapply (X18_create_post_refused sampleVersion (fun _ => "{}")
            (UnmarshalApplication := decodeNothing)
            (UnmarshalApplications := sampleDecodeApplications)
            (UnmarshalCredential := sampleDecodeCredential)
            (UnmarshalCredentials := sampleDecodeCredentials)
            (UnmarshalParent := sampleDecodeParent)
            (UnmarshalExternalAuthLdap := decodeNothing)
            (UnmarshalExternalAuthLdaps := sampleDecodeExternalAuthLdaps)
            Application sampleApplication
            (mkClient sampleVersion (scriptedAppliance [("[]", StatusOK); ("boom", 500%Z)])) []
            _ _ "");
    [vm_compute; reflexivity .. | discriminate | discriminate].
Defined.

(** X19 at work: the PUT of the LDAP authentication 7 is answered 403. *)
Lemma X19_update_put_refused_witness :
  ∃ json,
    UpdateContext sampleVersion (fun _ => "{}")
      (UnmarshalApplication := decodeNothing) (UnmarshalCredential := sampleDecodeCredential)
      (UnmarshalExternalAuthLdap := decodeNothing)
      ExternalAuthLdap sampleExternalAuthLdap
      (mkClient sampleVersion (constantAppliance "denied" 403%Z)) []
    = Ok ((mkResourceData (rdId sampleExternalAuthLdap) (rdState sampleExternalAuthLdap)
             (updatesInPartialMode ExternalAuthLdap || rdPartial sampleExternalAuthLdap),
           diag_FromErr (writeErrorPrefix ExternalAuthLdap +:+ pretty 403%Z
                         +:+ statusErrorInfix ExternalAuthLdap +:+ "denied")),
          [] ++ [mkRequest (updateURI ExternalAuthLdap sampleExternalAuthLdap) MethodPut
                   (Some json)]).
Proof.
  eexists.
  eapply (X19_update_put_refused sampleVersion (fun _ => "{}")
            (UnmarshalApplication := decodeNothing)
            (UnmarshalCredential := sampleDecodeCredential)
            (UnmarshalExternalAuthLdap := decodeNothing)
            ExternalAuthLdap sampleExternalAuthLdap
            (mkClient sampleVersion (constantAppliance "denied" 403%Z)) []);
    [vm_compute; reflexivity .. | discriminate | discriminate].
Defined.

(** X20 at work: the Import of the sample application against an appliance
    of version v3.2. *)
Lemma X20_version_gate_witness :
  ∃ pre,
    Importer sampleVersion (fun _ => "{}")
      (UnmarshalApplication := decodeNothing)
      (UnmarshalApplications := sampleDecodeApplications)
      (UnmarshalCredential := sampleDecodeCredential)
      (UnmarshalCredentials := sampleDecodeCredentials)
      (UnmarshalExternalAuthLdap := decodeNothing)
      (UnmarshalExternalAuthLdaps := sampleDecodeExternalAuthLdaps)
      Application sampleApplication olderClient []
    = Ok ((sampleApplication, (None, Some (pre +:+ bastionAPIVersion olderClient))), []).
Proof.
  destruct (X20_version_gate_of_every_entry_point sampleVersion [sampleVersion]
              (fun _ => "{}")
              (UnmarshalApplication := decodeNothing)
              (UnmarshalApplications := sampleDecodeApplications)
              (UnmarshalCredential := sampleDecodeCredential)
              (UnmarshalCredentials := sampleDecodeCredentials)
              (UnmarshalParent := sampleDecodeParent)
              (UnmarshalExternalAuthLdap := decodeNothing)
              (UnmarshalExternalAuthLdaps := sampleDecodeExternalAuthLdaps)
              (UnmarshalLocalpasswordpolicies := sampleDecodePolicies)
              olderClient) as (_ & _ & Hgate & _).
  destruct (Hgate ltac:(discriminate) Application sampleApplication [])
    as (pre & d' & _ & _ & _ & _ & _ & _ & Himport).
  exists pre. exact Himport.
Defined.
